(** * A shallow embedding of the module-manager Manifest controller

    The development follows the Go packages of the repository:
    - [GoLib]: the few pieces of Go and of controller-runtime the code
      relies on (error values with [errors.Is] and [os.IsPermission],
      dynamically typed values, object keys);
    - [Types]: chart sources, chart infos, cluster infos and jobs (pkg/types);
    - [V1alpha1]: the Manifest custom resource (api/v1alpha1);
    - [Workers]: the install worker pool (controllers/workers.go);
    - [Paths]: [strings], [path] and [path/filepath] on a slash-separated
      file system, and the tar path cleaner built on them (pkg/util);
    - [ManifestPkg]: jobs and responses as the controller sees them;
    - [Util]: the readiness conditions (internal/pkg/util/manifest.go);
    - [Controllers]: the reconciler and its response collector
      (controllers/manifest_controller.go);
    - [Operations]: rendered-manifest acquisition (pkg/manifest/operations.go);
    - [Prepare]: the prepare phase (internal/pkg/prepare/deploy.go);
    - [WorkerPool]: starting the workers (controllers/workers.go);
    - [DeclarativeV2]: the post-render transforms (pkg/declarative/v2) and
      the transformer that runs them (pkg/manifest/transform.go);
    - [HelmClient]: namespaces and readiness of a resource list
      (pkg/manifest/client.go);
    - [Descriptor]: extracting chart layers and decoding config layers
      (pkg/descriptor);
    - [Lifecycle]: install, uninstall, consistency check and the
      construction of manifest processors (pkg/manifest/operations.go).

    Calls that leave the process (API server, registry, file system, the
    renderers) are explicit oracle fields of an environment record; every
    write to the API server is recorded in a trace, and the jobs of the
    prepare phase live on a heap, since the code hands out pointers. *)

From Stdlib Require Import ZArith String Ascii List Bool Lia.
From stdpp Require Import base option list strings gmap.
From Stdlib Require Import DecimalString.

Set Warnings "-register-all".

Open Scope string_scope.
Open Scope Z_scope.

(* ===================================================================== *)
(** ** Go standard library *)
(* ===================================================================== *)

Module GoLib.

(** Go [error] values, as far as the code inspects them.  A [nil] error is
    [None] of [option error]. *)
Inductive error : Type :=
| EOF                                         (* io.EOF *)
| ErrUnexpectedEOF                            (* io.ErrUnexpectedEOF *)
| ErrPermission                               (* EACCES / EPERM / fs.ErrPermission *)
| ErrNoAuthSecretFound                        (* prepare.ErrNoAuthSecretFound *)
| NotFound                                    (* apierrors: StatusReasonNotFound *)
| LabelNotFoundError (label : string)         (* util.LabelNotFoundError *)
| ErrorString (msg : string)                  (* errors.New, fmt.Errorf without %w *)
| WrapError (msg : string) (inner : error)    (* fmt.Errorf("...: %w", inner) *)
| PathError (op path : string) (inner : error). (* fs.PathError *)

(** Sentinel comparison [err == target] for the sentinels used as targets. *)
Definition sentinel_eqb (e target : error) : bool :=
  match e, target with
  | EOF, EOF => true
  | ErrUnexpectedEOF, ErrUnexpectedEOF => true
  | ErrPermission, ErrPermission => true
  | ErrNoAuthSecretFound, ErrNoAuthSecretFound => true
  | _, _ => false
  end.

(** [errors.Is(err, target)]: compares, then follows [Unwrap]. *)
Fixpoint errors_Is (e target : error) : bool :=
  sentinel_eqb e target ||
  match e with
  | WrapError _ inner => errors_Is inner target
  | PathError _ _ inner => errors_Is inner target
  | _ => false
  end.

(** [os.IsPermission(err)]: [underlyingError] strips one [*PathError]
    (it does not follow [%w] wrappers), then tests for a permission errno. *)
Definition underlyingError (e : error) : error :=
  match e with
  | PathError _ _ inner => inner
  | _ => e
  end.

Definition os_IsPermission (e : error) : bool :=
  match underlyingError e with
  | ErrPermission => true
  | _ => false
  end.

(** [client.IgnoreNotFound] *)
Definition IgnoreNotFound (e : error) : option error :=
  match e with
  | NotFound => None
  | _ => Some e
  end.

(** [err.Error()] *)
Fixpoint Error (e : error) : string :=
  match e with
  | EOF => "EOF"
  | ErrUnexpectedEOF => "unexpected EOF"
  | ErrPermission => "permission denied"
  | ErrNoAuthSecretFound => "no auth secret found"
  | NotFound => "not found"
  | LabelNotFoundError label => "label " +:+ label +:+ " not found"
  | ErrorString msg => msg
  | WrapError msg inner => msg +:+ ": " +:+ Error inner
  | PathError op path inner => op +:+ " " +:+ path +:+ ": " +:+ Error inner
  end.

(** [err != nil] *)
Definition failed (err : option error) : bool :=
  match err with
  | Some _ => true
  | None => false
  end.

(** Dynamically typed values, as YAML/JSON decoding produces them
    ([interface{}]): a map is kept as the list of its entries. *)
Inductive any : Type :=
| AnyNil
| AnyBool (b : bool)
| AnyInt (n : Z)
| AnyString (s : string)
| AnySlice (l : list any)
| AnyMap (m : list (string * any)).

(** [m[key]] on a [map[string]interface{}]: a missing key reads as [nil]. *)
Fixpoint map_index (m : list (string * any)) (key : string) : any :=
  match m with
  | [] => AnyNil
  | (k, v) :: m' => if String.eqb k key then v else map_index m' key
  end.

(** [mappedConfig["name"] == installName]: an interface value equals a
    string exactly when it holds that string. *)
Definition any_eq_string (v : any) (s : string) : bool :=
  match v with
  | AnyString s' => String.eqb s' s
  | _ => false
  end.

(** [map[string]interface{}] *)
Definition Flags := list (string * any).

(** [client.ObjectKey] *)
Record ObjectKey : Type := mkKey {
  key_Namespace : string;
  key_Name : string
}.

End GoLib.
Import GoLib.

(* ===================================================================== *)
(** ** pkg/types: what the prepare phase builds *)
(* ===================================================================== *)

Module Types.

(** [type RefTypeMetadata string]; the constants for Kustomize and for
    the missing type are declared next to the two of api/v1alpha1. *)
Definition RefTypeMetadata := string.
Definition HelmChartType : RefTypeMetadata := "helm-chart".
Definition OciRefType : RefTypeMetadata := "oci-ref".
Definition KustomizeType : RefTypeMetadata := "kustomize".
Definition NilRefType : RefTypeMetadata := "".

Definition NotEmpty (t : RefTypeMetadata) : bool := negb (String.eqb t NilRefType).

Record ImageSpec : Type := mkImageSpec {
  Repo : string;
  img_Name : string;
  Ref : string;
  img_Type : RefTypeMetadata;
  CredSecretSelector : option string
}.

Record HelmChartSpec : Type := mkHelmChartSpec {
  helm_URL : string;
  helm_ChartName : string
}.

Record KustomizeSpec : Type := mkKustomizeSpec {
  kust_Path : string;
  kust_URL : string
}.

Record ChartFlags : Type := mkChartFlags {
  ConfigFlags : Flags;
  SetFlags : Flags
}.

Record ChartInfo : Type := mkChartInfo {
  ChartPath : string;
  RepoName : string;
  URL : string;
  ChartName : string;
  ReleaseName : string;
  Flags_ : ChartFlags
}.

(** A REST configuration and a client are known by the API server they
    talk to. *)
Record RestConfig : Type := mkRestConfig { Host : string }.
Record Client : Type := mkClient { client_Host : string }.

Record ClusterInfo : Type := mkClusterInfo {
  Config : option RestConfig;
  Client_ : option Client
}.

(** [types.InstallInfo]: the chart info is a pointer, nil until the job is
    given one; the chart infos built by the prepare phase are fresh and
    never written after they are stored, so the pointee is kept in place. *)
Record InstallInfo : Type := mkInstallInfo {
  ChartInfo_ : option ChartInfo;
  ClusterInfo_ : ClusterInfo;
  BaseResource : ObjectKey;
  Crds : list string;
  CustomResources : list string;
  CustomStateCheck : bool;
  CheckReadyStates : bool
}.

Definition with_ChartInfo (d : InstallInfo) (c : ChartInfo) : InstallInfo :=
  mkInstallInfo (Some c) (ClusterInfo_ d) (BaseResource d) (Crds d) (CustomResources d)
                (CustomStateCheck d) (CheckReadyStates d).

(** The methods of a cached [types.ManifestClient] the prepare phase calls. *)
Record ManifestClient : Type := mkProcessor {
  GetClusterInfo : error + ClusterInfo
}.

(** [types.RendererCache], read-only here: owner key (namespace, name) to
    processor. *)
Definition RendererCache := gmap (string * string) ManifestClient.

Definition GetProcessor (cache : RendererCache) (key : ObjectKey) : option ManifestClient :=
  cache !! (key_Namespace key, key_Name key).

End Types.

(* ===================================================================== *)
(** ** api/v1alpha1: the Manifest resource *)
(* ===================================================================== *)

Module V1alpha1.

Definition ManifestKind : string := "Manifest".

(** [type ManifestState string] with its four constants; the state of a
    freshly created Manifest is the empty string. *)
Definition ManifestState := string.
Definition ManifestStateReady : ManifestState := "Ready".
Definition ManifestStateProcessing : ManifestState := "Processing".
Definition ManifestStateError : ManifestState := "Error".
Definition ManifestStateDeleting : ManifestState := "Deleting".

Definition ManifestConditionType := string.
Definition ConditionTypeReady : ManifestConditionType := "Ready".

Definition ManifestConditionStatus := string.
Definition ConditionStatusTrue : ManifestConditionStatus := "True".
Definition ConditionStatusFalse : ManifestConditionStatus := "False".
Definition ConditionStatusUnknown : ManifestConditionStatus := "Unknown".

Record InstallItem : Type := mkInstallItem {
  item_ChartName : string;
  item_ClientConfig : string;
  item_Overrides : string
}.

Definition emptyInstallItem : InstallItem := mkInstallItem "" "" "".

Record ManifestCondition : Type := mkCondition {
  cond_Type : ManifestConditionType;
  cond_Status : ManifestConditionStatus;
  cond_Message : string;
  cond_Reason : string;
  cond_LastTransitionTime : option Z;
  cond_InstallInfo : InstallItem
}.

Record ManifestStatus : Type := mkStatus {
  State : ManifestState;
  Conditions : list ManifestCondition;
  ObservedGeneration : Z
}.

(** The raw [source] of an install is an opaque byte string here; the
    codec that reads it is a parameter of the prepare phase. *)
Record InstallInfo : Type := mkInstall {
  Source : string;
  inst_Name : string
}.

(** The embedded custom resource ([unstructured.Unstructured]): [None] is
    a nil [Object]. *)
Record Unstructured : Type := mkUnstructured {
  Kind : string;
  res_Labels : gmap string string
}.

(** [metav1.ObjectMeta] and the Manifest spec, restricted to the fields the
    reconciler and the prepare phase read or write.  A timestamp is an
    instant on the integer line; the zero instant is [0]. *)
Record Manifest : Type := mkManifest {
  Name : string;
  Namespace : string;
  Generation : Z;
  Labels : gmap string string;
  Finalizers : list string;
  DeletionTimestamp : option Z;
  Remote : bool;
  Config : Types.ImageSpec;
  CRDs : Types.ImageSpec;
  Resource : option Unstructured;
  Installs : list InstallInfo;
  Status : ManifestStatus
}.

(** [IsZero] of a [metav1.Time] pointer: nil or the zero instant. *)
Definition IsZero (t : option Z) : bool :=
  match t with
  | None => true
  | Some i => i =? 0
  end.

Definition with_status (m : Manifest) (s : ManifestStatus) : Manifest :=
  mkManifest (Name m) (Namespace m) (Generation m) (Labels m) (Finalizers m)
             (DeletionTimestamp m) (Remote m) (Config m) (CRDs m) (Resource m)
             (Installs m) s.

Definition with_finalizers (m : Manifest) (fs : list string) : Manifest :=
  mkManifest (Name m) (Namespace m) (Generation m) (Labels m) fs
             (DeletionTimestamp m) (Remote m) (Config m) (CRDs m) (Resource m)
             (Installs m) (Status m).

Definition with_resource (m : Manifest) (r : option Unstructured) : Manifest :=
  mkManifest (Name m) (Namespace m) (Generation m) (Labels m) (Finalizers m)
             (DeletionTimestamp m) (Remote m) (Config m) (CRDs m) r
             (Installs m) (Status m).

Definition with_state (m : Manifest) (st : ManifestState) : Manifest :=
  with_status m (mkStatus st (Conditions (Status m)) (ObservedGeneration (Status m))).

Definition with_conditions (m : Manifest) (cs : list ManifestCondition) : Manifest :=
  with_status m (mkStatus (State (Status m)) cs (ObservedGeneration (Status m))).

(** [func (m *Manifest) SetObservedGeneration() *Manifest] *)
Definition SetObservedGeneration (m : Manifest) : Manifest :=
  with_status m (mkStatus (State (Status m)) (Conditions (Status m)) (Generation m)).

End V1alpha1.
Import V1alpha1.

(* ===================================================================== *)
(** ** controllers/workers.go: the worker pool *)
(* ===================================================================== *)

Module Workers.

(** [ManifestWorkerPool]; Go's [int] is a 64-bit integer, no arithmetic is
    done on the two sizes. *)
Record ManifestWorkerPool : Type := mkPool {
  initialSize : Z;
  size : Z
}.

Definition NewManifestWorkers (workersConcurrentManifests : Z) : ManifestWorkerPool :=
  mkPool workersConcurrentManifests workersConcurrentManifests.

Definition GetWorkerPoolSize (mw : ManifestWorkerPool) : Z := size mw.

Definition SetWorkerPoolSize (mw : ManifestWorkerPool) (newSize : Z) : ManifestWorkerPool :=
  if newSize >? 0
  then mkPool (initialSize mw) (initialSize mw)
  else mkPool (initialSize mw) newSize.

End Workers.

(* ===================================================================== *)
(** ** strings, path and path/filepath (slash-separated file systems) *)
(* ===================================================================== *)

Module Paths.

Definition colon : ascii := ":"%char.
Definition slash : ascii := "/"%char.
Definition backslash : ascii := "\"%char.

(** [strings.Contains(s, sep)] for a one-byte [sep]. *)
Fixpoint strings_Contains (s : string) (sep : ascii) : bool :=
  match s with
  | EmptyString => false
  | String c s' => Ascii.eqb c sep || strings_Contains s' sep
  end.

(** [strings.ReplaceAll(s, old, new)] for one-byte [old] and [new]. *)
Fixpoint strings_ReplaceAll (s : string) (old new : ascii) : string :=
  match s with
  | EmptyString => EmptyString
  | String c s' =>
      String (if Ascii.eqb c old then new else c) (strings_ReplaceAll s' old new)
  end.

(** [strings.Split(s, sep)] for a one-byte [sep]: always at least one part. *)
Fixpoint strings_Split (s : string) (sep : ascii) : list string :=
  match s with
  | EmptyString => [EmptyString]
  | String c s' =>
      if Ascii.eqb c sep then EmptyString :: strings_Split s' sep
      else match strings_Split s' sep with
           | [] => [String c EmptyString]
           | part :: parts => String c part :: parts
           end
  end.

(** [strings.Join(elems, sep)] for a one-byte [sep]. *)
Fixpoint strings_Join (elems : list string) (sep : ascii) : string :=
  match elems with
  | [] => EmptyString
  | [e] => e
  | e :: rest => e +:+ String sep (strings_Join rest sep)
  end.

(** [path.IsAbs]: the path starts with a slash. *)
Definition path_IsAbs (p : string) : bool :=
  match p with
  | String c _ => Ascii.eqb c slash
  | EmptyString => false
  end.

(** The buffer of [filepath.Clean], element by element: [out] holds the
    elements written so far, last written first, and [dotdot] counts the
    leading elements that a [..] may not remove (they are [..] themselves). *)
Record lazybuf : Type := mkBuf {
  out : list string;
  dotdot : nat
}.

(** One round of the loop of [filepath.Clean] on the next element. *)
Definition clean_step (rooted : bool) (b : lazybuf) (elem : string) : lazybuf :=
  if String.eqb elem "" then b                       (* empty path element *)
  else if String.eqb elem "." then b                 (* . element *)
  else if String.eqb elem ".." then                  (* .. element *)
    if (dotdot b <? length (out b))%nat
    then mkBuf (tail (out b)) (dotdot b)               (* can backtrack *)
    else if negb rooted
         then mkBuf (".." :: out b) (S (length (out b))) (* keep the .. *)
         else b
  else mkBuf (elem :: out b) (dotdot b).               (* real path element *)

Definition clean_loop (rooted : bool) (elems : list string) : lazybuf :=
  fold_left (clean_step rooted) elems (mkBuf [] 0%nat).

(** The string [filepath.Clean] returns for a final buffer. *)
Definition render (rooted : bool) (b : lazybuf) : string :=
  if rooted then String slash (strings_Join (rev (out b)) slash)
  else match out b with
       | [] => "."
       | _ => strings_Join (rev (out b)) slash
       end.

(** [filepath.Clean] *)
Definition filepath_Clean (p : string) : string :=
  render (path_IsAbs p) (clean_loop (path_IsAbs p) (strings_Split p slash)).

(** [filepath.Join(a, b)]: empty elements are ignored, the rest is joined
    with the separator and cleaned. *)
Definition filepath_Join (a b : string) : string :=
  if negb (String.eqb a "") then filepath_Clean (a +:+ String slash b)
  else if negb (String.eqb b "") then filepath_Clean b
  else "".

(** [filepath.ToSlash]: the separator already is the slash. *)
Definition filepath_ToSlash (p : string) : string := p.

(** [util.CleanFilePathJoin] *)
Definition CleanFilePathJoin (root dest : string) : error + string :=
  if strings_Contains dest colon
  then inl (ErrorString "path contains ':', which is illegal")
  else
    let dest := strings_ReplaceAll dest backslash slash in
    if existsb (fun part => String.eqb part "..") (strings_Split dest slash)
    then inl (ErrorString "path contains '..', which is illegal")
    else if path_IsAbs dest
    then inl (ErrorString "path is absolute, which is illegal")
    else
      let newPath := filepath_Join root (filepath_Clean dest) in
      inr (filepath_ToSlash newPath).

(** The lexical position of a path: whether it is rooted, and its cleaned
    elements from the outermost to the innermost. *)
Definition position (p : string) : bool * list string :=
  (path_IsAbs p, rev (out (clean_loop (path_IsAbs p) (strings_Split p slash)))).

(** [p] lies inside the directory [root]: same anchoring, and the elements
    of [p] are those of [root] followed by a descent that never steps up. *)
Definition inside (root p : string) : Prop :=
  exists descent : list string,
    ~ In ".." descent /\
    fst (position p) = fst (position root) /\
    snd (position p) = (snd (position root) ++ descent)%list.

(** *** Notions for the statements about cleaned paths *)

(** An element [filepath.Clean] copies: not empty, not a dot, not a
    step up, and without separator. *)
Definition normal (e : string) : Prop :=
  e <> "" /\ e <> "." /\ e <> ".." /\ strings_Contains e slash = false.

Definition real (e : string) : bool :=
  negb (String.eqb e "") && negb (String.eqb e ".").

(** The buffers the loop can hold: real elements on top of the steps up
    it had to keep, and no step up at all below a root. *)
Definition canon (rooted : bool) (b : lazybuf) : Prop :=
  exists top, out b = (top ++ repeat ".." (dotdot b))%list /\
              Forall normal top /\ (rooted = true -> dotdot b = 0%nat).

End Paths.

(* ===================================================================== *)
(** ** pkg/manifest: what travels between reconciler and workers *)
(* ===================================================================== *)

Module ManifestPkg.

Definition ObjectKeyFromObject (m : Manifest) : ObjectKey :=
  mkKey (Namespace m) (Name m).

Inductive Mode : Type := CreateMode | DeletionMode.

(** The chart part of [manifest.InstallInfo], as the controller reads it. *)
Record DeployInfo : Type := mkDeployInfo {
  dep_ChartName : string;
  dep_ReleaseName : string;
  dep_ClientConfig : Flags;
  dep_Overrides : Flags;
  dep_BaseResource : ObjectKey
}.

Record InstallResponse : Type := mkResponse {
  Ready : bool;
  ResNamespacedName : ObjectKey;
  Err : option error;
  resp_ChartName : string;
  resp_ClientConfig : Flags;
  resp_Overrides : Flags
}.

(** [manifest.InstallInfo] embeds the chart info: the controller reads
    [deployInfo.ChartName], [deployInfo.ReleaseName] and the two flag maps
    through the embedding. *)
Definition deployInfoOf (chartInfo : Types.ChartInfo) (baseResource : ObjectKey) : DeployInfo :=
  mkDeployInfo (Types.ChartName chartInfo) (Types.ReleaseName chartInfo)
               (Types.ConfigFlags (Types.Flags_ chartInfo))
               (Types.SetFlags (Types.Flags_ chartInfo)) baseResource.

End ManifestPkg.
Import ManifestPkg.

(* ===================================================================== *)
(** ** internal/pkg/util: readiness conditions *)
(* ===================================================================== *)

Module Util.

Definition isReadyConditionFor (installName : string) (c : ManifestCondition) : bool :=
  String.eqb (cond_Type c) ConditionTypeReady && String.eqb (cond_Reason c) installName.

(** [getReadyConditionForComponent]: a copy of the first Ready condition
    whose reason is [installName]. *)
Definition getReadyConditionForComponent (m : Manifest) (installName : string)
  : ManifestCondition * bool :=
  match List.find (isReadyConditionFor installName) (Conditions (Status m)) with
  | Some existingCondition => (existingCondition, true)
  | None => (mkCondition "" "" "" "" None emptyInstallItem, false)
  end.

(** The closing loop of [AddReadyConditionForObjects]: overwrite the first
    matching entry of the slice and [break]. *)
Fixpoint storeCondition (chartName : string) (condition : ManifestCondition)
  (conditions : list ManifestCondition) : list ManifestCondition :=
  match conditions with
  | [] => []
  | existingCondition :: rest =>
      if isReadyConditionFor chartName existingCondition
      then condition :: rest
      else existingCondition :: storeCondition chartName condition rest
  end.

(** The body of the loop of [AddReadyConditionForObjects] for one item;
    [now] is the reading of the clock. *)
Definition addReadyConditionForObject (now : Z) (conditionStatus : ManifestConditionStatus)
  (message : string) (m : Manifest) (installItem : InstallItem) : Manifest :=
  let '(condition, exists_) := getReadyConditionForComponent m (item_ChartName installItem) in
  let condition :=
    if exists_ then condition
    else mkCondition ConditionTypeReady "" "" (item_ChartName installItem) None emptyInstallItem in
  let conditions :=
    if exists_ then Conditions (Status m)
    else (Conditions (Status m) ++ [condition])%list in
  let installInfo :=
    if negb (String.eqb (item_ClientConfig installItem) "")
       || negb (String.eqb (item_Overrides installItem) "")
    then installItem
    else cond_InstallInfo condition in
  let condition :=
    mkCondition (cond_Type condition) conditionStatus message (cond_Reason condition)
                (Some now) installInfo in
  with_conditions m (storeCondition (item_ChartName installItem) condition conditions).

(** [AddReadyConditionForObjects] *)
Definition AddReadyConditionForObjects (now : Z) (m : Manifest) (installItems : list InstallItem)
  (conditionStatus : ManifestConditionStatus) (message : string) : Manifest :=
  fold_left (addReadyConditionForObject now conditionStatus message) installItems m.

(** The item [AddReadyConditionForResponses] records for one response;
    [jsonMarshal] is [json.Marshal] on the flag maps. *)
Definition responseItem (jsonMarshal : Flags -> string) (response : InstallResponse) : InstallItem :=
  mkInstallItem (resp_ChartName response)
                (jsonMarshal (resp_ClientConfig response))
                (jsonMarshal (resp_Overrides response)).

Definition responseStatus (response : InstallResponse) : ManifestConditionStatus * string :=
  match Err response with
  | Some _ => (ConditionStatusFalse, "installation error")
  | None =>
      if negb (Ready response)
      then (ConditionStatusUnknown, "installation processing")
      else (ConditionStatusTrue, "installation successful")
  end.

(** [AddReadyConditionForResponses] *)
Definition AddReadyConditionForResponses (now : Z) (jsonMarshal : Flags -> string)
  (responses : list InstallResponse) (m : Manifest) : Manifest :=
  fold_left
    (fun m response =>
       let '(status, message) := responseStatus response in
       AddReadyConditionForObjects now m [responseItem jsonMarshal response] status message)
    responses m.

(** *** Notions for the statements about conditions *)

(** Two Manifests that differ at most in their conditions. *)
Definition same_but_conditions (m m' : Manifest) : Prop :=
  Name m' = Name m /\ Namespace m' = Namespace m /\ Generation m' = Generation m /\
  Finalizers m' = Finalizers m /\ DeletionTimestamp m' = DeletionTimestamp m /\
  Installs m' = Installs m /\ State (Status m') = State (Status m) /\
  ObservedGeneration (Status m') = ObservedGeneration (Status m).

(** The Manifest holds a Ready condition with this reason. *)
Definition hasReadyReason (reason : string) (m : Manifest) : Prop :=
  exists c, In c (Conditions (Status m)) /\
            cond_Type c = ConditionTypeReady /\ cond_Reason c = reason.

End Util.

(* ===================================================================== *)
(** ** controllers: the reconciler and its response collector *)
(* ===================================================================== *)

Module Controllers.
Import Util.

Definition ManifestFinalizer : string := "operator.kyma-project.io/manifest".

(** [controllerutil]: finalizers are a slice of strings. *)
Definition ContainsFinalizer (m : Manifest) (finalizer : string) : bool :=
  existsb (String.eqb finalizer) (Finalizers m).

Definition AddFinalizer (m : Manifest) (finalizer : string) : Manifest :=
  if ContainsFinalizer m finalizer then m
  else with_finalizers m (Finalizers m ++ [finalizer])%list.

Definition RemoveFinalizer (m : Manifest) (finalizer : string) : Manifest :=
  with_finalizers m (List.filter (fun f => negb (String.eqb f finalizer)) (Finalizers m)).

(** Everything the reconciler asks of the outside: the API server, the
    clock, the prepare phase and the manifest operations of a job. *)
Record Env : Type := mkEnv {
  now : Z;
  jsonMarshal : Flags -> string;
  apiGet : ObjectKey -> error + Manifest;             (* r.Get *)
  apiUpdate : Manifest -> option error;               (* r.Update *)
  apiStatusUpdate : Manifest -> option error;         (* r.Status().Update *)
  GetInstallInfos : Manifest -> error + list DeployInfo;
  NewOperations : DeployInfo -> option error;
  VerifyResources : DeployInfo -> bool * option error;
  Install : DeployInfo -> bool * option error;
  Uninstall : DeployInfo -> bool * option error
}.

(** A write sent to the API server: the object itself ([r.Update], which
    carries the finalizers) or its status subresource. *)
Inductive ApiWrite : Type :=
| Update (m : Manifest)
| StatusUpdate (m : Manifest).

(** How long until the next reconcile: the interval is drawn, with a jitter
    of ten percent, around one of the configured durations. *)
Inductive Requeue : Type := NoRequeue | AfterFailure | AfterSuccess.

(** [updateManifest] *)
Definition updateManifest (env : Env) (m : Manifest) : option error * list ApiWrite :=
  (apiUpdate env m, [Update m]).

(** [updateManifestStatus] *)
Definition updateManifestStatus (env : Env) (m : Manifest) (state : ManifestState)
  (message : string) : option error * list ApiWrite :=
  let m := with_state m state in
  let kind := [mkInstallItem ManifestKind "" ""] in
  let m :=
    if String.eqb state ManifestStateReady
    then AddReadyConditionForObjects (now env) m kind ConditionStatusTrue message
    else if String.eqb state ""
    then AddReadyConditionForObjects (now env) m kind ConditionStatusUnknown message
    else if String.eqb state ManifestStateError
            || String.eqb state ManifestStateDeleting
            || String.eqb state ManifestStateProcessing
    then AddReadyConditionForObjects (now env) m kind ConditionStatusFalse message
    else m in
  let m := SetObservedGeneration m in
  (apiStatusUpdate env m, [StatusUpdate m]).

(** [HandleCharts]: what a worker sends back for one job. *)
Definition HandleCharts (env : Env) (deployInfo : DeployInfo) (mode : Mode) : InstallResponse :=
  let '(ready, err) :=
    match NewOperations env deployInfo with
    | Some err => (false, Some err)
    | None =>
        match mode with
        | CreateMode => Install env deployInfo
        | DeletionMode => Uninstall env deployInfo
        end
    end in
  mkResponse ready (dep_BaseResource deployInfo) err (dep_ChartName deployInfo)
             (dep_ClientConfig deployInfo) (dep_Overrides deployInfo).

(** What one [select] of the collector yields: the context is done, or a
    response arrives on the response channel. *)
Inductive ChanEvent : Type :=
| CtxDone
| Recv (response : InstallResponse).

(** A response with an error; a response with [ready=false] and no error. *)
Definition hasError (response : InstallResponse) : bool :=
  match Err response with
  | Some _ => true
  | None => false
  end.

Definition stillProcessing (response : InstallResponse) : bool :=
  match Err response with
  | Some _ => false
  | None => negb (Ready response)
  end.

(** The status updates of a trace, and the states they write. *)
Definition statusWrites (w : list ApiWrite) : list Manifest :=
  flat_map (fun a => match a with StatusUpdate m => [m] | Update _ => [] end) w.

Definition statusStates (w : list ApiWrite) : list ManifestState :=
  map (fun m => State (Status m)) (statusWrites w).

(** The variables of the collecting loop. *)
Record Collected : Type := mkCollected {
  errorState : bool;
  processing : bool;
  responses : list InstallResponse
}.

Inductive LoopResult : Type :=
| LoopCancelled                                  (* return on ctx.Done() *)
| LoopBlocked (sofar : Collected)                (* select waits: nothing left to deliver *)
| LoopDone (c : Collected) (undelivered : list ChanEvent).

(** [for a := 1; a <= chartCount; a++ { select ... }]: [rounds] is the
    number of iterations left. *)
Fixpoint collectLoop (rounds : nat) (events : list ChanEvent) (c : Collected) : LoopResult :=
  match rounds with
  | O => LoopDone c events
  | S rounds' =>
      match events with
      | [] => LoopBlocked c
      | CtxDone :: _ => LoopCancelled
      | Recv response :: events' =>
          let responses := (responses c ++ [response])%list in
          match Err response with
          | Some _ => collectLoop rounds' events' (mkCollected true (processing c) responses)
          | None =>
              if negb (Ready response)
              then collectLoop rounds' events' (mkCollected (errorState c) true responses)
              else collectLoop rounds' events' (mkCollected (errorState c) (processing c) responses)
          end
      end
  end.

(** The end state [setProcessedState] chooses. *)
Definition endStateOf (errorState processing : bool) (m : Manifest) : ManifestState :=
  if errorState then ManifestStateError
  else if IsZero (DeletionTimestamp m)
       then if processing then ManifestStateProcessing else ManifestStateReady
       else ManifestStateDeleting.

(** [setProcessedState]; a failed status update is only logged. *)
Definition setProcessedState (env : Env) (errorState processing : bool) (m : Manifest)
  : list ApiWrite :=
  let endState := endStateOf errorState processing m in
  snd (updateManifestStatus env m endState (ManifestKind +:+ " in " +:+ endState +:+ " state")).

(** How a run of the collector ends. *)
Inductive HandlerOutcome : Type :=
| ContextClosed                       (* cancelled while collecting *)
| StillWaiting                        (* blocked on the response channel *)
| LocateFailed (err : error)          (* the Manifest could not be read back *)
| FinalizerRemoved                    (* finalizer removed, no status written *)
| StateProcessed.                     (* setProcessedState was reached *)

(** [ResponseHandlerFunc]: the collector of one dispatch round. *)
Definition ResponseHandlerFunc (env : Env) (chartCount : Z) (events : list ChanEvent)
  (namespacedName : ObjectKey) : HandlerOutcome * list ApiWrite :=
  match collectLoop (Z.to_nat chartCount) events (mkCollected false false []) with
  | LoopCancelled => (ContextClosed, [])
  | LoopBlocked _ => (StillWaiting, [])
  | LoopDone c _ =>
      match apiGet env namespacedName with
      | inl err => (LocateFailed err, [])
      | inr latestManifestObj =>
          let latestManifestObj :=
            AddReadyConditionForResponses (now env) (jsonMarshal env) (responses c)
                                          latestManifestObj in
          if negb (errorState c) && negb (IsZero (DeletionTimestamp latestManifestObj))
             && negb (processing c)
          then
            let latestManifestObj := RemoveFinalizer latestManifestObj ManifestFinalizer in
            match updateManifest env latestManifestObj with
            | (None, w) => (FinalizerRemoved, w)
            | (Some _, w) =>
                (StateProcessed,
                 (w ++ setProcessedState env true (processing c) latestManifestObj)%list)
            end
          else
            (StateProcessed,
             setProcessedState env (errorState c) (processing c) latestManifestObj)
      end
  end.

(** [sendJobToInstallChannel]: the collector is started first and runs on
    its own, later, against the API server as it is then ([cenv]); [events]
    is what its [select] yields, in order.  The result also lists the
    requests put on the deploy channel. *)
Definition sendJobToInstallChannel (env cenv : Env) (events : list ChanEvent)
  (m : Manifest) (mode : Mode) : option error * list (DeployInfo * Mode) * list ApiWrite :=
  let namespacedName := ObjectKeyFromObject m in
  let chartCount := Z.of_nat (length (Installs m)) in
  let collector := ResponseHandlerFunc cenv chartCount events namespacedName in
  match GetInstallInfos env m with
  | inl err => (Some err, [], snd collector)
  | inr deployInfos => (None, map (fun deployInfo => (deployInfo, mode)) deployInfos, snd collector)
  end.

(** The loop of [HandleReadyState] over the jobs: it returns at the first
    job that is not ready or fails. *)
Fixpoint checkConsistency (env : Env) (m : Manifest) (deployInfos : list DeployInfo)
  : option error * list ApiWrite :=
  match deployInfos with
  | [] => (None, [])
  | deployInfo :: rest =>
      match NewOperations env deployInfo with
      | Some err => updateManifestStatus env m ManifestStateError (Error err)
      | None =>
          let '(ready, err) := VerifyResources env deployInfo in
          let chartResponse :=
            mkResponse ready (ObjectKeyFromObject m) err (dep_ChartName deployInfo)
                       (dep_ClientConfig deployInfo) (dep_Overrides deployInfo) in
          if negb ready then
            updateManifestStatus env
              (AddReadyConditionForResponses (now env) (jsonMarshal env) [chartResponse] m)
              ManifestStateProcessing "resources not ready"
          else
            match err with
            | Some e =>
                updateManifestStatus env
                  (AddReadyConditionForResponses (now env) (jsonMarshal env) [chartResponse] m)
                  ManifestStateError (Error e)
            | None => checkConsistency env m rest
            end
      end
  end.

(** [HandleReadyState] *)
Definition HandleReadyState (env : Env) (m : Manifest) : option error * list ApiWrite :=
  if negb (Generation m =? ObservedGeneration (Status m))
  then updateManifestStatus env m ManifestStateProcessing "observed generation change"
  else
    match GetInstallInfos env m with
    | inl err => (Some err, [])
    | inr deployInfos => checkConsistency env m deployInfos
    end.

(** [Reconcile]: one pass of the reconciliation loop for the request
    [req], with every write it and its collector send to the API server. *)
Definition Reconcile (env cenv : Env) (events : list ChanEvent) (req : ObjectKey)
  : Requeue * option error * list ApiWrite :=
  match apiGet env req with
  | inl err => (NoRequeue, IgnoreNotFound err, [])
  | inr manifestObj =>
      let state := State (Status manifestObj) in
      if negb (IsZero (DeletionTimestamp manifestObj))
         && negb (String.eqb state ManifestStateDeleting)
      then
        (let '(err, w) := updateManifestStatus env manifestObj ManifestStateDeleting
                                               "deletion timestamp set" in
         (NoRequeue, err, w))
      else if negb (ContainsFinalizer manifestObj ManifestFinalizer)
      then
        (let '(err, w) := updateManifest env (AddFinalizer manifestObj ManifestFinalizer) in
         (NoRequeue, err, w))
      else if String.eqb state ""
      then
        (* HandleInitialState *)
        (let '(err, w) := updateManifestStatus env manifestObj ManifestStateProcessing
                                               "initial state" in
         (NoRequeue, err, w))
      else if String.eqb state ManifestStateProcessing
      then
        (* HandleProcessingState *)
        (let '(err, _, w) := sendJobToInstallChannel env cenv events manifestObj CreateMode in
         (AfterFailure, err, w))
      else if String.eqb state ManifestStateDeleting
      then
        (* HandleDeletingState *)
        (let '(err, _, w) := sendJobToInstallChannel env cenv events manifestObj DeletionMode in
         (NoRequeue, err, w))
      else if String.eqb state ManifestStateError
      then
        (* HandleErrorState *)
        (let '(err, w) := updateManifestStatus env manifestObj ManifestStateProcessing
                                               "observed generation change" in
         (AfterFailure, err, w))
      else if String.eqb state ManifestStateReady
      then
        (let '(err, w) := HandleReadyState env manifestObj in
         (AfterSuccess, err, w))
      else (NoRequeue, None, [])
  end.

(** *** Notions for the statements about status writes *)

(** The result of the object update that carries the finalizer removal,
    for the responses [rs] and the Manifest [m] read back. *)
Definition finalizerRemoval (env : Env) (rs : list InstallResponse) (m : Manifest)
  : option error :=
  apiUpdate env
    (RemoveFinalizer (AddReadyConditionForResponses (now env) (jsonMarshal env) rs m)
                     ManifestFinalizer).

(** What a status write may set on a Manifest whose deletion timestamp
    is set. *)
Definition deleting_or_error (m : Manifest) : Prop :=
  IsZero (DeletionTimestamp m) = false ->
  State (Status m) = ManifestStateDeleting \/ State (Status m) = ManifestStateError.

End Controllers.

(* ===================================================================== *)
(** ** pkg/manifest/operations.go: acquiring the rendered manifest *)
(* ===================================================================== *)

Module Operations.

(** The fields of the job [getManifestForChartPath] reads. *)
Record InstallInfo : Type := mkJob {
  ChartName : string;
  ChartPath : string;
  BaseResource : ObjectKey
}.

(** The methods of [types.RenderSrc] used here; each returns a manifest
    and an error. *)
Record RenderSrc : Type := mkRenderSrc {
  GetManifestResources : string -> string -> string * option error;
  GetCachedResources : string -> string -> string * option error;
  GetRawManifest : InstallInfo -> string * option error
}.

(** The file system behind [util.WriteToFile], and the file name
    [util.GetFsManifestChartPath] derives from a chart path. *)
Record FileSystem : Type := mkFs {
  WriteToFile : string -> string -> option error;
  GetFsManifestChartPath : string -> string
}.

(** What the function does besides returning: the raw render it asks for,
    the file it writes, the note it logs. *)
Inductive Effect : Type :=
| RawRender (deployInfo : InstallInfo)
| Persist (path content : string)
| LogNotCached (resource : ObjectKey).

(** [(o *operations) getManifestForChartPath] *)
Definition getManifestForChartPath (renderSrc : RenderSrc) (fs : FileSystem)
  (deployInfo : InstallInfo) : (string * option error) * list Effect :=
  (* 1. check provided manifest *)
  match GetManifestResources renderSrc (ChartName deployInfo) (ChartPath deployInfo) with
  | (_, Some err) => (("", Some err), [])
  | (renderedManifest, None) =>
  if negb (String.eqb renderedManifest "") then ((renderedManifest, None), [])
  else
  (* 2. check cached manifest *)
  match GetCachedResources renderSrc (ChartName deployInfo) (ChartPath deployInfo) with
  | (_, Some err) => (("", Some err), [])
  | (renderedManifest, None) =>
  if negb (String.eqb renderedManifest "") then ((renderedManifest, None), [])
  else
  (* 3. render manifests *)
  match GetRawManifest renderSrc deployInfo with
  | (_, Some err) => (("", Some err), [RawRender deployInfo])
  | (renderedManifest, None) =>
  (* 4. persist only if static chart path was passed *)
  if negb (String.eqb (ChartPath deployInfo) "") then
    let target := GetFsManifestChartPath fs (ChartPath deployInfo) in
    match WriteToFile fs target renderedManifest with
    | Some err =>
        if negb (os_IsPermission err)
        then ((renderedManifest, Some err),
              [RawRender deployInfo; Persist target renderedManifest])
        else ((renderedManifest, None),
              [RawRender deployInfo; Persist target renderedManifest;
               LogNotCached (BaseResource deployInfo)])
    | None =>
        ((renderedManifest, None), [RawRender deployInfo; Persist target renderedManifest])
    end
  else ((renderedManifest, None), [RawRender deployInfo])
  end end end.

End Operations.

(* ===================================================================== *)
(** ** internal/pkg/prepare/deploy.go: the prepare phase *)
(* ===================================================================== *)

Module Prepare.
Import Types.

(** [labels.CacheKey] *)
Definition CacheKey : string := "operator.kyma-project.io/cache-key".

(** Modelled from the spec: the watcher labels and the operator name of
    package labels, whose declarations are not part of these sources; the
    resource is stamped with owned-by = namespace/name and watched-by =
    the operator's name. *)
Definition OwnedByLabel : string := "operator.kyma-project.io/owned-by".
Definition WatchedByLabel : string := "operator.kyma-project.io/watched-by".
Definition OperatorName : string := "module-manager".

(** [fmt.Errorf(configReadError, what)] *)
Definition configReadError (what : string) : error :=
  ErrorString ("reading install " +:+ what +:+ " resulted in an error for " +:+ ManifestKind).

Inductive Keychain : Type :=
| DefaultKeychain
| PullSecretsKeychain (secrets : list string).

(** What the prepare phase asks of the outside: the source codec, the
    registry and its credentials, Helm's [strvals] parser, the file with
    extracted CRDs, and the secret holding a remote kubeconfig. *)
Record Env : Type := mkEnv {
  GetSpecType : string -> error + RefTypeMetadata;
  DecodeHelmChartSpec : string -> RefTypeMetadata -> error + HelmChartSpec;
  DecodeImageSpec : string -> RefTypeMetadata -> error + ImageSpec;
  DecodeKustomizeSpec : string -> RefTypeMetadata -> error + KustomizeSpec;
  LabelSelectorAsSelector : option string -> error + string;
  ListSecrets : string -> string -> error + list string;
  NewFromPullSecrets : list string -> error + Keychain;
  GetPathFromExtractedTarGz : ImageSpec -> bool -> Keychain -> error + string;
  GetConfigFilePath : ImageSpec -> string;
  DecodeUncompressedLayer : ImageSpec -> bool -> Keychain -> string -> error + any;
  GetCRDsFromPath : string -> error + list string;
  ToUnstructured : Manifest -> option error;
  ParseInto : string -> error + Flags;
  GetRESTConfig : string -> string -> error + RestConfig
}.

(** Calls of [descriptor.DecodeUncompressedLayer], in order: the only
    place where the config layer can be pulled. *)
Inductive RegistryCall : Type :=
| DecodeLayer (imageSpec : ImageSpec) (filePath : string).

(** [getCredSecrets] *)
Definition getCredSecrets (env : Env) (credSecretSelector : option string)
  (namespace : string) : error + list string :=
  match LabelSelectorAsSelector env credSecretSelector with
  | inl err => inl (WrapError "error converting labelSelector" err)
  | inr selector =>
      match ListSecrets env selector namespace with
      | inl err => inl err
      | inr [] => inl ErrNoAuthSecretFound
      | inr items => inr items
      end
  end.

(** [GetAuthnKeychain] *)
Definition GetAuthnKeychain (env : Env) (imageSpec : ImageSpec) (namespace : string)
  : error + Keychain :=
  match getCredSecrets env (CredSecretSelector imageSpec) namespace with
  | inl err => inl err
  | inr items => NewFromPullSecrets env items
  end.

(** [configKeyChain] *)
Definition configKeyChain (env : Env) (namespace : string) (imageSpec : ImageSpec)
  : error + Keychain :=
  match CredSecretSelector imageSpec with
  | Some _ => GetAuthnKeychain env imageSpec namespace
  | None => inr DefaultKeychain
  end.

(** [getDecodedConfig] *)
Definition getDecodedConfig (env : Env) (namespace : string) (insecureRegistry : bool)
  (config : ImageSpec) (filePath : string) : (error + any) * list RegistryCall :=
  match configKeyChain env namespace config with
  | inl err => (inl err, [])
  | inr keyChain =>
      (DecodeUncompressedLayer env config insecureRegistry keyChain filePath,
       [DecodeLayer config filePath])
  end.

(** [parseConfigs]; the nil slice [configs] is the empty list. *)
Definition parseConfigs (env : Env) (config : ImageSpec) (namespace : string)
  (insecureRegistry : bool) : (error + list any) * list RegistryCall :=
  if NotEmpty (img_Type config) then
    let filePath := GetConfigFilePath env config in
    match getDecodedConfig env namespace insecureRegistry config filePath with
    | (inl err, calls) =>
        (* if EOF error proceed without config *)
        if negb (errors_Is err EOF) && negb (errors_Is err ErrUnexpectedEOF)
        then (inl err, calls)
        else (inr [], calls)
    | (inr decodedConfig, calls) =>
        match decodedConfig with
        | AnyMap installConfigObj =>
            match map_index installConfigObj "configs" with
            | AnyNil => (inr [], calls)
            | AnySlice configs => (inr configs, calls)
            | _ => (inl (configReadError "chart config object of .spec.config"), calls)
            end
        | _ => (inl (configReadError ".spec.config"), calls)
        end
    end
  else (inr [], []).

(** Modelled from the spec: [util.GetResourceLabel], whose declaration is
    not part of these sources; the owner is looked up via the label and
    the lookup fails if the label is absent (the caller in operations.go
    names the failure [LabelNotFoundError]). *)
Definition GetResourceLabel (m : Manifest) (labelName : string) : error + string :=
  match Labels m !! labelName with
  | Some labelValue => inr labelValue
  | None => inl (LabelNotFoundError labelName)
  end.

(** A [RESTConfigGetter] is a function without arguments: it is given by
    what it returns when called. *)
Definition RESTConfigGetter : Type := (error + RestConfig)%type.

(** [getDefaultRESTConfigGetter]: reads the kubeconfig secret. *)
Definition getDefaultRESTConfigGetter (env : Env) (secretName namespace : string)
  : RESTConfigGetter :=
  GetRESTConfig env secretName namespace.

(** [getDestinationConfigAndClient]; [customCfgGetter] is [None] for nil. *)
Definition getDestinationConfigAndClient (env : Env) (defaultClusterInfo : ClusterInfo)
  (manifestObj : Manifest) (processorCache : RendererCache)
  (customCfgGetter : option RESTConfigGetter) : error + ClusterInfo :=
  (* in single cluster mode return the default cluster info *)
  if negb (Remote manifestObj) then inr defaultClusterInfo
  else
    match GetResourceLabel manifestObj CacheKey with
    | inl err => inl err
    | inr kymaOwnerLabel =>
        (* cluster info record from cluster cache *)
        let kymaNsName := mkKey (Namespace manifestObj) kymaOwnerLabel in
        match GetProcessor processorCache kymaNsName with
        | Some processor => GetClusterInfo processor
        | None =>
            let restConfigGetter :=
              match customCfgGetter with
              | Some getter => getter
              | None => getDefaultRESTConfigGetter env kymaOwnerLabel (Namespace manifestObj)
              end in
            match restConfigGetter with
            | inl err => inl err
            | inr restConfig =>
                (* client will be set during processing of manifest *)
                inr (mkClusterInfo (Some restConfig) None)
            end
        end
    end.

(** [client.ObjectKey.String] *)
Definition KeyString (k : ObjectKey) : string := key_Namespace k +:+ "/" +:+ key_Name k.

(** [getChartPath] *)
Definition getChartPath (env : Env) (imageSpec : ImageSpec) (namespace : string)
  (insecureRegistry : bool) : error + string :=
  match configKeyChain env namespace imageSpec with
  | inl err => inl err
  | inr keyChain => GetPathFromExtractedTarGz env imageSpec insecureRegistry keyChain
  end.

(** [parseCrds] *)
Definition parseCrds (env : Env) (manifestObj : Manifest) (insecureRegistry : bool)
  : error + list string :=
  if NotEmpty (img_Type (CRDs manifestObj)) then
    match getChartPath env (CRDs manifestObj) (Namespace manifestObj) insecureRegistry with
    | inl err => inl err
    | inr crdsPath => GetCRDsFromPath env crdsPath
    end
  else inr [].

(** [createKustomizeChartInfo] *)
Definition createKustomizeChartInfo (env : Env) (install : V1alpha1.InstallInfo)
  (specType : RefTypeMetadata) : error + ChartInfo :=
  match DecodeKustomizeSpec env (Source install) specType with
  | inl err => inl err
  | inr kustomizeSpec =>
      inr (mkChartInfo (kust_Path kustomizeSpec) "" (kust_URL kustomizeSpec)
                       (inst_Name install) "" (mkChartFlags [] []))
  end.

(** [createOciChartInfo] *)
Definition createOciChartInfo (env : Env) (install : V1alpha1.InstallInfo)
  (specType : RefTypeMetadata) (manifestObj : Manifest) (insecureRegistry : bool)
  : error + ChartInfo :=
  match DecodeImageSpec env (Source install) specType with
  | inl err => inl err
  | inr imageSpec =>
      (* extract helm chart from layer digest *)
      match getChartPath env imageSpec (Namespace manifestObj) insecureRegistry with
      | inl err => inl err
      | inr chartPath =>
          inr (mkChartInfo chartPath "" "" (inst_Name install) "" (mkChartFlags [] []))
      end
  end.

(** [createHelmChartInfo] *)
Definition createHelmChartInfo (env : Env) (install : V1alpha1.InstallInfo)
  (specType : RefTypeMetadata) : error + ChartInfo :=
  match DecodeHelmChartSpec env (Source install) specType with
  | inl err => inl err
  | inr helmChartSpec =>
      inr (mkChartInfo "" (inst_Name install) (helm_URL helmChartSpec)
                       (inst_Name install +:+ "/" +:+ helm_ChartName helmChartSpec)
                       "" (mkChartFlags [] []))
  end.

(** [getChartInfoForInstall] *)
Definition getChartInfoForInstall (env : Env) (install : V1alpha1.InstallInfo)
  (manifestObj : Manifest) (insecureRegistry : bool) : error + ChartInfo :=
  let namespacedName := ObjectKeyFromObject manifestObj in
  match GetSpecType env (Source install) with
  | inl err => inl err
  | inr specType =>
      if String.eqb specType HelmChartType
      then createHelmChartInfo env install specType
      else if String.eqb specType OciRefType
      then createOciChartInfo env install specType manifestObj insecureRegistry
      else if String.eqb specType KustomizeType
      then createKustomizeChartInfo env install specType
      else if String.eqb specType NilRefType
      then inl (ErrorString ("empty image type for " +:+ KeyString namespacedName
                             +:+ " resource chart installation"))
      else inl (ErrorString ("unsupported type " +:+ specType +:+ " of install for Manifest "
                             +:+ KeyString namespacedName))
  end.

(** [getConfigAndValuesForInstall]: the client config and the overrides
    of the first config entry named like the install. *)
Fixpoint getConfigAndValuesForInstall (installName : string) (configs : list any)
  : error + (string * string) :=
  match configs with
  | [] => inr ("", "")
  | AnyMap mappedConfig :: rest =>
      if any_eq_string (map_index mappedConfig "name") installName then
        match map_index mappedConfig "overrides" with
        | AnyString defaultOverrides =>
            match map_index mappedConfig "clientConfig" with
            | AnyString clientConfig => inr (clientConfig, defaultOverrides)
            | _ => inl (configReadError "chart config")
            end
        | _ => inl (configReadError "config object overrides")
        end
      else getConfigAndValuesForInstall installName rest
  | _ :: _ => inl (configReadError "config object")
  end.

(** [parseChartConfigAndValues] *)
Definition parseChartConfigAndValues (env : Env) (install : V1alpha1.InstallInfo)
  (configs : list any) (namespacedName : string) : error + (Flags * Flags) :=
  match getConfigAndValuesForInstall (inst_Name install) configs with
  | inl err =>
      inl (WrapError ("manifest " +:+ namespacedName
                      +:+ " encountered an error while parsing chart config") err)
  | inr (configString, valuesString) =>
      match ParseInto env configString with
      | inl err => inl err
      | inr config =>
          match ParseInto env valuesString with
          | inl err => inl err
          | inr values => inr (config, values)
          end
      end
  end.

(** The jobs live on the heap: a [*types.InstallInfo] is an address. *)
Definition loc := nat.
Definition Heap := gmap loc InstallInfo.

(** The loop of [parseInstallations].  [deployInfo := baseDeployInfo]
    copies the pointer, so [deployInfo.ChartInfo = chartInfo] writes into
    the object [baseDeployInfo] points to, and that same pointer is
    appended in every round. *)
Fixpoint parseInstallationsLoop (env : Env) (manifestObj : Manifest) (configs : list any)
  (baseDeployInfo : loc) (insecureRegistry : bool) (installs : list V1alpha1.InstallInfo)
  (h : Heap) (deployInfos : list loc) : (error + list loc) * Heap :=
  match installs with
  | [] => (inr deployInfos, h)
  | install :: rest =>
      let deployInfo := baseDeployInfo in
      (* retrieve chart info *)
      match getChartInfoForInstall env install manifestObj insecureRegistry with
      | inl err => (inl err, h)
      | inr chartInfo =>
          (* filter config for install *)
          match parseChartConfigAndValues env install configs
                  (KeyString (ObjectKeyFromObject manifestObj)) with
          | inl err => (inl err, h)
          | inr (chartConfig, chartValues) =>
              (* common deploy properties *)
              let chartInfo :=
                mkChartInfo (ChartPath chartInfo) (RepoName chartInfo) (URL chartInfo)
                            (ChartName chartInfo) (inst_Name install)
                            (mkChartFlags chartConfig chartValues) in
              let h := alter (fun d => with_ChartInfo d chartInfo) deployInfo h in
              parseInstallationsLoop env manifestObj configs baseDeployInfo insecureRegistry
                                     rest h (deployInfos ++ [deployInfo])%list
          end
      end
  end.

(** [parseInstallations] *)
Definition parseInstallations (env : Env) (manifestObj : Manifest) (configs : list any)
  (baseDeployInfo : loc) (insecureRegistry : bool) (h : Heap)
  : (error + list loc) * Heap :=
  parseInstallationsLoop env manifestObj configs baseDeployInfo insecureRegistry
                         (Installs manifestObj) h [].

(** [InsertWatcherLabels] *)
Definition InsertWatcherLabels (manifestObj : Manifest) : Manifest :=
  match Resource manifestObj with
  | Some resource =>
      if negb (Remote manifestObj) || String.eqb (Kind resource) "" then manifestObj
      else
        let ownedByValue := Namespace manifestObj +:+ "/" +:+ Name manifestObj in
        let manifestLabels :=
          <[WatchedByLabel := OperatorName]>
            (<[OwnedByLabel := ownedByValue]> (res_Labels resource)) in
        with_resource manifestObj (Some (mkUnstructured (Kind resource) manifestLabels))
  | None => manifestObj
  end.

(** [internalTypes.ReconcileFlagConfig] *)
Record ReconcileFlagConfig : Type := mkFlagConfig {
  flag_CheckReadyStates : bool;
  flag_CustomStateCheck : bool;
  InsecureRegistry : bool;
  CustomRESTCfg : option RESTConfigGetter
}.

(** A fresh address for a local whose address is taken. *)
Definition fresh (h : Heap) : loc := S (max_list (elements (dom h))).

(** What [GetInstallInfos] leaves behind: its result, the heap the returned
    pointers point into, the Manifest (its resource may have been
    labelled), and the registry calls for the config layer. *)
Record Prepared : Type := mkPrepared {
  result : error + list loc;
  heap : Heap;
  manifest : Manifest;
  registryCalls : list RegistryCall
}.

(** [GetInstallInfos] *)
Definition GetInstallInfos (env : Env) (manifestObj : Manifest)
  (defaultClusterInfo : ClusterInfo) (flags : ReconcileFlagConfig)
  (processorCache : RendererCache) (h : Heap) : Prepared :=
  (* check crds - if present do not update *)
  match parseCrds env manifestObj (InsecureRegistry flags) with
  | inl err => mkPrepared (inl err) h manifestObj []
  | inr crds =>
  match ToUnstructured env manifestObj with
  | Some err => mkPrepared (inl err) h manifestObj []
  | None =>
  (* evaluate rest config *)
  match getDestinationConfigAndClient env defaultClusterInfo manifestObj processorCache
          (CustomRESTCfg flags) with
  | inl err => mkPrepared (inl err) h manifestObj []
  | inr clusterInfo =>
  (* ensure runtime-watcher labels are set to CustomResource *)
  let labelled := InsertWatcherLabels manifestObj in
  (* parse installs *)
  let customResources :=
    match Resource labelled with
    | Some resource => [Kind resource]
    | None => []
    end in
  let baseDeployInfo := fresh h in
  let h := <[baseDeployInfo :=
              mkInstallInfo None clusterInfo (ObjectKeyFromObject manifestObj) crds
                            customResources (flag_CustomStateCheck flags)
                            (flag_CheckReadyStates flags)]> h in
  (* extract config *)
  match parseConfigs env (V1alpha1.Config labelled) (Namespace labelled) (InsecureRegistry flags) with
  | (inl err, calls) => mkPrepared (inl err) h labelled calls
  | (inr configs, calls) =>
      let '(res, h) :=
        parseInstallations env labelled configs baseDeployInfo (InsecureRegistry flags) h in
      mkPrepared res h labelled calls
  end end end end.

(** The jobs a caller finds behind the returned pointers. *)
Definition jobs (p : Prepared) : option (list (option InstallInfo)) :=
  match result p with
  | inl _ => None
  | inr ptrs => Some (map (fun ptr => heap p !! ptr) ptrs)
  end.

End Prepare.

(* ===================================================================== *)
(** ** Sample clusters, codecs and Manifests *)
(* ===================================================================== *)

Module DeletionSamples.
Import Util Controllers.

Definition noImage : Types.ImageSpec := Types.mkImageSpec "" "" "" "" None.

Definition key : ObjectKey := mkKey "kyma-system" "sample".

(** A Manifest with one install that is being deleted: deletion timestamp
    set, state Deleting, finalizer still present. *)
Definition deleting : Manifest :=
  mkManifest "sample" "kyma-system" 2 ∅ [ManifestFinalizer] (Some 1700000000) false
             noImage noImage None [mkInstall "{}" "redis"]
             (mkStatus ManifestStateDeleting [] 2).

Definition job : DeployInfo := mkDeployInfo "redis" "redis" [] [] key.

(** An API server that knows [deleting] and answers the object update with
    [updateResult]; every job uninstalls with [uninstallResult]. *)
Definition cluster (updateResult : option error) (uninstallResult : bool * option error) : Env :=
  mkEnv 1700000100 (fun _ => "null")
        (fun _ => inr deleting) (fun _ => updateResult) (fun _ => None)
        (fun _ => inr [job]) (fun _ => None)
        (fun _ => (true, None)) (fun _ => (true, None)) (fun _ => uninstallResult).

Definition uninstallFails : bool * option error := (false, Some (ErrorString "timed out")).
Definition uninstallDone : bool * option error := (true, None).

(** The response the worker sends back for [job] in deletion mode. *)
Definition response (env : Env) : InstallResponse := HandleCharts env job DeletionMode.

End DeletionSamples.

Module PrepareSamples.
Import Types Prepare.

(** A codec that reads the source [helm] as the chart nginx-ingress of the
    stable nginx repository, and any other source as the path of a local
    kustomization; nothing else fails. *)
Definition codec : Env :=
  mkEnv (fun raw => inr (if String.eqb raw "helm" then HelmChartType else KustomizeType))
        (fun _ _ => inr (mkHelmChartSpec "https://helm.nginx.com/stable" "nginx-ingress"))
        (fun _ _ => inl (ErrorString "not an image"))
        (fun raw _ => inr (mkKustomizeSpec raw ""))
        (fun _ => inr "") (fun _ _ => inr []) (fun _ => inr DefaultKeychain)
        (fun _ _ _ => inl (ErrorString "no registry"))
        (fun _ => "") (fun _ _ _ _ => inl EOF)
        (fun _ => inr []) (fun _ => None) (fun _ => inr [])
        (fun _ _ => inl NotFound).

Definition noImage : ImageSpec := mkImageSpec "" "" "" "" None.
Definition host : ClusterInfo := mkClusterInfo (Some (mkRestConfig "host")) (Some (mkClient "host")).
Definition noFlags : ReconcileFlagConfig := mkFlagConfig false false false None.

(** A Manifest with two local kustomizations, [a] and [b]. *)
Definition twoInstalls : Manifest :=
  mkManifest "sample" "default" 1 ∅ [] None false noImage noImage None
             [mkInstall "./charts/a" "a"; mkInstall "./charts/b" "b"]
             (mkStatus ManifestStateProcessing [] 1).

(** The release name and the chart path each returned job reads back. *)
Definition releaseNames (p : Prepared) : option (list (option string)) :=
  option_map (map (fun job => ChartInfo_ job ≫= (fun c => Some (ReleaseName c))))
             (jobs p ≫= (fun js => mapM id js)).

Definition chartPaths (p : Prepared) : option (list (option string)) :=
  option_map (map (fun job => ChartInfo_ job ≫= (fun c => Some (ChartPath c))))
             (jobs p ≫= (fun js => mapM id js)).

End PrepareSamples.

Module HelmSamples.
Import Types Util Controllers Prepare.

(** A Manifest with the one Helm install of the end-to-end scenario. *)
Definition helmInstall : Manifest :=
  mkManifest "sample" "default" 1 ∅ [Controllers.ManifestFinalizer] None false
             PrepareSamples.noImage PrepareSamples.noImage None
             [mkInstall "helm" "nginx-stable"]
             (mkStatus ManifestStateProcessing [] 1).

Definition worker : Controllers.Env :=
  Controllers.mkEnv 1700000100 (fun _ => "null")
        (fun _ => inr helmInstall) (fun _ => None) (fun _ => None)
        (fun _ => inr []) (fun _ => None)
        (fun _ => (true, None)) (fun _ => (true, None)) (fun _ => (true, None)).

(** The chart infos behind the jobs of a prepare phase. *)
Definition chartInfos (p : Prepared) : list ChartInfo :=
  match jobs p with
  | Some js => omap (fun job => job ≫= ChartInfo_) js
  | None => []
  end.

End HelmSamples.

(* ===================================================================== *)
(** ** controllers/workers.go: starting the workers *)
(* ===================================================================== *)

Module WorkerPool.
Import Workers.

(** [StartWorkers]: the ids of the workers it starts, in order
    ([for worker := 1; worker <= mw.GetWorkerPoolSize(); worker++]). *)
Definition StartWorkers (mw : ManifestWorkerPool) : list Z :=
  map Z.of_nat (seq 1 (Z.to_nat (GetWorkerPoolSize mw))).

End WorkerPool.

(* ===================================================================== *)
(** ** pkg/declarative/v2: the post-render transforms *)
(* ===================================================================== *)

Module DeclarativeV2.

Definition newline : string := String (Ascii.ascii_of_nat 10) "".

Definition DisclaimerAnnotation : string :=
  "reconciler.kyma-project.io/managed-by-reconciler-disclaimer".

Definition disclaimerAnnotationValue : string :=
  "DO NOT EDIT - This resource is managed by Kyma." +:+ newline +:+
  "Any modifications are discarded and the resource is reverted to the original state.".

(** A rendered object, as far as the transforms touch it: a nil map of
    labels or annotations is the empty map. *)
Record Object : Type := mkObject {
  obj_Name : string;
  obj_Labels : gmap string string;
  obj_Annotations : gmap string string
}.

(** [types.ManifestResources] *)
Record ManifestResources : Type := mkResources {
  Items : list Object;
  Blobs : list string
}.

(** [types.ObjectTransform]: the transform works on the resources in
    place and may fail; [componentName] is what [obj.ComponentName()] of
    the reconciled object returns. *)
Definition ObjectTransform : Type :=
  string -> ManifestResources -> option error * ManifestResources.

Definition withLabel (key value : string) (resource : Object) : Object :=
  mkObject (obj_Name resource) (<[key := value]> (obj_Labels resource))
           (obj_Annotations resource).

Definition withAnnotation (key value : string) (resource : Object) : Object :=
  mkObject (obj_Name resource) (obj_Labels resource)
           (<[key := value]> (obj_Annotations resource)).

(** [disclaimerTransform] *)
Definition disclaimerTransform : ObjectTransform :=
  fun _ resources =>
    (None,
     mkResources (map (withAnnotation DisclaimerAnnotation disclaimerAnnotationValue)
                      (Items resources))
                 (Blobs resources)).

(** [kymaComponentTransform] *)
Definition kymaComponentTransform : ObjectTransform :=
  fun componentName resources =>
    (None,
     mkResources (map (fun resource =>
                         withLabel "app.kubernetes.io/part-of" "Kyma"
                           (withLabel "app.kubernetes.io/component" componentName resource))
                      (Items resources))
                 (Blobs resources)).

(** [managedByDeclarativeV2] *)
Definition managedByDeclarativeV2 : ObjectTransform :=
  fun _ resources =>
    let managedBy := "declarative-v2" in
    (None,
     mkResources (map (withLabel "reconciler.kyma-project.io/managed-by" managedBy)
                      (Items resources))
                 (Blobs resources)).

(** The loop over the transforms in [Transformer.Transform]: the first
    failure is returned. *)
Fixpoint applyTransforms (componentName : string) (transforms : list ObjectTransform)
  (objects : ManifestResources) : error + ManifestResources :=
  match transforms with
  | [] => inr objects
  | transform :: rest =>
      match transform componentName objects with
      | (Some err, _) => inl err
      | (None, objects) => applyTransforms componentName rest objects
      end
  end.

(** [Transformer.Transform]; [parse] is [util.ParseManifestStringToObjects]. *)
Definition Transform (parse : string -> error + ManifestResources)
  (manifestStringified : string) (componentName : string)
  (transforms : list ObjectTransform) : error + ManifestResources :=
  match parse manifestStringified with
  | inl err => inl err
  | inr objects => applyTransforms componentName transforms objects
  end.

End DeclarativeV2.

(* ===================================================================== *)
(** ** pkg/manifest/client.go: namespaces and readiness of a resource list *)
(* ===================================================================== *)

Module HelmClient.

(** [v1.NamespaceDefault] *)
Definition NamespaceDefault : string := "default".

(** A [resource.Info] with what the helper built from its mapping says
    about its scope, and the namespace of the runtime object it carries;
    [Accessible] tells whether [meta.Accessor] accepts that object. *)
Record Info : Type := mkInfo {
  info_Name : string;
  info_Namespace : string;
  NamespaceScoped : bool;
  object_Namespace : string;
  Accessible : bool
}.

(** [setNamespaceIfNotPresent]: the namespace of the request is set before
    the object is looked at. *)
Definition setNamespaceIfNotPresent (targetNamespace : string) (resourceInfo : Info)
  : option error * Info :=
  (* check if resource is scoped to namespaces *)
  if NamespaceScoped resourceInfo && String.eqb (info_Namespace resourceInfo) "" then
    let targetNamespace :=
      if String.eqb targetNamespace "" then NamespaceDefault else targetNamespace in
    (* set namespace on request *)
    let resourceInfo :=
      mkInfo (info_Name resourceInfo) targetNamespace (NamespaceScoped resourceInfo)
             (object_Namespace resourceInfo) (Accessible resourceInfo) in
    if negb (Accessible resourceInfo)
    then (Some (ErrorString "object does not implement the Object interfaces"), resourceInfo)
    else
      (* set namespace on runtime object *)
      (None,
       mkInfo (info_Name resourceInfo) targetNamespace (NamespaceScoped resourceInfo)
              targetNamespace (Accessible resourceInfo))
  else (None, resourceInfo).

(** [overrideNamespace]: [ResourceList.Visit] calls the function on every
    info in order and stops at the first error. *)
Fixpoint overrideNamespace (resourceList : list Info) (targetNamespace : string)
  : option error * list Info :=
  match resourceList with
  | [] => (None, [])
  | info :: rest =>
      match setNamespaceIfNotPresent targetNamespace info with
      | (Some err, info) => (Some err, info :: rest)
      | (None, info) =>
          let '(err, rest) := overrideNamespace rest targetNamespace in
          (err, info :: rest)
      end
  end.

(** The visit of [checkReady]; [resourcesReady] is the variable the
    closure assigns. *)
Fixpoint checkReadyVisit (IsReady : Info -> bool * option error) (resourceList : list Info)
  (resourcesReady : bool) : bool * option error :=
  match resourceList with
  | [] => (resourcesReady, None)
  | info :: rest =>
      let '(ready, err) := IsReady info in
      if negb ready || failed err then
        match err with
        | Some e => (ready, Some e)
        | None => checkReadyVisit IsReady rest ready
        end
      else checkReadyVisit IsReady rest resourcesReady
  end.

(** [checkReady] *)
Definition checkReady (IsReady : Info -> bool * option error) (resourceList : list Info)
  : bool * option error :=
  checkReadyVisit IsReady resourceList true.

End HelmClient.

(* ===================================================================== *)
(** ** pkg/descriptor: extracting and decoding OCI layers *)
(* ===================================================================== *)

Module Descriptor.
Import Types Paths.

(** [fs.ModePerm] *)
Definition ModePerm : Z := 511.

(** [tar.TypeReg] and [tar.TypeDir]; a type flag is a byte. *)
Definition TypeReg : ascii := "0"%char.
Definition TypeDir : ascii := "5"%char.

Record Header : Type := mkHeader {
  hdr_Name : string;
  Typeflag : ascii;
  Mode : Z
}.

(** What [tarReader.Next] yields, one after the other: an entry with its
    content, or an error; after the last one it yields [io.EOF]. *)
Inductive TarNext : Type :=
| Next (header : Header) (content : string)
| NextError (err : error).

(** [path.Split]: the directory up to and including the final slash, and
    the file after it. *)
Fixpoint path_Split (p : string) : string * string :=
  match p with
  | EmptyString => ("", "")
  | String c p' =>
      let '(dir, file) := path_Split p' in
      if Ascii.eqb c slash then (String c dir, file)
      else if String.eqb dir "" then ("", String c file)
      else (String c dir, file)
  end.

(** [path.Join] of two elements: on slash-separated paths it is what
    [filepath.Join] is. *)
Definition path_Join (a b : string) : string := filepath_Join a b.

(** The file system under the artifact cache; the permission of
    extracted directories is a constant of package util. *)
Record FileSystem : Type := mkFs {
  MkdirAll : string -> Z -> option error;
  OpenFile : string -> Z -> option error;
  Copy : string -> string -> option error;
  Close : string -> option error;
  OthersReadExecuteFilePermission : Z
}.

(** The calls made to the file system. *)
Inductive FsOp : Type :=
| Mkdir (path : string) (perm : Z)
| Create (path : string) (mode : Z)
| Write (path content : string)
| Closed (path : string).

Definition op_path (op : FsOp) : string :=
  match op with
  | Mkdir path _ => path
  | Create path _ => path
  | Write path _ => path
  | Closed path => path
  end.

(** [handleExtractedHeaderFile] *)
Definition handleExtractedHeaderFile (fs : FileSystem) (header : Header) (content : string)
  (file destinationPath layerReference : string) : option error * list FsOp :=
  if Ascii.eqb (Typeflag header) TypeDir then
    let perm := OthersReadExecuteFilePermission fs in
    match MkdirAll fs destinationPath perm with
    | Some err =>
        (Some (WrapError ("failure in Mkdir() storage while extracting TarGz "
                          +:+ layerReference) err),
         [Mkdir destinationPath perm])
    | None => (None, [Mkdir destinationPath perm])
    end
  else if Ascii.eqb (Typeflag header) TypeReg then
    let filePath := path_Join destinationPath file in
    match OpenFile fs filePath (Mode header) with
    | Some err =>
        (Some (WrapError ("file create failed while extracting TarGz " +:+ layerReference) err),
         [Create filePath (Mode header)])
    | None =>
        match Copy fs filePath content with
        | Some err =>
            (Some (WrapError ("file copy storage failed while extracting TarGz "
                              +:+ layerReference) err),
             [Create filePath (Mode header); Write filePath content])
        | None =>
            (Close fs filePath,
             [Create filePath (Mode header); Write filePath content; Closed filePath])
        end
    end
  else
    (Some (ErrorString ("unknown type encountered while extracting TarGz "
                        +:+ NilZero.string_of_uint (Nat.to_uint (nat_of_ascii (Typeflag header)))
                        +:+ " in " +:+ destinationPath)),
     []).

(** The loop of [writeTarGzContent] over the entries of the archive. *)
Fixpoint extractEntries (fs : FileSystem) (installPath : string) (entries : list TarNext)
  (layerReference : string) : option error * list FsOp :=
  match entries with
  | [] => (None, [])
  | NextError err :: _ =>
      if errors_Is err EOF then (None, [])
      else (Some (WrapError ("failed Next() while extracting TarGz " +:+ layerReference) err), [])
  | Next header content :: rest =>
      let '(destDir, destFile) := path_Split (hdr_Name header) in
      match CleanFilePathJoin installPath destDir with
      | inl err => (Some err, [])
      | inr destinationPath =>
          match MkdirAll fs destinationPath ModePerm with
          | Some err =>
              (Some (WrapError ("failure in MkdirAll() while extracting TarGz for destinationPath "
                                +:+ layerReference) err),
               [Mkdir destinationPath ModePerm])
          | None =>
              match handleExtractedHeaderFile fs header content destFile destinationPath
                      layerReference with
              | (Some err, ops) => (Some err, Mkdir destinationPath ModePerm :: ops)
              | (None, ops) =>
                  let '(err, more) := extractEntries fs installPath rest layerReference in
                  (err, (Mkdir destinationPath ModePerm :: ops ++ more)%list)
              end
          end
      end
  end.

(** [writeTarGzContent] *)
Definition writeTarGzContent (fs : FileSystem) (installPath : string) (entries : list TarNext)
  (layerReference : string) : option error * list FsOp :=
  (* create dir for uncompressed chart *)
  match MkdirAll fs installPath ModePerm with
  | Some err =>
      (Some (WrapError ("failure in MkdirAll() while extracting TarGz for installPath "
                        +:+ layerReference) err),
       [Mkdir installPath ModePerm])
  | None =>
      let '(err, ops) := extractEntries fs installPath entries layerReference in
      (err, Mkdir installPath ModePerm :: ops)
  end.

(** The registry and the artifact cache: [OpenDir] is [os.Open] on a
    directory (no error: the directory is there), [IsNotExist] is
    [os.IsNotExist]; a pulled layer is known by its reference. *)
Record Store : Type := mkStore {
  GetFsChartPath : ImageSpec -> string;
  OpenDir : string -> option error;
  IsNotExist : error -> bool;
  pullLayer : bool -> string -> Prepare.Keychain -> option error;
  Compressed : string -> error + string;
  NewReader : string -> error + list TarNext;
  GetYamlFileContent : string -> error + any;
  Uncompressed : string -> error + string;
  Decode : string -> error + any;
  Marshal : any -> error + string;
  WriteToFile : string -> string -> option error
}.

(** [fmt.Sprintf("%s/%s@%s", imageSpec.Repo, imageSpec.Name, imageSpec.Ref)] *)
Definition imageRef (imageSpec : ImageSpec) : string :=
  Repo imageSpec +:+ "/" +:+ img_Name imageSpec +:+ "@" +:+ Ref imageSpec.

(** What an acquisition did besides returning: the references pulled from
    the registry and the calls to the file system. *)
Record Acquired (A : Type) : Type := mkAcquired {
  value : A;
  err : option error;
  pulled : list string;
  fsOps : list FsOp
}.
Arguments mkAcquired {A} _ _ _ _.
Arguments value {A} _.
Arguments err {A} _.
Arguments pulled {A} _.
Arguments fsOps {A} _.

(** [GetPathFromExtractedTarGz] *)
Definition GetPathFromExtractedTarGz (store : Store) (fs : FileSystem) (imageSpec : ImageSpec)
  (insecureRegistry : bool) (keyChain : Prepare.Keychain) : Acquired string :=
  let ref := imageRef imageSpec in
  (* check existing dir; if dir exists return existing dir *)
  let installPath := GetFsChartPath store imageSpec in
  match OpenDir store installPath with
  | None => mkAcquired installPath None [] []
  | Some openErr =>
      if negb (IsNotExist store openErr)
      then mkAcquired "" (Some (WrapError ("opening dir for installs caused an error " +:+ ref)
                                          openErr)) [] []
      else
        (* pull image layer *)
        match pullLayer store insecureRegistry ref keyChain with
        | Some pullErr => mkAcquired "" (Some pullErr) [ref] []
        | None =>
            (* uncompress chart to install path *)
            match Compressed store ref with
            | inl e =>
                mkAcquired "" (Some (WrapError ("fetching blob for compressed layer " +:+ ref) e))
                           [ref] []
            | inr blob =>
                match NewReader store blob with
                | inl e =>
                    mkAcquired "" (Some (WrapError ("failure in NewReader() while extracting TarGz "
                                                    +:+ ref) e)) [ref] []
                | inr entries =>
                    let '(e, ops) := writeTarGzContent fs installPath entries ref in
                    mkAcquired installPath e [ref] ops
                end
            end
        end
  end.

(** [writeYamlContent]; the decoded value is returned together with the
    result of writing the file. *)
Definition writeYamlContent (store : Store) (blob layerReference filePath : string)
  : any * option error :=
  match Decode store blob with
  | inl e =>
      (AnyNil, Some (WrapError ("yaml blob decoding resulted in an error " +:+ layerReference) e))
  | inr decodedConfig =>
      match Marshal store decodedConfig with
      | inl e =>
          (AnyNil, Some (WrapError ("yaml marshal for install config caused an error "
                                    +:+ layerReference) e))
      | inr bytes => (decodedConfig, WriteToFile store filePath bytes)
      end
  end.

(** [DecodeUncompressedLayer], with the references it pulled. *)
Definition DecodeUncompressedLayer (store : Store) (imageSpec : ImageSpec)
  (insecureRegistry : bool) (keyChain : Prepare.Keychain) (fileDestPath : string)
  : (any * option error) * list string :=
  let ref := imageRef imageSpec in
  (* check existing file *)
  match GetYamlFileContent store fileDestPath with
  | inr decodedFile => ((decodedFile, None), [])
  | inl readErr =>
      if negb (IsNotExist store readErr)
      then ((AnyNil, Some (WrapError ("opening file for install imageSpec caused an error "
                                      +:+ ref) readErr)), [])
      else
        (* proceed only if file was not found *)
        match pullLayer store insecureRegistry ref keyChain with
        | Some pullErr => ((AnyNil, Some pullErr), [ref])
        | None =>
            match Uncompressed store ref with
            | inl e =>
                ((AnyNil, Some (WrapError ("fetching blob for uncompressed layer " +:+ ref) e)),
                 [ref])
            | inr blob => (writeYamlContent store blob ref fileDestPath, [ref])
            end
        end
  end.

(** A Go result [(value, err)] as its caller reads it: the error first. *)
Definition asResult {A : Type} (r : A * option error) : error + A :=
  match r with
  | (_, Some e) => inl e
  | (v, None) => inr v
  end.

(** The prepare phase running on this store: its layer decoder is
    [DecodeUncompressedLayer]. *)
Definition onStore (store : Store) (env : Prepare.Env) : Prepare.Env :=
  Prepare.mkEnv
    (Prepare.GetSpecType env) (Prepare.DecodeHelmChartSpec env) (Prepare.DecodeImageSpec env)
    (Prepare.DecodeKustomizeSpec env) (Prepare.LabelSelectorAsSelector env)
    (Prepare.ListSecrets env) (Prepare.NewFromPullSecrets env)
    (Prepare.GetPathFromExtractedTarGz env) (Prepare.GetConfigFilePath env)
    (fun imageSpec insecureRegistry keyChain filePath =>
       asResult (fst (DecodeUncompressedLayer store imageSpec insecureRegistry keyChain filePath)))
    (Prepare.GetCRDsFromPath env) (Prepare.ToUnstructured env) (Prepare.ParseInto env)
    (Prepare.GetRESTConfig env).

End Descriptor.

(* ===================================================================== *)
(** ** pkg/manifest/operations.go: install, uninstall, consistency check *)
(* ===================================================================== *)

Module Lifecycle.
Import Operations.

(** [apierrors.IsNotFound] *)
Definition IsNotFound (e : error) : bool :=
  match e with
  | NotFound => true
  | _ => false
  end.

(** The target cluster and the renderer as the three operations use
    them: each field is the result of the call of that name ([create] is
    the flag passed to the CRD and CR checks); [CheckFn] is [None] for a
    nil check function; [IsNoMatchError] is [meta.IsNoMatchError]. *)
Record Target : Type := mkTarget {
  CheckCRDs : bool -> option error;
  CheckCRs : bool -> option error;
  RemoveCRs : bool * option error;
  RemoveCRDs : option error;
  Apply : string -> bool * option error;
  IsConsistent : string -> bool * option error;
  CheckFn : option (bool * option error);
  IsNoMatchError : error -> bool
}.

(** [meta.IsNoMatchError(err)] for an error that may be nil. *)
Definition noMatch (t : Target) (err : option error) : bool :=
  match err with
  | Some e => IsNoMatchError t e
  | None => false
  end.

(** The calls an operation makes, in order. *)
Inductive Step : Type :=
| DidCheckCRDs (create : bool)
| DidCheckCRs (create : bool)
| DidRemoveCRs
| DidRemoveCRDs
| DidAcquire (effects : list Effect)
| DidApply (manifest : string)
| DidVerify (manifest : string)
| DidCheckFn.

(** The closing custom states check. *)
Definition customStatesCheck (t : Target) (steps : list Step)
  : (bool * option error) * list Step :=
  match CheckFn t with
  | Some checked => (checked, (steps ++ [DidCheckFn])%list)
  | None => ((true, None), steps)
  end.

(** [(o *operations) install] *)
Definition install (t : Target) (renderSrc : RenderSrc) (fs : FileSystem)
  (deployInfo : InstallInfo) : (bool * option error) * list Step :=
  (* install crds first - if present do not update! *)
  match CheckCRDs t true with
  | Some err => ((false, Some err), [DidCheckCRDs true])
  | None =>
  (* process manifest *)
  match getManifestForChartPath renderSrc fs deployInfo with
  | ((_, Some err), effects) => ((false, Some err), [DidCheckCRDs true; DidAcquire effects])
  | ((manifest, None), effects) =>
  (* install resources *)
  let '(consistent, err) := Apply t manifest in
  if failed err || negb consistent
  then ((false, err), [DidCheckCRDs true; DidAcquire effects; DidApply manifest])
  else
  (* install crs - if present do not update! *)
  match CheckCRs t true with
  | Some err =>
      ((false, Some err),
       [DidCheckCRDs true; DidAcquire effects; DidApply manifest; DidCheckCRs true])
  | None =>
      customStatesCheck t
        [DidCheckCRDs true; DidAcquire effects; DidApply manifest; DidCheckCRs true]
  end end end.

(** [(o *operations) uninstall] *)
Definition uninstall (t : Target) (renderSrc : RenderSrc) (fs : FileSystem)
  (deployInfo : InstallInfo) : (bool * option error) * list Step :=
  (* delete crs first - proceed only if not found *)
  let '(deleted, err) := RemoveCRs t in
  if negb (noMatch t err) && (failed err || negb deleted)
  then ((false, err), [DidRemoveCRs])
  else
  (* process manifest *)
  match getManifestForChartPath renderSrc fs deployInfo with
  | ((_, Some err), effects) => ((false, Some err), [DidRemoveCRs; DidAcquire effects])
  | ((manifest, None), effects) =>
  (* uninstall resources *)
  let '(consistent, err) := Apply t manifest in
  if failed err || negb consistent
  then ((false, err), [DidRemoveCRs; DidAcquire effects; DidApply manifest])
  else
  (* delete crds - if not present ignore! *)
  match RemoveCRDs t with
  | Some err =>
      ((false, Some err), [DidRemoveCRs; DidAcquire effects; DidApply manifest; DidRemoveCRDs])
  | None =>
      customStatesCheck t [DidRemoveCRs; DidAcquire effects; DidApply manifest; DidRemoveCRDs]
  end end.

(** [(o *operations) consistencyCheck] *)
Definition consistencyCheck (t : Target) (renderSrc : RenderSrc) (fs : FileSystem)
  (deployInfo : InstallInfo) : (bool * option error) * list Step :=
  (* verify CRDs *)
  match CheckCRDs t false with
  | Some err =>
      ((false, if IsNotFound err then None else Some err), [DidCheckCRDs false])
  | None =>
  (* verify CR *)
  match CheckCRs t false with
  | Some err =>
      ((false, if IsNotFound err then None else Some err),
       [DidCheckCRDs false; DidCheckCRs false])
  | None =>
  (* process manifest *)
  match getManifestForChartPath renderSrc fs deployInfo with
  | ((_, Some err), effects) =>
      ((false, Some err), [DidCheckCRDs false; DidCheckCRs false; DidAcquire effects])
  | ((manifest, None), effects) =>
  (* consistency check *)
  let '(consistent, err) := IsConsistent t manifest in
  if failed err || negb consistent
  then ((false, err),
        [DidCheckCRDs false; DidCheckCRs false; DidAcquire effects; DidVerify manifest])
  else
    customStatesCheck t
      [DidCheckCRDs false; DidCheckCRs false; DidAcquire effects; DidVerify manifest]
  end end end.

(** Modelled from the spec: the renderer cache, whose implementation is
    not part of these sources, is a map from the owner key (namespace,
    name) to what was stored for it.  A manifest processor is known by an
    identifier, and what was stored may be a nil processor. *)
Definition Processor := nat.
Definition ProcessorCache := gmap (string * string) (option Processor).

Definition cacheGet (cache : ProcessorCache) (key : ObjectKey) : option Processor :=
  match cache !! (key_Namespace key, key_Name key) with
  | Some stored => stored
  | None => None
  end.

Definition cacheSet (cache : ProcessorCache) (key : ObjectKey) (renderSrc : option Processor)
  : ProcessorCache :=
  <[(key_Namespace key, key_Name key) := renderSrc]> cache.

(** [discoverCacheKey]: the key is named after the cache-key label of the
    resource; a missing label leaves the name empty.  [None] is the nil
    interface, for which the key is empty; a nil pointer is not that. *)
Definition discoverCacheKey (resource : option Manifest) : ObjectKey :=
  match resource with
  | Some resource =>
      match Prepare.GetResourceLabel resource Prepare.CacheKey with
      | inr label => mkKey (Namespace resource) label
      | inl _ => mkKey (Namespace resource) ""
      end
  | None => mkKey "" ""
  end.

(** The construction of a processor: the discovery client may fail, and
    so may the processor; an unknown chart kind gives a nil processor. *)
Record Factory : Type := mkFactory {
  getMemCacheClient : option error;
  getManifestProcessor : error + option Processor
}.

Record operations : Type := mkOperations {
  renderSrc : option Processor;
  ops_flags : Types.ChartFlags
}.

(** [newOperations]: [baseResource] is the pointer
    [deployInfo.BaseResource] ([None] for a nil pointer) and [cache] is
    [None] for a nil cache.  Handed to [discoverCacheKey] as a
    [client.Object], a nil pointer is an interface that is not nil: the
    function goes on to read the labels and the namespace through it, and
    the program panics.  The result is [None] for that panic; otherwise it
    comes with the cache as it is afterwards and the number of processors
    constructed. *)
Definition newOperations (factory : Factory) (baseResource : option Manifest)
  (flags : Types.ChartFlags) (cache : option ProcessorCache)
  : option ((error + operations) * option ProcessorCache * nat) :=
  match baseResource with
  | None => None
  | Some resource =>
      let cacheKey := discoverCacheKey (Some resource) in
      let cached :=
        match cache with
        | Some c => if negb (String.eqb (key_Name cacheKey) "") then cacheGet c cacheKey else None
        | None => None
        end in
      match cached with
      | Some processor => Some (inr (mkOperations (Some processor) flags), cache, 0%nat)
      | None =>
          (* cache entry not found *)
          match getMemCacheClient factory with
          | Some err => Some (inl err, cache, 0%nat)
          | None =>
              match getManifestProcessor factory with
              | inl err =>
                  Some (inl (WrapError "unable to create manifest processor" err), cache, 0%nat)
              | inr processor =>
                  let cache :=
                    match cache with
                    | Some c =>
                        if negb (String.eqb (key_Name cacheKey) "")
                        then Some (cacheSet c cacheKey processor)
                        else Some c
                    | None => None
                    end in
                  Some (inr (mkOperations processor flags), cache, 1%nat)
              end
          end
      end
  end.

End Lifecycle.

(* ===================================================================== *)
(** ** Scenarios: sample inputs of the operations *)
(* ===================================================================== *)

Module Scenarios.
Import Types.

(** *** The reconciler *)

(** Two jobs of one Manifest. *)
Definition redis : DeployInfo := mkDeployInfo "redis" "redis" [] [] (mkKey "default" "sample").
Definition nginx : DeployInfo := mkDeployInfo "nginx" "nginx" [] [] (mkKey "default" "sample").

(** An API server that knows the Manifest [m] and accepts every write;
    the prepare phase yields [deployInfos], and verifying, installing or
    uninstalling a job returns [outcome] of the job. *)
Definition apiServer (m : Manifest) (deployInfos : list DeployInfo)
  (outcome : DeployInfo -> bool * option error) : Controllers.Env :=
  Controllers.mkEnv 1700000100 (fun _ => "null")
    (fun _ => inr m) (fun _ => None) (fun _ => None)
    (fun _ => inr deployInfos) (fun _ => None) outcome outcome outcome.

Definition allReady : DeployInfo -> bool * option error := fun _ => (true, None).

(** Every chart is ready but redis, which is still starting. *)
Definition redisStarting : DeployInfo -> bool * option error :=
  fun deployInfo => (negb (String.eqb (dep_ChartName deployInfo) "redis"), None).

(** Three responses of the workers: redis installed, then redis failing,
    then nginx installed. *)
Definition redisInstalled : InstallResponse :=
  mkResponse true (mkKey "default" "sample") None "redis" [] [].
Definition redisFailed : InstallResponse :=
  mkResponse false (mkKey "default" "sample") (Some (ErrorString "timed out")) "redis" [] [].
Definition nginxInstalled : InstallResponse :=
  mkResponse true (mkKey "default" "sample") None "nginx" [] [].

(** *** The prepare phase *)

(** Config entries for nginx and for redis. *)
Definition nginxConfig : list (string * any) :=
  [("name", AnyString "nginx"); ("overrides", AnyString "replicas=2");
   ("clientConfig", AnyString "CreateNamespace=true")].
Definition redisConfig : list (string * any) :=
  [("name", AnyString "redis"); ("overrides", AnyString "persistence=false");
   ("clientConfig", AnyString "Namespace=cache")].

(** An image whose pull secrets are selected by a label. *)
Definition privateImage : ImageSpec :=
  mkImageSpec "registry.example.com" "redis" "sha256:4f1a" OciRefType (Some "app=registry").

(** A config image of a public registry. *)
Definition configImage : ImageSpec :=
  mkImageSpec "registry.example.com" "redis-config" "sha256:77c0" OciRefType None.

(** *** The artifact cache *)

(** A file system on which every call succeeds. *)
Definition disk : Descriptor.FileSystem :=
  Descriptor.mkFs (fun _ _ => None) (fun _ _ => None) (fun _ _ => None) (fun _ => None) 493.

(** A chart archive: a directory, two files, the end of the archive. *)
Definition chartArchive : list Descriptor.TarNext :=
  [Descriptor.Next (Descriptor.mkHeader "Chart.yaml" Descriptor.TypeReg 420) "name: redis";
   Descriptor.Next (Descriptor.mkHeader "templates/" Descriptor.TypeDir 493) "";
   Descriptor.Next (Descriptor.mkHeader "templates/deployment.yaml" Descriptor.TypeReg 420)
                   "kind: Deployment";
   Descriptor.NextError EOF].

(** An entry that tries to leave the install path. *)
Definition escaping : Descriptor.Header :=
  Descriptor.mkHeader "../../etc/passwd" Descriptor.TypeReg 420.

(** A store without any cached file, whose registry serves a layer that
    is empty: the YAML decoder reaches the end of the input at once. *)
Definition emptyLayerStore : Descriptor.Store :=
  Descriptor.mkStore (fun _ => "/cache/redis-config")
    (fun _ => Some (PathError "open" "/cache/redis-config" (ErrorString "no such file")))
    (fun _ => true) (fun _ _ _ => None)
    (fun _ => inr "") (fun _ => inr []) (fun path => inl (PathError "open" path (ErrorString "no such file")))
    (fun _ => inr "") (fun _ => inl EOF) (fun _ => inr "") (fun _ _ => None).

(** *** Rendered resources *)

Definition rendered : DeclarativeV2.ManifestResources :=
  DeclarativeV2.mkResources
    [DeclarativeV2.mkObject "deployment" ∅ ∅; DeclarativeV2.mkObject "service" ∅ ∅] [].

(** The result of the three transforms, in the order they are declared. *)
Definition stamped : DeclarativeV2.ManifestResources :=
  snd (DeclarativeV2.managedByDeclarativeV2 "redis"
         (snd (DeclarativeV2.kymaComponentTransform "redis"
                 (snd (DeclarativeV2.disclaimerTransform "redis" rendered))))).

(** *** Resource lists *)

Definition deployment : HelmClient.Info := HelmClient.mkInfo "deployment" "" true "" true.
Definition clusterRole : HelmClient.Info := HelmClient.mkInfo "cluster-role" "" false "" true.
Definition secret : HelmClient.Info := HelmClient.mkInfo "secret" "kyma-system" true "kyma-system" true.
Definition sealed : HelmClient.Info := HelmClient.mkInfo "sealed" "" true "" false.

(** A readiness check: the deployment is still rolling out, the check of
    the secret fails, everything else is ready. *)
Definition rollingOut : HelmClient.Info -> bool * option error :=
  fun info =>
    if String.eqb (HelmClient.info_Name info) "deployment" then (false, None)
    else if String.eqb (HelmClient.info_Name info) "secret"
         then (true, Some (ErrorString "forbidden"))
         else (true, None).

(** *** Manifest processors *)

(** Two remote Manifests of one owner. *)
Definition owned (name : string) : Manifest :=
  mkManifest name "kyma-system" 1 {[Prepare.CacheKey := "kyma-1"]} [] None true
             configImage configImage None [] (mkStatus ManifestStateProcessing [] 1).

Definition working : Lifecycle.Factory := Lifecycle.mkFactory None (inr (Some 7%nat)).
Definition broken : Lifecycle.Factory :=
  Lifecycle.mkFactory (Some (ErrorString "no discovery")) (inl (ErrorString "no processor")).

Definition noChartFlags : ChartFlags := mkChartFlags [] [].

End Scenarios.

(* ===================================================================== *)
(** * Verification *)
(* ===================================================================== *)

(** ** The worker pool *)

Module WorkersSpec.
Import Workers.

Lemma SetWorkerPoolSize_initialSize (mw : ManifestWorkerPool) (newSize : Z) :
  initialSize (SetWorkerPoolSize mw newSize) = initialSize mw.
Proof. unfold SetWorkerPoolSize. destruct (newSize >? 0); reflexivity. Qed.

(** A pool keeps the initial size it was constructed with, whatever sizes
    it is set to afterwards. *)
Lemma fold_initialSize (sizes : list Z) (mw : ManifestWorkerPool) :
  initialSize (fold_left SetWorkerPoolSize sizes mw) = initialSize mw.
Proof.
  revert mw. induction sizes as [|n sizes IH]; intros mw; simpl.
  - reflexivity.
  - rewrite IH. apply SetWorkerPoolSize_initialSize.
Qed.

Lemma resized_initialSize (w : Z) (sizes : list Z) :
  initialSize (fold_left SetWorkerPoolSize sizes (NewManifestWorkers w)) = w.
Proof. rewrite fold_initialSize. reflexivity. Qed.

(** C9: on a pool constructed with [w] workers and resized any number of
    times, [SetWorkerPoolSize] with a positive [newSize] sets the size to
    [w], with a non-positive [newSize] it sets the size to [newSize], and
    [GetWorkerPoolSize] returns that value. *)
Theorem SetWorkerPoolSize_spec (w : Z) (sizes : list Z) (newSize : Z) :
  let mw := fold_left SetWorkerPoolSize sizes (NewManifestWorkers w) in
  (0 < newSize -> GetWorkerPoolSize (SetWorkerPoolSize mw newSize) = w) /\
  (newSize <= 0 -> GetWorkerPoolSize (SetWorkerPoolSize mw newSize) = newSize).
Proof.
  intros mw. pose proof (resized_initialSize w sizes) as Hinit. fold mw in Hinit.
  unfold GetWorkerPoolSize, SetWorkerPoolSize. split; intros Hn.
  - destruct (Z.gtb_spec newSize 0) as [_|Hle]; [exact Hinit | lia].
  - destruct (Z.gtb_spec newSize 0) as [Hgt|_]; [lia | reflexivity].
Qed.

End WorkersSpec.

(** ** Readiness conditions keep the rest of the Manifest *)

Module UtilSpec.
Import Util.

Lemma same_refl m : same_but_conditions m m.
Proof. unfold same_but_conditions; tauto. Qed.

Lemma same_trans m1 m2 m3 :
  same_but_conditions m1 m2 -> same_but_conditions m2 m3 -> same_but_conditions m1 m3.
Proof. unfold same_but_conditions; intuition congruence. Qed.

Lemma with_conditions_same m cs : same_but_conditions m (with_conditions m cs).
Proof. unfold same_but_conditions; simpl; tauto. Qed.

Lemma addReadyConditionForObject_same now st msg m item :
  same_but_conditions m (addReadyConditionForObject now st msg m item).
Proof.
  unfold addReadyConditionForObject.
  destruct (getReadyConditionForComponent m (item_ChartName item)) as [c ex].
  apply with_conditions_same.
Qed.

Lemma AddReadyConditionForObjects_same now items : forall m st msg,
  same_but_conditions m (AddReadyConditionForObjects now m items st msg).
Proof.
  unfold AddReadyConditionForObjects.
  induction items as [|item items IH]; intros m st msg; simpl.
  - apply same_refl.
  - eapply same_trans; [apply addReadyConditionForObject_same | apply IH].
Qed.

Lemma AddReadyConditionForResponses_same now jm rs : forall m,
  same_but_conditions m (AddReadyConditionForResponses now jm rs m).
Proof.
  unfold AddReadyConditionForResponses.
  induction rs as [|r rs IH]; intros m; cbn [fold_left].
  - apply same_refl.
  - eapply same_trans; [|apply IH].
    destruct (responseStatus r) as [st msg].
    apply AddReadyConditionForObjects_same.
Qed.

Lemma AddReadyConditionForResponses_deletion now jm rs m :
  DeletionTimestamp (AddReadyConditionForResponses now jm rs m) = DeletionTimestamp m.
Proof. apply (AddReadyConditionForResponses_same now jm rs m). Qed.

End UtilSpec.

(** ** The response collector *)

Module CollectorSpec.
Import Util UtilSpec Controllers.

Lemma collectLoop_reads_all (rs : list InstallResponse) (rest : list ChanEvent) :
  forall c0,
    collectLoop (length rs) (map Recv rs ++ rest) c0 =
    LoopDone (mkCollected (errorState c0 || existsb hasError rs)
                          (processing c0 || existsb stillProcessing rs)
                          (responses c0 ++ rs))
             rest.
Proof.
  induction rs as [|r rs IH]; intros [e p l]; simpl.
  - rewrite !orb_false_r, app_nil_r. reflexivity.
  - unfold hasError, stillProcessing.
    destruct (Err r) as [err|]; simpl.
    + rewrite IH. simpl. rewrite orb_true_r, <- app_assoc. reflexivity.
    + destruct (Ready r); simpl; rewrite IH; simpl;
        rewrite <- ?app_assoc, ?orb_true_r; reflexivity.
Qed.

Lemma collectLoop_cancelled (rs : list InstallResponse) (rest : list ChanEvent) (extra : nat) :
  forall c0,
    collectLoop (length rs + S extra) (map Recv rs ++ CtxDone :: rest) c0 = LoopCancelled.
Proof.
  induction rs as [|r rs IH]; intros c0; simpl.
  - reflexivity.
  - destruct (Err r); [apply IH|]. destruct (Ready r); apply IH.
Qed.

Lemma collectLoop_blocked (rs : list InstallResponse) (extra : nat) :
  forall c0, exists sofar,
    collectLoop (length rs + S extra) (map Recv rs) c0 = LoopBlocked sofar.
Proof.
  induction rs as [|r rs IH]; intros c0; simpl.
  - eexists; reflexivity.
  - destruct (Err r); [apply IH|]. destruct (Ready r); apply IH.
Qed.

Lemma updateManifestStatus_writes env m state message :
  exists m', snd (updateManifestStatus env m state message) = [StatusUpdate m'] /\
             State (Status m') = state /\
             DeletionTimestamp m' = DeletionTimestamp m /\
             ObservedGeneration (Status m') = Generation m'.
Proof.
  unfold updateManifestStatus. eexists. split; [reflexivity|].
  set (kind := [mkInstallItem ManifestKind "" ""]).
  assert (H : forall m0, same_but_conditions (with_state m state) m0 ->
              State (Status (SetObservedGeneration m0)) = state /\
              DeletionTimestamp (SetObservedGeneration m0) = DeletionTimestamp m /\
              ObservedGeneration (Status (SetObservedGeneration m0)) =
                Generation (SetObservedGeneration m0)).
  { intros m0 (_ & _ & _ & _ & Hd & _ & Hs & _). simpl in *. auto. }
  destruct (String.eqb state ManifestStateReady);
    [apply H, AddReadyConditionForObjects_same|].
  destruct (String.eqb state "");
    [apply H, AddReadyConditionForObjects_same|].
  destruct (String.eqb state ManifestStateError || String.eqb state ManifestStateDeleting
            || String.eqb state ManifestStateProcessing);
    [apply H, AddReadyConditionForObjects_same | apply H, same_refl].
Qed.

Lemma statusStates_app w1 w2 : statusStates (w1 ++ w2) = (statusStates w1 ++ statusStates w2)%list.
Proof. unfold statusStates, statusWrites. rewrite flat_map_app, map_app. reflexivity. Qed.

Lemma updateManifestStatus_states env m state message :
  statusStates (snd (updateManifestStatus env m state message)) = [state].
Proof.
  destruct (updateManifestStatus_writes env m state message) as (m' & -> & <- & _).
  reflexivity.
Qed.

Lemma setProcessedState_states env e p m :
  statusStates (setProcessedState env e p m) = [endStateOf e p m].
Proof. unfold setProcessedState. apply updateManifestStatus_states. Qed.

Lemma no_flags_all_ready (rs : list InstallResponse) :
  existsb hasError rs = false -> existsb stillProcessing rs = false ->
  Forall (fun r => Err r = None /\ Ready r = true) rs.
Proof.
  induction rs as [|r rs IH]; simpl; intros He Hp; [constructor|].
  apply orb_false_iff in He as [He1 He2]. apply orb_false_iff in Hp as [Hp1 Hp2].
  constructor; [|auto].
  unfold hasError, stillProcessing in *.
  destruct (Err r); [discriminate|]. destruct (Ready r); [auto|discriminate].
Qed.

(** C1: a dispatch round starts its collector with N, the number of
    Installs of the Manifest; the collector reads exactly the first N
    responses of the channel and leaves the rest; it is cancelled when the
    context closes before the N-th response; its two flags are "some
    response carries an error" and "some response is not ready and carries
    no error"; and the end state it writes is Error if errorSeen (a
    response error, or the escalation of a failed finalizer removal), else
    Deleting if the Manifest is being deleted, else Processing if
    processing, else Ready -- so Ready only if every response was ready
    with no error.  No state is written when the finalizer was removed. *)
Theorem collector_end_state (env : Env) (rs : list InstallResponse)
  (rest : list ChanEvent) (extra : nat) (key : ObjectKey)
  (dispatcher : Env) (dispatched : Manifest) (mode : Mode) (events : list ChanEvent) :
  let N := Z.of_nat (length rs) in
  let anyError := existsb hasError rs in
  let anyProcessing := existsb stillProcessing rs in
  snd (sendJobToInstallChannel dispatcher env events dispatched mode) =
    snd (ResponseHandlerFunc env (Z.of_nat (length (Installs dispatched))) events
                             (ObjectKeyFromObject dispatched))
  /\ collectLoop (length rs) (map Recv rs ++ rest) (mkCollected false false []) =
    LoopDone (mkCollected anyError anyProcessing rs) rest
  /\ ResponseHandlerFunc env (N + 1 + Z.of_nat extra) (map Recv rs ++ CtxDone :: rest) key =
       (ContextClosed, [])
  /\ match apiGet env key with
     | inl err =>
         ResponseHandlerFunc env N (map Recv rs ++ rest) key = (LocateFailed err, [])
     | inr m =>
         let deleting := negb (IsZero (DeletionTimestamp m)) in
         let removing := negb anyError && deleting && negb anyProcessing in
         let errorSeen := anyError || (removing && failed (finalizerRemoval env rs m)) in
         let written :=
           statusStates (snd (ResponseHandlerFunc env N (map Recv rs ++ rest) key)) in
         written =
           (if removing && negb errorSeen then []
            else [if errorSeen then ManifestStateError
                  else if deleting then ManifestStateDeleting
                  else if anyProcessing then ManifestStateProcessing
                  else ManifestStateReady])
         /\ (In ManifestStateReady written ->
             Forall (fun r => Err r = None /\ Ready r = true) rs)
     end.
Proof.
  intros N anyError anyProcessing.
  assert (Hloop : collectLoop (length rs) (map Recv rs ++ rest) (mkCollected false false []) =
                  LoopDone (mkCollected anyError anyProcessing rs) rest).
  { rewrite collectLoop_reads_all. reflexivity. }
  split.
  { unfold sendJobToInstallChannel. cbv zeta.
    destruct (GetInstallInfos dispatcher dispatched); reflexivity. }
  split; [exact Hloop|]. split.
  - unfold ResponseHandlerFunc, N.
    replace (Z.to_nat (Z.of_nat (length rs) + 1 + Z.of_nat extra))
      with (length rs + S extra)%nat by lia.
    rewrite collectLoop_cancelled. reflexivity.
  - unfold ResponseHandlerFunc, N. rewrite Nat2Z.id, Hloop.
    destruct (apiGet env key) as [err|m]; [reflexivity|].
    cbv zeta. cbn [errorState processing responses].
    rewrite AddReadyConditionForResponses_deletion.
    unfold finalizerRemoval, updateManifest.
    assert (Hflags : anyError = false -> anyProcessing = false ->
                     Forall (fun r => Err r = None /\ Ready r = true) rs)
      by apply no_flags_all_ready.
    destruct anyError, (IsZero (DeletionTimestamp m)) eqn:Hdel, anyProcessing;
      cbn [negb andb orb snd];
      rewrite ?setProcessedState_states; unfold endStateOf;
      rewrite ?AddReadyConditionForResponses_deletion, ?Hdel;
      try (split; [reflexivity|]; intros [Hin|[]]; try discriminate Hin; auto).
    destruct (apiUpdate env _) as [e|]; cbn [failed negb snd].
    + rewrite statusStates_app, setProcessedState_states. unfold endStateOf.
      split; [reflexivity|]. intros [Hin|[]]. discriminate Hin.
    + split; [reflexivity|]. intros [].
Qed.

End CollectorSpec.

(** ** Status writes on a Manifest that is being deleted *)

Module ReconcileSpec.
Import Util UtilSpec Controllers CollectorSpec.

Lemma statusWrites_app w1 w2 : statusWrites (w1 ++ w2) = (statusWrites w1 ++ statusWrites w2)%list.
Proof. unfold statusWrites. apply flat_map_app. Qed.

Lemma updateManifestStatus_safe env m state message :
  IsZero (DeletionTimestamp m) = true \/ state = ManifestStateDeleting
  \/ state = ManifestStateError ->
  Forall deleting_or_error (statusWrites (snd (updateManifestStatus env m state message))).
Proof.
  intros Hok.
  destruct (updateManifestStatus_writes env m state message) as (m' & -> & Hs & Hd & _).
  simpl. constructor; [|constructor].
  unfold deleting_or_error. rewrite Hd, Hs. intros Hz.
  destruct Hok as [Hz'|[->| ->]]; [congruence | auto | auto].
Qed.

Lemma endStateOf_deleting e p m :
  IsZero (DeletionTimestamp m) = false ->
  endStateOf e p m = ManifestStateDeleting \/ endStateOf e p m = ManifestStateError.
Proof. unfold endStateOf. intros ->. destruct e; auto. Qed.

Lemma setProcessedState_safe env e p m :
  Forall deleting_or_error (statusWrites (setProcessedState env e p m)).
Proof.
  unfold setProcessedState. apply updateManifestStatus_safe.
  destruct (IsZero (DeletionTimestamp m)) eqn:Hz; [auto|].
  right. apply endStateOf_deleting. exact Hz.
Qed.

Lemma collector_safe env chartCount events key :
  Forall deleting_or_error (statusWrites (snd (ResponseHandlerFunc env chartCount events key))).
Proof.
  unfold ResponseHandlerFunc.
  destruct (collectLoop _ _ _) as [|sofar|c rest]; try constructor.
  destruct (apiGet env key) as [err|m]; [constructor|].
  cbv zeta.
  destruct (negb (errorState c) && _ && negb (processing c)).
  - unfold updateManifest. destruct (apiUpdate env _); [|constructor].
    cbn [snd]. rewrite statusWrites_app. apply Forall_app. split; [constructor|].
    apply setProcessedState_safe.
  - apply setProcessedState_safe.
Qed.

Lemma sendJob_safe env cenv events m mode :
  Forall deleting_or_error
         (statusWrites (snd (sendJobToInstallChannel env cenv events m mode))).
Proof.
  unfold sendJobToInstallChannel. cbv zeta.
  destruct (GetInstallInfos env m); cbn [snd]; apply collector_safe.
Qed.

Lemma checkConsistency_safe env m deployInfos :
  IsZero (DeletionTimestamp m) = true ->
  Forall deleting_or_error (statusWrites (snd (checkConsistency env m deployInfos))).
Proof.
  intros Hz. induction deployInfos as [|d rest IH]; cbn [checkConsistency]; [constructor|].
  destruct (NewOperations env d); [apply updateManifestStatus_safe; auto|].
  destruct (VerifyResources env d) as [ready err].
  destruct ready; cbn [negb].
  - destruct err; [|exact IH].
    apply updateManifestStatus_safe. left.
    rewrite AddReadyConditionForResponses_deletion. exact Hz.
  - apply updateManifestStatus_safe. left.
    rewrite AddReadyConditionForResponses_deletion. exact Hz.
Qed.

Lemma HandleReadyState_safe env m :
  IsZero (DeletionTimestamp m) = true ->
  Forall deleting_or_error (statusWrites (snd (HandleReadyState env m))).
Proof.
  intros Hz. unfold HandleReadyState.
  destruct (negb _); [apply updateManifestStatus_safe; auto|].
  destruct (GetInstallInfos env m); [constructor|].
  apply checkConsistency_safe. exact Hz.
Qed.

(** Whatever [Reconcile] and the collector it starts write as status of a
    Manifest whose deletion timestamp is set carries the state Deleting or
    the state Error. *)
Lemma Reconcile_safe (env cenv : Env) (events : list ChanEvent)
  (req : ObjectKey) :
  Forall deleting_or_error (statusWrites (snd (Reconcile env cenv events req))).
Proof.
  unfold Reconcile.
  destruct (apiGet env req) as [err|m]; [constructor|].
  cbv zeta.
  destruct (IsZero (DeletionTimestamp m)) eqn:Hz; cbn [negb andb].
  - (* no deletion under way *)
    destruct (negb (ContainsFinalizer m ManifestFinalizer)); [constructor|].
    destruct (String.eqb _ "").
    { pose proof (updateManifestStatus_safe env m ManifestStateProcessing "initial state") as H.
      destruct (updateManifestStatus _ _ _ _) as [e w]. apply H. auto. }
    destruct (String.eqb _ ManifestStateProcessing).
    { pose proof (sendJob_safe env cenv events m CreateMode) as H.
      destruct (sendJobToInstallChannel _ _ _ _ _) as [[e j] w]. exact H. }
    destruct (String.eqb _ ManifestStateDeleting).
    { pose proof (sendJob_safe env cenv events m DeletionMode) as H.
      destruct (sendJobToInstallChannel _ _ _ _ _) as [[e j] w]. exact H. }
    destruct (String.eqb _ ManifestStateError).
    { pose proof (updateManifestStatus_safe env m ManifestStateProcessing
                    "observed generation change") as H.
      destruct (updateManifestStatus _ _ _ _) as [e w]. apply H. auto. }
    destruct (String.eqb _ ManifestStateReady); [|constructor].
    pose proof (HandleReadyState_safe env m Hz) as H.
    destruct (HandleReadyState env m) as [e w]. exact H.
  - (* deletion timestamp set *)
    destruct (String.eqb_spec (State (Status m)) ManifestStateDeleting) as [Hst|Hst];
      cbn [negb].
    + destruct (negb (ContainsFinalizer m ManifestFinalizer)); [constructor|].
      rewrite Hst. cbn [String.eqb ManifestStateDeleting ManifestStateProcessing].
      change (String.eqb ManifestStateDeleting "") with false.
      change (String.eqb ManifestStateDeleting ManifestStateProcessing) with false.
      change (String.eqb ManifestStateDeleting ManifestStateDeleting) with true.
      cbv iota.
      pose proof (sendJob_safe env cenv events m DeletionMode) as H.
      destruct (sendJobToInstallChannel _ _ _ _ _) as [[e j] w]. exact H.
    + pose proof (updateManifestStatus_safe env m ManifestStateDeleting
                    "deletion timestamp set") as H.
      destruct (updateManifestStatus _ _ _ _) as [e w]. apply H. auto.
Qed.

(** A collecting loop that finishes has read one response per round, in
    order, and its flags say whether one of them carries an error and
    whether one of them is still processing. *)
Lemma collectLoop_done (rounds : nat) : forall events c0 c rest,
  collectLoop rounds events c0 = LoopDone c rest ->
  exists rs,
    events = (map Recv rs ++ rest)%list /\ length rs = rounds /\
    c = mkCollected (errorState c0 || existsb hasError rs)
                    (processing c0 || existsb stillProcessing rs)
                    (responses c0 ++ rs).
Proof.
  induction rounds as [|rounds IH]; intros events c0 c rest; cbn [collectLoop].
  - intros [= <- <-]. exists []. cbn. rewrite !orb_false_r, app_nil_r.
    destruct c0; auto.
  - destruct events as [|[|r] events']; [discriminate|discriminate|].
    intros Hloop.
    assert (Hstep : exists c1,
              collectLoop rounds events' c1 = LoopDone c rest /\
              c1 = mkCollected (errorState c0 || hasError r)
                               (processing c0 || stillProcessing r)
                               (responses c0 ++ [r])).
    { unfold hasError, stillProcessing.
      destruct (Err r) as [e|].
      - eexists. split; [exact Hloop|]. rewrite orb_true_r, orb_false_r. reflexivity.
      - destruct (Ready r); cbn [negb] in *.
        + eexists. split; [exact Hloop|]. rewrite !orb_false_r. reflexivity.
        + eexists. split; [exact Hloop|]. rewrite orb_true_r, orb_false_r. reflexivity. }
    destruct Hstep as (c1 & Hrest & ->).
    destruct (IH _ _ _ _ Hrest) as (rs & -> & <- & ->).
    exists (r :: rs). cbn [map app length existsb errorState processing responses].
    rewrite !orb_assoc, <- app_assoc. auto.
Qed.

(** C2, as the code has it: whatever [Reconcile] and the collector it
    starts write as status of a Manifest whose deletion timestamp is set
    carries the state Deleting or the state Error, never Processing or
    Ready, and Error comes from [setProcessedState] alone.  The reconciler
    itself writes only Deleting: its guard, for a Manifest not yet in
    state Deleting; nothing when it adds the finalizer.  For a Manifest in
    state Deleting the only status written is the one of the collector,
    once it has read all responses and located the Manifest: Error
    exactly when the error flag is set, that is when a response carried an
    error, or when nothing was in error or processing and the finalizer
    removal failed; Deleting when no response carried an error and one is
    still processing; and nothing when the finalizer was removed. *)
Theorem deleting_manifest_status_writes (env cenv : Env) (events : list ChanEvent)
  (req : ObjectKey) :
  let run := Reconcile env cenv events req in
  Forall deleting_or_error (statusWrites (snd run)) /\
  forall m,
    apiGet env req = inr m -> IsZero (DeletionTimestamp m) = false ->
    (State (Status m) <> ManifestStateDeleting ->
     statusStates (snd run) = [ManifestStateDeleting]) /\
    (State (Status m) = ManifestStateDeleting ->
     ContainsFinalizer m ManifestFinalizer = false ->
     statusWrites (snd run) = []) /\
    (State (Status m) = ManifestStateDeleting ->
     ContainsFinalizer m ManifestFinalizer = true ->
     statusStates (snd run) =
       match collectLoop (length (Installs m)) events (mkCollected false false []),
             apiGet cenv (ObjectKeyFromObject m) with
       | LoopDone c _, inr latest =>
           if IsZero (DeletionTimestamp latest)
           then [endStateOf (errorState c) (processing c) latest]
           else if errorState c then [ManifestStateError]
           else if processing c then [ManifestStateDeleting]
           else if failed (finalizerRemoval cenv (responses c) latest)
                then [ManifestStateError]
                else []
       | _, _ => []
       end /\
     forall c rest,
       collectLoop (length (Installs m)) events (mkCollected false false []) =
         LoopDone c rest ->
       events = (map Recv (responses c) ++ rest)%list /\
       errorState c = existsb hasError (responses c) /\
       processing c = existsb stillProcessing (responses c)).
Proof.
  cbv zeta. split; [apply Reconcile_safe|].
  intros m Hget Hz. unfold Reconcile. rewrite Hget. cbv zeta. rewrite Hz. cbn [negb andb].
  split; [|split].
  - intros Hst.
    destruct (String.eqb_spec (State (Status m)) ManifestStateDeleting) as [|_];
      [contradiction|]. cbn [negb].
    pose proof (updateManifestStatus_states env m ManifestStateDeleting
                  "deletion timestamp set") as H.
    destruct (updateManifestStatus _ _ _ _) as [e w]. exact H.
  - intros Hst Hfin. rewrite Hst, Hfin.
    change (String.eqb ManifestStateDeleting ManifestStateDeleting) with true.
    reflexivity.
  - intros Hst Hfin. rewrite Hst, Hfin.
    change (String.eqb ManifestStateDeleting ManifestStateDeleting) with true.
    change (String.eqb ManifestStateDeleting "") with false.
    change (String.eqb ManifestStateDeleting ManifestStateProcessing) with false.
    cbn [negb]. cbv iota.
    split.
    + assert (Hsnd : snd (let '(err, _, w) :=
                            sendJobToInstallChannel env cenv events m DeletionMode in
                          (NoRequeue, err, w)) =
                     snd (ResponseHandlerFunc cenv (Z.of_nat (length (Installs m))) events
                                              (ObjectKeyFromObject m))).
      { unfold sendJobToInstallChannel. cbv zeta.
        destruct (GetInstallInfos env m); reflexivity. }
      rewrite Hsnd. unfold ResponseHandlerFunc. rewrite Nat2Z.id.
      destruct (collectLoop _ _ _) as [|sofar|c rest]; [reflexivity|reflexivity|].
      destruct (apiGet cenv (ObjectKeyFromObject m)) as [err|latest]; [reflexivity|].
      cbv zeta. rewrite AddReadyConditionForResponses_deletion.
      unfold finalizerRemoval, updateManifest.
      destruct (IsZero (DeletionTimestamp latest)) eqn:Hlatest; cbn [negb andb].
      * rewrite andb_false_r. cbn [andb snd]. rewrite setProcessedState_states.
        unfold endStateOf. rewrite AddReadyConditionForResponses_deletion. reflexivity.
      * destruct (errorState c); cbn [negb andb snd].
        { rewrite setProcessedState_states. reflexivity. }
        destruct (processing c); cbn [negb andb snd].
        { rewrite setProcessedState_states. unfold endStateOf.
          rewrite AddReadyConditionForResponses_deletion, Hlatest. reflexivity. }
        destruct (apiUpdate cenv _) as [e|]; cbn [failed snd]; [|reflexivity].
        rewrite statusStates_app, setProcessedState_states. reflexivity.
    + intros c rest Hloop. apply collectLoop_done in Hloop as (rs & -> & _ & ->).
      cbn [errorState processing responses orb app]. auto.
Qed.

(** C3, as the code has it: when no response carries an error, nothing is
    processing and the deletion timestamp is set, the collector removes
    the finalizer and sends one update of the object; if that update
    succeeds it returns without writing any status, and if and only if it
    fails the collector goes on to the error path and writes the state
    Error. *)
Theorem finalizer_removal_escalation (env : Env) (rs : list InstallResponse)
  (rest : list ChanEvent) (key : ObjectKey) (m : Manifest) :
  apiGet env key = inr m ->
  existsb hasError rs = false ->
  existsb stillProcessing rs = false ->
  IsZero (DeletionTimestamp m) = false ->
  let latest :=
    RemoveFinalizer (AddReadyConditionForResponses (now env) (jsonMarshal env) rs m)
                    ManifestFinalizer in
  let run := ResponseHandlerFunc env (Z.of_nat (length rs)) (map Recv rs ++ rest) key in
  ContainsFinalizer latest ManifestFinalizer = false /\
  match apiUpdate env latest with
  | None => run = (FinalizerRemoved, [Update latest])
  | Some _ =>
      fst run = StateProcessed /\
      exists m', snd run = [Update latest; StatusUpdate m'] /\
                 State (Status m') = ManifestStateError
  end.
Proof.
  intros Hget He Hp Hz latest run. split.
  - unfold latest, ContainsFinalizer, RemoveFinalizer. cbn [Finalizers with_finalizers].
    apply not_true_is_false. intros Hex.
    apply existsb_exists in Hex as (f & Hin & Heq).
    apply filter_In in Hin as [_ Hne].
    rewrite String.eqb_sym, Heq in Hne. discriminate.
  - unfold run, ResponseHandlerFunc.
    rewrite Nat2Z.id, collectLoop_reads_all, Hget. cbv zeta.
    cbn [errorState processing responses orb app].
    rewrite He, Hp, AddReadyConditionForResponses_deletion, Hz. cbn [negb andb].
    fold latest. unfold updateManifest.
    destruct (apiUpdate env latest) as [e|]; [|reflexivity].
    split; [reflexivity|]. cbn [snd app].
    unfold setProcessedState.
    destruct (updateManifestStatus_writes env latest (endStateOf true false latest)
                ("Manifest" +:+ " in " +:+ endStateOf true false latest +:+ " state"))
      as (m' & Hw & Hs & _).
    exists m'. split; [|exact Hs].
    change ManifestKind with "Manifest". rewrite Hw. reflexivity.
Qed.

End ReconcileSpec.

(** ** A Manifest under deletion, run through the reconciler *)

Module DeletionExamples.
Import Util Controllers CollectorSpec ReconcileSpec DeletionSamples.

(** C2 as stated fails: the Manifest has its deletion timestamp set, the
    uninstall of its one install fails, and the collector of this
    reconcile writes the state Error. *)
Lemma error_written_while_deleting :
  let env := cluster None uninstallFails in
  apiGet env key = inr deleting /\
  IsZero (DeletionTimestamp deleting) = false /\
  statusStates (snd (Reconcile env env [Recv (response env)] key)) = [ManifestStateError].
Proof. vm_compute. repeat split; reflexivity. Qed.

(** C3 as stated fails: no error, nothing processing, deletion timestamp
    set, the finalizer removal succeeds, and the only write is the
    update of the object; no status update is written. *)
Lemma finalizer_removed_without_status_write :
  let env := cluster None uninstallDone in
  let run := ResponseHandlerFunc env 1 [Recv (response env)] key in
  hasError (response env) = false /\
  stillProcessing (response env) = false /\
  IsZero (DeletionTimestamp deleting) = false /\
  fst run = FinalizerRemoved /\
  statusWrites (snd run) = [] /\
  (exists m', snd run = [Update m'] /\ Finalizers m' = []).
Proof.
  vm_compute. repeat split; try reflexivity.
  eexists. split; reflexivity.
Qed.

(** C3 at work on the failing side: the object update is refused, and
    the collector writes the state Error after it. *)
Lemma finalizer_removal_escalation_witness :
  let env := cluster (Some (ErrorString "conflict")) uninstallDone in
  let run := ResponseHandlerFunc env 1 [Recv (response env)] key in
  fst run = StateProcessed /\
  exists m', snd run = [Update (RemoveFinalizer
                                  (AddReadyConditionForResponses (now env) (jsonMarshal env)
                                                                 [response env] deleting)
                                  ManifestFinalizer);
                        StatusUpdate m'] /\
             State (Status m') = ManifestStateError.
Proof.
  intros env run.
  exact (proj2 (finalizer_removal_escalation env [response env] [] key deleting
                  eq_refl eq_refl eq_refl eq_refl)).
Defined.

(** The guard of [Reconcile]: a Manifest in state Ready whose deletion
    timestamp gets set is moved to Deleting, and nothing else is written. *)
Example deleting_written_on_deletion :
  let ready := with_state deleting ManifestStateReady in
  let env := mkEnv 1700000100 (fun _ => "null") (fun _ => inr ready) (fun _ => None)
                   (fun _ => None) (fun _ => inr [job]) (fun _ => None)
                   (fun _ => (true, None)) (fun _ => (true, None)) (fun _ => (true, None)) in
  statusStates (snd (Reconcile env env [] key)) = [ManifestStateDeleting].
Proof. reflexivity. Qed.

End DeletionExamples.

(** ** The prepare phase: target cluster and config layer *)

Module PrepareSpec.
Import Types Prepare.

(** C4: target-cluster resolution.  A Manifest that is not remote gets the
    host cluster info unchanged; a remote Manifest without the cache-key
    label gets an error; with a processor cached for the owner key it gets
    what that processor's [GetClusterInfo] returns; otherwise the REST
    config comes from the custom getter when there is one and from the
    secret named after the owner when there is none, and the cluster info
    returned holds that config and no client (or the getter's error is
    returned). *)
Theorem resolve_target_cluster (env : Env) (defaultClusterInfo : ClusterInfo)
  (m : Manifest) (cache : RendererCache) (customCfgGetter : option RESTConfigGetter) :
  let resolved := getDestinationConfigAndClient env defaultClusterInfo m cache customCfgGetter in
  (Remote m = false -> resolved = inr defaultClusterInfo) /\
  (Remote m = true -> Labels m !! CacheKey = None ->
   exists err, resolved = inl err) /\
  (forall owner processor,
     Remote m = true -> Labels m !! CacheKey = Some owner ->
     GetProcessor cache (mkKey (Namespace m) owner) = Some processor ->
     resolved = GetClusterInfo processor) /\
  (forall owner,
     Remote m = true -> Labels m !! CacheKey = Some owner ->
     GetProcessor cache (mkKey (Namespace m) owner) = None ->
     let getter :=
       match customCfgGetter with
       | Some custom => custom
       | None => GetRESTConfig env owner (Namespace m)
       end in
     match getter with
     | inl err => resolved = inl err
     | inr restConfig =>
         resolved = inr (mkClusterInfo (Some restConfig) None) /\
         forall clusterInfo, resolved = inr clusterInfo -> Client_ clusterInfo = None
     end).
Proof.
  intros resolved. unfold resolved, getDestinationConfigAndClient, GetResourceLabel.
  split; [|split; [|split]].
  - intros ->. reflexivity.
  - intros -> ->. eexists. reflexivity.
  - intros owner processor -> -> ->. reflexivity.
  - intros owner -> -> ->. cbv zeta. cbn [negb].
    unfold getDefaultRESTConfigGetter.
    destruct customCfgGetter as [[err|cfg]|]; [reflexivity | | ].
    + split; [reflexivity|]. intros ci [= <-]. reflexivity.
    + destruct (GetRESTConfig env owner (Namespace m)) as [err|cfg]; [reflexivity|].
      split; [reflexivity|]. intros ci [= <-]. reflexivity.
Qed.

(** C8: decoding the optional config layer.  With an empty type nothing
    is decoded (no layer is pulled) and the config list is empty; a decode
    that fails with EOF or unexpected EOF yields the empty list and no
    error; any other decode failure is returned. *)
Theorem parseConfigs_eof_tolerant (env : Env) (config : ImageSpec) (namespace : string)
  (insecureRegistry : bool) :
  let parsed := parseConfigs env config namespace insecureRegistry in
  let decoded :=
    getDecodedConfig env namespace insecureRegistry config (GetConfigFilePath env config) in
  (img_Type config = "" -> parsed = (inr [], [])) /\
  (forall err,
     img_Type config <> "" -> fst decoded = inl err ->
     errors_Is err EOF = true \/ errors_Is err ErrUnexpectedEOF = true ->
     fst parsed = inr []) /\
  (forall err,
     img_Type config <> "" -> fst decoded = inl err ->
     errors_Is err EOF = false -> errors_Is err ErrUnexpectedEOF = false ->
     fst parsed = inl err).
Proof.
  intros parsed decoded. unfold parsed, parseConfigs, NotEmpty, NilRefType.
  split; [|split].
  - intros ->. reflexivity.
  - intros err Hty Hdec Heof.
    destruct (String.eqb_spec (img_Type config) "") as [|_]; [contradiction|].
    cbn [negb]. fold decoded. destruct decoded as [[e|v] calls]; cbn [fst] in Hdec; [|discriminate].
    injection Hdec as ->.
    destruct Heof as [-> | ->]; cbn [negb andb]; [reflexivity|].
    rewrite andb_false_r. reflexivity.
  - intros err Hty Hdec H1 H2.
    destruct (String.eqb_spec (img_Type config) "") as [|_]; [contradiction|].
    cbn [negb]. fold decoded. destruct decoded as [[e|v] calls]; cbn [fst] in Hdec; [|discriminate].
    injection Hdec as ->. rewrite H1, H2. reflexivity.
Qed.

End PrepareSpec.

(** ** Acquiring the rendered manifest *)

Module OperationsSpec.
Import Operations.

(** C6: the rendered manifest is taken, in this order, from the
    pre-rendered file at the chart path, from the cached rendered file,
    and from the renderer's raw render; after a raw render the output is
    persisted when a chart path was passed, a permission failure of that
    write is tolerated (the manifest is returned with no error), and any
    other failure of the write is returned. *)
Theorem manifest_acquisition_order (renderSrc : RenderSrc) (fs : FileSystem)
  (deployInfo : InstallInfo) :
  let provided := GetManifestResources renderSrc (ChartName deployInfo) (ChartPath deployInfo) in
  let cached := GetCachedResources renderSrc (ChartName deployInfo) (ChartPath deployInfo) in
  let raw := GetRawManifest renderSrc deployInfo in
  let target := GetFsManifestChartPath fs (ChartPath deployInfo) in
  let acquired := getManifestForChartPath renderSrc fs deployInfo in
  (forall manifest,
     provided = (manifest, None) -> manifest <> "" ->
     acquired = ((manifest, None), [])) /\
  (forall manifest,
     provided = ("", None) -> cached = (manifest, None) -> manifest <> "" ->
     acquired = ((manifest, None), [])) /\
  (forall manifest,
     provided = ("", None) -> cached = ("", None) -> raw = (manifest, None) ->
     (ChartPath deployInfo = "" ->
      acquired = ((manifest, None), [RawRender deployInfo])) /\
     (ChartPath deployInfo <> "" ->
      match WriteToFile fs target manifest with
      | None =>
          acquired = ((manifest, None), [RawRender deployInfo; Persist target manifest])
      | Some err =>
          if os_IsPermission err
          then acquired = ((manifest, None),
                           [RawRender deployInfo; Persist target manifest;
                            LogNotCached (BaseResource deployInfo)])
          else acquired = ((manifest, Some err),
                           [RawRender deployInfo; Persist target manifest])
      end)).
Proof.
  intros provided cached raw target acquired.
  unfold acquired, getManifestForChartPath. fold provided cached raw.
  split; [|split].
  - intros manifest -> Hne.
    destruct (String.eqb_spec manifest "") as [|_]; [contradiction|]. reflexivity.
  - intros manifest -> -> Hne. cbn [String.eqb negb].
    destruct (String.eqb_spec manifest "") as [|_]; [contradiction|]. reflexivity.
  - intros manifest -> -> ->. cbn [String.eqb negb]. split; intros Hpath.
    + rewrite Hpath. reflexivity.
    + destruct (String.eqb_spec (ChartPath deployInfo) "") as [|_]; [contradiction|].
      cbn [negb]. fold target.
      destruct (WriteToFile fs target manifest) as [err|]; [|reflexivity].
      destruct (os_IsPermission err); reflexivity.
Qed.

End OperationsSpec.

(** ** The jobs of the prepare phase *)

Module JobsSpec.
Import Types Prepare PrepareSamples.

(** Every pointer [parseInstallations] returns is the pointer it was
    given: one per install, all to the same job. *)
Lemma parseInstallationsLoop_pointers env m configs base insecure installs :
  forall h acc ptrs h',
    parseInstallationsLoop env m configs base insecure installs h acc = (inr ptrs, h') ->
    ptrs = (acc ++ repeat base (length installs))%list.
Proof.
  induction installs as [|install rest IH]; intros h acc ptrs h'; cbn [parseInstallationsLoop].
  - intros [= <- <-]. cbn. rewrite app_nil_r. reflexivity.
  - destruct (getChartInfoForInstall env install m insecure) as [err|chartInfo];
      [discriminate|].
    destruct (parseChartConfigAndValues env install configs _) as [err|[cfg vals]];
      [discriminate|].
    intros Hloop. apply IH in Hloop. rewrite Hloop, <- app_assoc. reflexivity.
Qed.

Lemma parseInstallations_pointers env m configs base insecure h ptrs h' :
  parseInstallations env m configs base insecure h = (inr ptrs, h') ->
  ptrs = repeat base (length (Installs m)).
Proof. apply parseInstallationsLoop_pointers. Qed.

(** C5 at work: for the installs [a] and [b] the prepare phase returns the
    same pointer twice, and both jobs carry the chart info of [b]. *)
Lemma shared_job_for_two_installs :
  let prepared := GetInstallInfos codec twoInstalls host noFlags ∅ ∅ in
  map inst_Name (Installs twoInstalls) = ["a"; "b"] /\
  result prepared = inr [1%nat; 1%nat] /\
  releaseNames prepared = Some [Some "b"; Some "b"] /\
  chartPaths prepared = Some [Some "./charts/b"; Some "./charts/b"].
Proof. vm_compute. repeat split; reflexivity. Qed.

End JobsSpec.

(** ** The reason of the per-chart Ready condition *)

Module ConditionSpec.
Import Types Util UtilSpec Controllers Prepare HelmSamples.

Lemma isReadyConditionFor_spec name c :
  isReadyConditionFor name c = true <->
  cond_Type c = ConditionTypeReady /\ cond_Reason c = name.
Proof.
  unfold isReadyConditionFor. rewrite andb_true_iff, !String.eqb_eq. reflexivity.
Qed.

Lemma storeCondition_stores name c' cs :
  existsb (isReadyConditionFor name) cs = true -> In c' (storeCondition name c' cs).
Proof.
  induction cs as [|c cs IH]; cbn [existsb storeCondition]; [discriminate|].
  destruct (isReadyConditionFor name c); cbn [orb]; intros H.
  - left. reflexivity.
  - right. auto.
Qed.

Lemma storeCondition_keeps name c' cs c :
  In c cs -> In c (storeCondition name c' cs) \/ isReadyConditionFor name c = true.
Proof.
  induction cs as [|x cs IH]; cbn [storeCondition]; [intros []|].
  intros [->|Hin].
  - destruct (isReadyConditionFor name c) eqn:E; [right; reflexivity | left; left; reflexivity].
  - destruct (isReadyConditionFor name x).
    + left. right. exact Hin.
    + destruct (IH Hin) as [H|H]; [left; right; exact H | right; exact H].
Qed.

(** What [addReadyConditionForObject] stores: a Ready condition whose
    reason is the item's chart name, in a slice that holds a match. *)
Lemma addReadyConditionForObject_reason now st msg m item :
  hasReadyReason (item_ChartName item) (addReadyConditionForObject now st msg m item) /\
  forall reason, hasReadyReason reason m ->
                 hasReadyReason reason (addReadyConditionForObject now st msg m item).
Proof.
  unfold addReadyConditionForObject, getReadyConditionForComponent.
  set (name := item_ChartName item).
  destruct (List.find (isReadyConditionFor name) (Conditions (Status m))) as [c0|] eqn:Hfind.
  - (* the condition exists *)
    apply find_some in Hfind as [Hin0 Hm0].
    pose proof (proj1 (isReadyConditionFor_spec name c0) Hm0) as [Hty Hre].
    set (c' := mkCondition _ _ _ _ _ _).
    assert (Hc' : cond_Type c' = ConditionTypeReady /\ cond_Reason c' = name) by (split; assumption).
    assert (Hex : existsb (isReadyConditionFor name) (Conditions (Status m)) = true).
    { apply existsb_exists. exists c0. auto. }
    split.
    + exists c'. split; [|exact Hc']. cbn. apply storeCondition_stores, Hex.
    + intros reason (c & Hin & Hct & Hcr).
      destruct (storeCondition_keeps name c' _ c Hin) as [Hk|Hk].
      * exists c. cbn. auto.
      * apply isReadyConditionFor_spec in Hk as [_ Hk].
        exists c'. cbn. split; [apply storeCondition_stores, Hex|].
        destruct Hc' as [? ?]. split; congruence.
  - (* a new condition is appended *)
    set (c' := mkCondition _ _ _ _ _ _).
    assert (Hc' : cond_Type c' = ConditionTypeReady /\ cond_Reason c' = name)
      by (split; reflexivity).
    set (fresh := mkCondition ConditionTypeReady "" "" name None emptyInstallItem).
    assert (Hex : existsb (isReadyConditionFor name) (Conditions (Status m) ++ [fresh]) = true).
    { apply existsb_exists. exists fresh. split; [apply in_or_app; right; left; reflexivity|].
      apply isReadyConditionFor_spec. split; reflexivity. }
    split.
    + exists c'. split; [|exact Hc']. cbn. apply storeCondition_stores, Hex.
    + intros reason (c & Hin & Hct & Hcr).
      assert (Hin' : In c (Conditions (Status m) ++ [fresh])) by (apply in_or_app; auto).
      destruct (storeCondition_keeps name c' _ c Hin') as [Hk|Hk].
      * exists c. cbn. auto.
      * apply isReadyConditionFor_spec in Hk as [_ Hk].
        exists c'. cbn. split; [apply storeCondition_stores, Hex|].
        destruct Hc' as [? ?]. split; congruence.
Qed.

Lemma AddReadyConditionForResponses_reasons now jm rs : forall m,
  (forall r, In r rs ->
             hasReadyReason (resp_ChartName r) (AddReadyConditionForResponses now jm rs m)) /\
  (forall reason, hasReadyReason reason m ->
                  hasReadyReason reason (AddReadyConditionForResponses now jm rs m)).
Proof.
  unfold AddReadyConditionForResponses.
  induction rs as [|r rs IH]; intros m; cbn [fold_left].
  - split; [intros r []|auto].
  - destruct (responseStatus r) as [st msg].
    unfold AddReadyConditionForObjects at 1 3. cbn [fold_left].
    pose proof (addReadyConditionForObject_reason now st msg m (responseItem jm r))
      as [Hnew Hkeep].
    destruct (IH (addReadyConditionForObject now st msg m (responseItem jm r))) as [IH1 IH2].
    split.
    + intros r' [<-|Hin]; [apply IH2, Hnew | apply IH1, Hin].
    + intros reason H. apply IH2, Hkeep, H.
Qed.

(** C10, as the code has it: every response recorded into the status
    gets a Ready condition whose reason is the chart name the response
    carries; a worker's response carries the chart name of its job; and the
    prepare phase names the chart of an OCI or a Kustomize install after
    the install, and the chart of a Helm install
    [<install name>/<chartName>]. *)
Theorem ready_condition_reason (penv : Prepare.Env) (cenv : Controllers.Env) (now : Z)
  (jm : Flags -> string) (responses : list InstallResponse) (m owner : Manifest)
  (install : V1alpha1.InstallInfo) (specType : RefTypeMetadata) (insecureRegistry : bool)
  (mode : Mode) :
  (forall r, In r responses ->
     hasReadyReason (resp_ChartName r) (AddReadyConditionForResponses now jm responses m)) /\
  (forall chartInfo base,
     resp_ChartName (HandleCharts cenv (deployInfoOf chartInfo base) mode) =
     ChartName chartInfo) /\
  (forall chartInfo,
     createKustomizeChartInfo penv install specType = inr chartInfo ->
     ChartName chartInfo = inst_Name install) /\
  (forall chartInfo,
     createOciChartInfo penv install specType owner insecureRegistry = inr chartInfo ->
     ChartName chartInfo = inst_Name install) /\
  (forall chartInfo,
     createHelmChartInfo penv install specType = inr chartInfo ->
     exists helmChartSpec,
       DecodeHelmChartSpec penv (Source install) specType = inr helmChartSpec /\
       ChartName chartInfo = inst_Name install +:+ "/" +:+ helm_ChartName helmChartSpec).
Proof.
  split; [|split; [|split; [|split]]].
  - apply AddReadyConditionForResponses_reasons.
  - intros chartInfo base. unfold HandleCharts.
    destruct (NewOperations cenv _); [reflexivity|].
    destruct mode; [destruct (Install cenv _) | destruct (Uninstall cenv _)]; reflexivity.
  - intros chartInfo. unfold createKustomizeChartInfo.
    destruct (DecodeKustomizeSpec penv _ _); [discriminate|]. intros [= <-]. reflexivity.
  - intros chartInfo. unfold createOciChartInfo.
    destruct (DecodeImageSpec penv _ _); [discriminate|].
    destruct (getChartPath penv _ _ _); [discriminate|]. intros [= <-]. reflexivity.
  - intros chartInfo. unfold createHelmChartInfo.
    destruct (DecodeHelmChartSpec penv _ _) as [|spec]; [discriminate|].
    intros [= <-]. exists spec. split; reflexivity.
Qed.

(** C10 as stated fails: the install is named nginx-stable, and the Ready
    condition recorded for its response has the reason
    nginx-stable/nginx-ingress. *)
Lemma helm_condition_reason_is_not_install_name :
  let prepared :=
    GetInstallInfos PrepareSamples.codec helmInstall PrepareSamples.host PrepareSamples.noFlags ∅ ∅ in
  let responses :=
    map (fun chartInfo =>
           HandleCharts worker (deployInfoOf chartInfo (ObjectKeyFromObject helmInstall))
                        CreateMode)
        (chartInfos prepared) in
  let recorded :=
    AddReadyConditionForResponses (Controllers.now worker) (jsonMarshal worker)
                                  responses helmInstall in
  map inst_Name (Installs helmInstall) = ["nginx-stable"] /\
  map cond_Reason (Conditions (Status recorded)) = ["nginx-stable/nginx-ingress"] /\
  ~ hasReadyReason "nginx-stable" recorded.
Proof.
  vm_compute. split; [reflexivity|]. split; [reflexivity|].
  intros (c & Hin & _ & Hre). destruct Hin as [<-|[]]. discriminate Hre.
Qed.

End ConditionSpec.

(** ** The tar path cleaner *)

Module PathsSpec.
Import Paths.

(** *** Splitting and joining *)

Lemma Split_nonempty s sep : strings_Split s sep <> [].
Proof.
  destruct s as [|c s]; cbn [strings_Split]; [discriminate|].
  destruct (Ascii.eqb c sep); [discriminate|].
  destruct (strings_Split s sep); discriminate.
Qed.

Lemma Split_no_sep s sep :
  Forall (fun e => strings_Contains e sep = false) (strings_Split s sep).
Proof.
  induction s as [|c s IH]; cbn [strings_Split].
  - constructor; [reflexivity|constructor].
  - destruct (Ascii.eqb c sep) eqn:E.
    + constructor; [reflexivity|exact IH].
    + destruct (strings_Split s sep) as [|part parts].
      * constructor; [|constructor]. cbn. rewrite E. reflexivity.
      * inversion IH as [|? ? Hpart Hparts]; subst.
        constructor; [|exact Hparts]. cbn. rewrite E. exact Hpart.
Qed.

Lemma Split_without_sep e sep :
  strings_Contains e sep = false -> strings_Split e sep = [e].
Proof.
  induction e as [|c e IH]; cbn [strings_Contains strings_Split]; [reflexivity|].
  intros H. apply orb_false_iff in H as [Hc He].
  rewrite Hc, (IH He). reflexivity.
Qed.

Lemma append_nil (s : string) : "" +:+ s = s.
Proof. reflexivity. Qed.

Lemma append_cons (c : ascii) (a b : string) : String c a +:+ b = String c (a +:+ b).
Proof. reflexivity. Qed.

Lemma Split_app_sep a b sep :
  strings_Split (a +:+ String sep b) sep = (strings_Split a sep ++ strings_Split b sep)%list.
Proof.
  induction a as [|c a IH]; rewrite ?append_nil, ?append_cons; cbn [strings_Split app].
  - rewrite Ascii.eqb_refl. reflexivity.
  - destruct (Ascii.eqb c sep); [rewrite IH; reflexivity|].
    rewrite IH. pose proof (Split_nonempty a sep) as Hne.
    destruct (strings_Split a sep); [contradiction|]. reflexivity.
Qed.

Lemma Split_Join l sep :
  l <> [] -> Forall (fun e => strings_Contains e sep = false) l ->
  strings_Split (strings_Join l sep) sep = l.
Proof.
  induction l as [|e l IH]; [contradiction|]. intros _ Hall.
  inversion Hall as [|? ? He Hl]; subst.
  destruct l as [|e2 l].
  - cbn [strings_Join]. apply Split_without_sep, He.
  - change (strings_Join (e :: e2 :: l) sep)
      with (e +:+ String sep (strings_Join (e2 :: l) sep)).
    rewrite Split_app_sep, (Split_without_sep e sep He), IH; [reflexivity|discriminate|exact Hl].
Qed.

Lemma IsAbs_app a b : a <> "" -> path_IsAbs (a +:+ b) = path_IsAbs a.
Proof. destruct a; [contradiction|]. intros _. reflexivity. Qed.

Lemma IsAbs_Join h t :
  h <> "" -> strings_Contains h slash = false -> path_IsAbs (strings_Join (h :: t) slash) = false.
Proof.
  intros Hne Hno. destruct h as [|c h]; [contradiction|].
  cbn in Hno. apply orb_false_iff in Hno as [Hc _].
  destruct t; cbn [strings_Join]; cbn; exact Hc.
Qed.

(** *** The cleaning loop *)

Lemma clean_step_skip rooted b e : real e = false -> clean_step rooted b e = b.
Proof.
  unfold real, clean_step. intros H.
  destruct (String.eqb e ""); [reflexivity|].
  destruct (String.eqb e "."); [reflexivity|discriminate].
Qed.

Lemma clean_step_push rooted b e :
  real e = true -> e <> ".." -> clean_step rooted b e = mkBuf (e :: out b) (dotdot b).
Proof.
  unfold real, clean_step. intros H Hne.
  destruct (String.eqb e ""); [discriminate|].
  destruct (String.eqb e "."); [discriminate|].
  destruct (String.eqb_spec e ".."); [contradiction|reflexivity].
Qed.

(** Without a step up among them, the elements that are real are pushed
    in order and the others are skipped. *)
Lemma clean_push rooted elems : forall b,
  ~ In ".." elems ->
  fold_left (clean_step rooted) elems b =
  mkBuf (rev (List.filter real elems) ++ out b) (dotdot b).
Proof.
  induction elems as [|e elems IH]; intros b Hno; cbn [fold_left List.filter].
  - destruct b; reflexivity.
  - assert (He : e <> "..") by (intros ->; apply Hno; left; reflexivity).
    assert (Hrest : ~ In ".." elems) by (intros H; apply Hno; right; exact H).
    destruct (real e) eqn:Hreal.
    + rewrite (clean_step_push _ _ _ Hreal He), IH by exact Hrest.
      cbn [out dotdot rev]. rewrite <- List.app_assoc. reflexivity.
    + rewrite (clean_step_skip _ _ _ Hreal). apply IH, Hrest.
Qed.

Lemma clean_ups n : forall k,
  fold_left (clean_step false) (repeat ".." n) (mkBuf (repeat ".." k) k) =
  mkBuf (repeat ".." (n + k)) (n + k).
Proof.
  induction n as [|n IH]; intros k; cbn [repeat fold_left]; [reflexivity|].
  unfold clean_step at 2. cbn [String.eqb Ascii.eqb Bool.eqb out dotdot negb].
  rewrite List.repeat_length, Nat.ltb_irrefl.
  change (".." :: repeat ".." k) with (repeat ".." (S k)).
  rewrite IH. replace (n + S k)%nat with (S n + k)%nat by lia. reflexivity.
Qed.

Lemma canon_empty rooted : canon rooted (mkBuf [] 0%nat).
Proof. exists []. split; [reflexivity|]. split; [constructor|reflexivity]. Qed.

Lemma clean_step_canon rooted b e :
  strings_Contains e slash = false -> canon rooted b -> canon rooted (clean_step rooted b e).
Proof.
  intros Hslash (top & Hout & Htop & Hroot). unfold clean_step.
  destruct (String.eqb_spec e "") as [|He1]; [exists top; auto|].
  destruct (String.eqb_spec e ".") as [|He2]; [exists top; auto|].
  destruct (String.eqb_spec e "..") as [|He3].
  - destruct (Nat.ltb_spec (dotdot b) (length (out b))) as [Hlt|Hge].
    + destruct top as [|x top].
      * rewrite Hout in Hlt. cbn [app] in Hlt. rewrite List.repeat_length in Hlt. lia.
      * exists top. cbn [out dotdot]. rewrite Hout. cbn [app tail].
        inversion Htop; subst. auto.
    + assert (top = []) as ->.
      { rewrite Hout, List.length_app, List.repeat_length in Hge.
        destruct top; [reflexivity|cbn in Hge; lia]. }
      cbn [app] in Hout.
      destruct rooted; cbn [negb].
      * exists []. auto.
      * exists []. cbn [out dotdot app]. rewrite Hout, List.repeat_length.
        split; [reflexivity|]. split; [constructor|discriminate].
  - exists (e :: top). cbn [out dotdot]. rewrite Hout.
    split; [reflexivity|]. split; [|exact Hroot].
    constructor; [|exact Htop]. unfold normal. auto.
Qed.

Lemma clean_fold_canon rooted elems : forall b,
  Forall (fun e => strings_Contains e slash = false) elems ->
  canon rooted b -> canon rooted (fold_left (clean_step rooted) elems b).
Proof.
  induction elems as [|e elems IH]; intros b Hall Hb; cbn [fold_left]; [exact Hb|].
  inversion Hall; subst. apply IH; [assumption|]. apply clean_step_canon; assumption.
Qed.

Lemma clean_loop_canon rooted p :
  canon rooted (clean_loop rooted (strings_Split p slash)).
Proof. apply clean_fold_canon; [apply Split_no_sep | apply canon_empty]. Qed.

Lemma normal_real e : normal e -> real e = true.
Proof.
  intros (H1 & H2 & _). unfold real.
  destruct (String.eqb_spec e ""); [contradiction|].
  destruct (String.eqb_spec e "."); [contradiction|reflexivity].
Qed.

Lemma filter_real_normals l : Forall normal l -> List.filter real l = l.
Proof.
  induction 1 as [|e l He _ IH]; cbn [List.filter]; [reflexivity|].
  rewrite (normal_real e He), IH. reflexivity.
Qed.

Lemma normals_no_step_up l : Forall normal l -> ~ In ".." l.
Proof.
  intros Hall Hin. rewrite List.Forall_forall in Hall.
  destruct (Hall _ Hin) as (_ & _ & H & _). apply H. reflexivity.
Qed.

Lemma normals_no_sep l :
  Forall normal l -> Forall (fun e => strings_Contains e slash = false) l.
Proof. apply List.Forall_impl. intros e (_ & _ & _ & H). exact H. Qed.

Lemma Join_nonempty h t sep : h <> "" -> strings_Join (h :: t) sep <> "".
Proof.
  intros Hne. destruct h as [|c h]; [contradiction|].
  destruct t; cbn [strings_Join]; [discriminate|]. rewrite append_cons. discriminate.
Qed.

Lemma repeat_rev {A} (x : A) n : rev (repeat x n) = repeat x n.
Proof.
  induction n as [|n IH]; [reflexivity|].
  cbn [repeat rev]. rewrite IH. symmetry. apply List.repeat_cons.
Qed.

(** Cleaning the string rendered for a buffer gives the buffer back, and
    the string is rooted exactly when the buffer was filled below a root. *)
Lemma render_roundtrip rooted b :
  canon rooted b ->
  path_IsAbs (render rooted b) = rooted /\
  clean_loop rooted (strings_Split (render rooted b) slash) = b.
Proof.
  destruct b as [o dd]. intros (top & Hout & Htop & Hroot). cbn [out dotdot] in *.
  unfold render, clean_loop. cbn [out].
  destruct rooted.
  - (* below a root: no step up is kept *)
    rewrite (Hroot eq_refl) in *. cbn [repeat] in Hout. rewrite List.app_nil_r in Hout. subst o.
    split; [reflexivity|].
    cbn [strings_Split]. change (Ascii.eqb slash slash) with true. cbv iota.
    cbn [fold_left]. rewrite (clean_step_skip true _ "" eq_refl).
    destruct top as [|x top].
    + reflexivity.
    + rewrite Split_Join.
      * rewrite clean_push by (rewrite <- List.in_rev; apply normals_no_step_up, Htop).
        cbn [out dotdot]. rewrite List.app_nil_r, filter_real_normals, List.rev_involutive;
          [reflexivity|]. apply List.Forall_rev, Htop.
      * intros Hnil. apply (f_equal (@length _)) in Hnil.
        rewrite List.length_rev in Hnil. discriminate.
      * apply normals_no_sep, List.Forall_rev, Htop.
  - destruct o as [|x o].
    + (* the empty path is the dot *)
      split; [reflexivity|].
      destruct top; [|discriminate]. destruct dd; [reflexivity|discriminate].
    + set (l := rev (x :: o)).
      assert (Hl : l = (repeat ".." dd ++ rev top)%list).
      { unfold l. rewrite Hout, List.rev_app_distr, repeat_rev. reflexivity. }
      assert (Hsafe : Forall (fun e => e <> "" /\ strings_Contains e slash = false) l).
      { rewrite Hl. apply List.Forall_app. split.
        - apply List.Forall_forall. intros e He. apply List.repeat_spec in He as ->.
          split; [discriminate|reflexivity].
        - apply List.Forall_rev. revert Htop. apply List.Forall_impl.
          intros e (H1 & _ & _ & H4). auto. }
      assert (Hne : l <> []).
      { unfold l. intros Hnil. apply (f_equal (@length _)) in Hnil.
        rewrite List.length_rev in Hnil. discriminate. }
      split.
      * destruct l as [|h t]; [contradiction|].
        inversion Hsafe as [|? ? [Hh1 Hh2] _]; subst. apply IsAbs_Join; assumption.
      * rewrite Split_Join; [|exact Hne|revert Hsafe; apply List.Forall_impl; tauto].
        rewrite Hl, List.fold_left_app.
        pose proof (clean_ups dd 0%nat) as Hups. cbn [repeat] in Hups.
        rewrite Hups, Nat.add_0_r.
        rewrite clean_push by (rewrite <- List.in_rev; apply normals_no_step_up, Htop).
        cbn [out dotdot]. rewrite filter_real_normals by (apply List.Forall_rev, Htop).
        rewrite List.rev_involutive, Hout. reflexivity.
Qed.

(** *** The path cleaner of the tar extraction *)

(** A destination without a step up and without a leading separator is
    cleaned to its real elements. *)
Lemma Clean_descent norm :
  ~ In ".." (strings_Split norm slash) -> path_IsAbs norm = false ->
  let reals := List.filter real (strings_Split norm slash) in
  filepath_Clean norm = render false (mkBuf (rev reals) 0%nat) /\ Forall normal reals.
Proof.
  intros Hno Habs reals. split.
  - unfold filepath_Clean, clean_loop. rewrite Habs, clean_push by exact Hno.
    cbn [out dotdot]. rewrite List.app_nil_r. reflexivity.
  - apply List.Forall_forall. intros e He. apply List.filter_In in He as [Hin Hreal].
    unfold real in Hreal. apply andb_true_iff in Hreal as [H1 H2].
    pose proof (Split_no_sep norm slash) as Hsep. rewrite List.Forall_forall in Hsep.
    unfold normal. repeat split.
    + intros ->. discriminate H1.
    + intros ->. discriminate H2.
    + intros ->. apply Hno, Hin.
    + apply Hsep, Hin.
Qed.

(** Cleaning on, over the rendering of such a descent, pushes the descent. *)
Lemma clean_over_descent rooted reals b :
  Forall normal reals ->
  fold_left (clean_step rooted)
            (strings_Split (render false (mkBuf (rev reals) 0%nat)) slash) b =
  mkBuf (rev reals ++ out b) (dotdot b).
Proof.
  intros Hn. unfold render. cbn [out].
  destruct reals as [|e reals].
  - cbn. destruct b; reflexivity.
  - destruct (rev (e :: reals)) eqn:Hrev.
    { apply (f_equal (@length _)) in Hrev. rewrite List.length_rev in Hrev. discriminate. }
    rewrite <- Hrev, List.rev_involutive.
    rewrite Split_Join; [|discriminate|apply normals_no_sep, Hn].
    rewrite clean_push by (apply normals_no_step_up, Hn).
    rewrite filter_real_normals by exact Hn. reflexivity.
Qed.

Lemma render_descent_nonempty reals :
  Forall normal reals -> render false (mkBuf (rev reals) 0%nat) <> "".
Proof.
  intros Hn. unfold render. cbn [out].
  destruct (rev reals) as [|x o] eqn:Hrev; [discriminate|].
  rewrite <- Hrev, List.rev_involutive.
  destruct reals as [|e reals]; [discriminate|].
  inversion Hn as [|? ? (H1 & _) _]; subst. apply Join_nonempty, H1.
Qed.

(** The join of a root and a cleaned descent lies inside the root. *)
Lemma Join_inside root reals :
  Forall normal reals ->
  inside root (filepath_Join root (render false (mkBuf (rev reals) 0%nat))).
Proof.
  intros Hn. set (cd := render false (mkBuf (rev reals) 0%nat)).
  set (rooted := path_IsAbs root).
  set (broot := clean_loop rooted (strings_Split root slash)).
  assert (Hcanon : canon rooted (mkBuf (rev reals ++ out broot) (dotdot broot))).
  { destruct (clean_loop_canon rooted root) as (top & Hout & Htop & Hroot). fold broot in Hout, Hroot.
    exists (rev reals ++ top)%list. cbn [out dotdot]. rewrite Hout, List.app_assoc.
    split; [reflexivity|]. split; [|exact Hroot].
    apply List.Forall_app. split; [apply List.Forall_rev, Hn | exact Htop]. }
  assert (Hjoin : filepath_Join root cd =
                  render rooted (mkBuf (rev reals ++ out broot) (dotdot broot))).
  { unfold filepath_Join.
    destruct (String.eqb_spec root "") as [->|Hroot]; cbn [negb].
    - destruct (String.eqb_spec cd "") as [Hcd|_]; cbn [negb];
        [exfalso; revert Hcd; apply render_descent_nonempty, Hn|].
      unfold filepath_Clean.
      destruct (render_roundtrip false (mkBuf (rev reals) 0%nat)) as [Habs Hloop].
      { exists (rev reals). cbn [out dotdot repeat]. rewrite List.app_nil_r.
        split; [reflexivity|]. split; [apply List.Forall_rev, Hn|discriminate]. }
      fold cd in Habs, Hloop. rewrite Habs, Hloop.
      unfold broot, rooted. cbn. rewrite List.app_nil_r. reflexivity.
    - unfold filepath_Clean.
      rewrite (IsAbs_app root (String slash cd) Hroot). fold rooted.
      unfold clean_loop. rewrite Split_app_sep, List.fold_left_app.
      change (fold_left (clean_step rooted) (strings_Split root slash) (mkBuf [] 0%nat))
        with broot.
      unfold cd. rewrite clean_over_descent by exact Hn. reflexivity. }
  destruct (render_roundtrip rooted _ Hcanon) as [Habs Hloop].
  exists reals. split; [apply normals_no_step_up, Hn|].
  unfold position. rewrite Hjoin, Habs, Hloop. cbn [fst snd out].
  fold rooted broot. split; [reflexivity|].
  rewrite List.rev_app_distr, List.rev_involutive. reflexivity.
Qed.

(** C7: the path cleaner refuses a destination that contains a colon,
    that has a [..] element once backslashes are read as separators, or
    that is absolute; every other destination is answered with the
    cleaned join of the root and the destination, separators normalized,
    and that path lies inside the root. *)
Theorem CleanFilePathJoin_spec (root dest : string) :
  let norm := strings_ReplaceAll dest backslash slash in
  let illegal :=
    strings_Contains dest colon = true \/
    In ".." (strings_Split norm slash) \/
    path_IsAbs norm = true in
  (illegal -> exists err, CleanFilePathJoin root dest = inl err) /\
  (~ illegal ->
   CleanFilePathJoin root dest =
     inr (filepath_ToSlash (filepath_Join root (filepath_Clean norm))) /\
   forall p, CleanFilePathJoin root dest = inr p -> inside root p).
Proof.
  intros norm illegal. subst illegal. unfold CleanFilePathJoin. fold norm.
  assert (Hex : existsb (fun part => String.eqb part "..") (strings_Split norm slash) = true
                <-> In ".." (strings_Split norm slash)).
  { rewrite List.existsb_exists. split.
    - intros (e & Hin & Heq). apply String.eqb_eq in Heq as ->. exact Hin.
    - intros Hin. exists "..". split; [exact Hin|reflexivity]. }
  split.
  - intros [Hc|[Hd|Ha]].
    + rewrite Hc. eexists; reflexivity.
    + destruct (strings_Contains dest colon); [eexists; reflexivity|].
      rewrite (proj2 Hex Hd). eexists; reflexivity.
    + destruct (strings_Contains dest colon); [eexists; reflexivity|].
      destruct (existsb _ _); [eexists; reflexivity|].
      rewrite Ha. eexists; reflexivity.
  - intros Hlegal.
    destruct (strings_Contains dest colon) eqn:Hc;
      [exfalso; apply Hlegal; left; reflexivity|].
    destruct (existsb _ _) eqn:Hd;
      [exfalso; apply Hlegal; right; left; apply Hex; reflexivity|].
    destruct (path_IsAbs norm) eqn:Ha;
      [exfalso; apply Hlegal; right; right; reflexivity|].
    split; [reflexivity|]. intros p [= <-].
    assert (Hno : ~ In ".." (strings_Split norm slash)).
    { intros Hin. apply Hex in Hin. congruence. }
    destruct (Clean_descent norm Hno Ha) as [-> Hn].
    unfold filepath_ToSlash. apply Join_inside, Hn.
Qed.

(** The cleaner on a few archive entries. *)
Example clean_nested_entry :
  CleanFilePathJoin "/cache/redis" "templates\.\deployment.yaml" =
  inr "/cache/redis/templates/deployment.yaml".
Proof. reflexivity. Qed.

Example clean_rejects_step_up :
  CleanFilePathJoin "/cache/redis" "templates/../../etc/passwd" =
  inl (ErrorString "path contains '..', which is illegal").
Proof. reflexivity. Qed.

Example clean_rejects_absolute :
  CleanFilePathJoin "/cache/redis" "\etc\passwd" =
  inl (ErrorString "path is absolute, which is illegal").
Proof. reflexivity. Qed.

Example clean_rejects_drive :
  CleanFilePathJoin "/cache/redis" "C:evil" =
  inl (ErrorString "path contains ':', which is illegal").
Proof. reflexivity. Qed.

Example clean_relative_root :
  CleanFilePathJoin "../cache" "a//b/" = inr "../cache/a/b".
Proof. reflexivity. Qed.

End PathsSpec.

(** ** The reconciler beyond deletion *)

Module StateMachineSpec.
Import Util UtilSpec Controllers CollectorSpec ReconcileSpec.

(** Every status update in a trace satisfies [P] as soon as every status
    update of [updateManifestStatus] does. *)
Section StatusWrites.
Variable P : Manifest -> Prop.
Hypothesis P_update : forall env m state message m',
  snd (updateManifestStatus env m state message) = [StatusUpdate m'] -> P m'.

Lemma updateManifestStatus_all env m state message :
  Forall P (statusWrites (snd (updateManifestStatus env m state message))).
Proof.
  destruct (updateManifestStatus_writes env m state message) as (m' & Hw & _).
  rewrite Hw. cbn. constructor; [|constructor]. eapply P_update, Hw.
Qed.

Lemma collector_all env chartCount events key :
  Forall P (statusWrites (snd (ResponseHandlerFunc env chartCount events key))).
Proof.
  unfold ResponseHandlerFunc.
  destruct (collectLoop _ _ _) as [|sofar|c rest]; try constructor.
  destruct (apiGet env key) as [err|m]; [constructor|].
  cbv zeta.
  destruct (negb (errorState c) && _ && negb (processing c)).
  - unfold updateManifest. destruct (apiUpdate env _); [|constructor].
    cbn [snd]. rewrite statusWrites_app. apply List.Forall_app. split; [constructor|].
    apply updateManifestStatus_all.
  - apply updateManifestStatus_all.
Qed.

Lemma checkConsistency_all env m deployInfos :
  Forall P (statusWrites (snd (checkConsistency env m deployInfos))).
Proof.
  induction deployInfos as [|d rest IH]; cbn [checkConsistency]; [constructor|].
  destruct (NewOperations env d); [apply updateManifestStatus_all|].
  destruct (VerifyResources env d) as [ready err].
  destruct ready; cbn [negb]; [|apply updateManifestStatus_all].
  destruct err; [apply updateManifestStatus_all | exact IH].
Qed.

Lemma Reconcile_all env cenv events req :
  Forall P (statusWrites (snd (Reconcile env cenv events req))).
Proof.
  unfold Reconcile.
  destruct (apiGet env req) as [err|m]; [constructor|].
  cbv zeta.
  destruct (negb (IsZero (DeletionTimestamp m)) && _).
  { pose proof (updateManifestStatus_all env m ManifestStateDeleting "deletion timestamp set") as H.
    destruct (updateManifestStatus _ _ _ _) as [e w]. exact H. }
  destruct (negb (ContainsFinalizer m ManifestFinalizer)); [constructor|].
  destruct (String.eqb _ "").
  { pose proof (updateManifestStatus_all env m ManifestStateProcessing "initial state") as H.
    destruct (updateManifestStatus _ _ _ _) as [e w]. exact H. }
  destruct (String.eqb _ ManifestStateProcessing).
  { unfold sendJobToInstallChannel. cbv zeta.
    destruct (GetInstallInfos env m); apply collector_all. }
  destruct (String.eqb _ ManifestStateDeleting).
  { unfold sendJobToInstallChannel. cbv zeta.
    destruct (GetInstallInfos env m); apply collector_all. }
  destruct (String.eqb _ ManifestStateError).
  { pose proof (updateManifestStatus_all env m ManifestStateProcessing
                  "observed generation change") as H.
    destruct (updateManifestStatus _ _ _ _) as [e w]. exact H. }
  destruct (String.eqb _ ManifestStateReady); [|constructor].
  unfold HandleReadyState.
  destruct (negb _).
  { pose proof (updateManifestStatus_all env m ManifestStateProcessing
                  "observed generation change") as H.
    destruct (updateManifestStatus _ _ _ _) as [e w]. exact H. }
  destruct (GetInstallInfos env m) as [e|infos]; [constructor|].
  pose proof (checkConsistency_all env m infos) as H.
  destruct (checkConsistency env m infos) as [e w]. exact H.
Qed.

End StatusWrites.

(** X1: whatever one pass of [Reconcile] and its collector write as status,
    the observed generation written equals the generation of the object
    written. *)
Theorem status_writes_observe_generation (env cenv : Env) (events : list ChanEvent)
  (req : ObjectKey) :
  Forall (fun m => ObservedGeneration (Status m) = Generation m)
         (statusWrites (snd (Reconcile env cenv events req))).
Proof.
  apply Reconcile_all. intros e m state message m' Hw.
  destruct (updateManifestStatus_writes e m state message) as (m'' & Hw' & _ & _ & Hgen).
  rewrite Hw in Hw'. injection Hw' as ->. exact Hgen.
Qed.

Lemma AddFinalizer_absent m finalizer :
  ContainsFinalizer m finalizer = false ->
  Finalizers (AddFinalizer m finalizer) = (Finalizers m ++ [finalizer])%list /\
  ContainsFinalizer (AddFinalizer m finalizer) finalizer = true /\
  Status (AddFinalizer m finalizer) = Status m.
Proof.
  intros Habs. unfold AddFinalizer. rewrite Habs. cbn [Finalizers with_finalizers Status].
  split; [reflexivity|]. split; [|reflexivity].
  unfold ContainsFinalizer. cbn [Finalizers with_finalizers].
  rewrite existsb_app. cbn. rewrite String.eqb_refl, orb_true_r. reflexivity.
Qed.

(** X2: a Manifest without the finalizer, not waiting for its move to
    Deleting, gets the finalizer before any state is handled: the pass
    sends one update of the object with the finalizer appended, writes no
    status, and asks for no requeue. *)
Theorem finalizer_added_first (env cenv : Env) (events : list ChanEvent) (req : ObjectKey)
  (m : Manifest) :
  apiGet env req = inr m ->
  ContainsFinalizer m ManifestFinalizer = false ->
  IsZero (DeletionTimestamp m) = true \/ State (Status m) = ManifestStateDeleting ->
  let m' := AddFinalizer m ManifestFinalizer in
  Reconcile env cenv events req = (NoRequeue, apiUpdate env m', [Update m']) /\
  Finalizers m' = (Finalizers m ++ [ManifestFinalizer])%list /\
  ContainsFinalizer m' ManifestFinalizer = true /\
  Status m' = Status m.
Proof.
  intros Hget Habs Hguard m'. split; [|apply AddFinalizer_absent, Habs].
  unfold Reconcile. rewrite Hget. cbv zeta.
  replace (negb (IsZero (DeletionTimestamp m))
           && negb (String.eqb (State (Status m)) ManifestStateDeleting)) with false.
  - rewrite Habs. reflexivity.
  - destruct Hguard as [-> | ->]; [reflexivity|]. rewrite andb_false_r. reflexivity.
Qed.

Lemma checkConsistency_states env m deployInfos :
  let w := statusStates (snd (checkConsistency env m deployInfos)) in
  w = [] \/ w = [ManifestStateProcessing] \/ w = [ManifestStateError].
Proof.
  induction deployInfos as [|d rest IH]; cbn [checkConsistency]; [left; reflexivity|].
  cbv zeta.
  destruct (NewOperations env d);
    [right; right; apply updateManifestStatus_states|].
  destruct (VerifyResources env d) as [ready err].
  destruct ready; cbn [negb]; [|right; left; apply updateManifestStatus_states].
  destruct err; [right; right; apply updateManifestStatus_states | exact IH].
Qed.

Lemma checkConsistency_consistent env m deployInfos :
  Forall (fun d => NewOperations env d = None /\ VerifyResources env d = (true, None))
         deployInfos ->
  checkConsistency env m deployInfos = (None, []).
Proof.
  induction 1 as [|d rest [Hn Hv] _ IH]; cbn [checkConsistency]; [reflexivity|].
  rewrite Hn, Hv. exact IH.
Qed.

(** X3: the consistency check of a Ready Manifest writes at most one
    status, and only Processing or Error; it writes Processing when the
    generation was not observed yet, and it writes nothing and returns no
    error when every job of the prepare phase verifies as ready. *)
Theorem ready_state_writes (env : Env) (m : Manifest) :
  let w := statusStates (snd (HandleReadyState env m)) in
  (w = [] \/ w = [ManifestStateProcessing] \/ w = [ManifestStateError]) /\
  (Generation m <> ObservedGeneration (Status m) -> w = [ManifestStateProcessing]) /\
  (forall deployInfos,
     Generation m = ObservedGeneration (Status m) ->
     GetInstallInfos env m = inr deployInfos ->
     Forall (fun d => NewOperations env d = None /\ VerifyResources env d = (true, None))
            deployInfos ->
     HandleReadyState env m = (None, [])).
Proof.
  cbv zeta. unfold HandleReadyState.
  destruct (Z.eqb_spec (Generation m) (ObservedGeneration (Status m))) as [Heq|Hne];
    cbn [negb].
  - split; [|split].
    + destruct (GetInstallInfos env m) as [e|infos]; [left; reflexivity|].
      apply checkConsistency_states.
    + intros Hne. contradiction.
    + intros infos _ -> Hall. apply checkConsistency_consistent, Hall.
  - split; [|split].
    + right; left. apply updateManifestStatus_states.
    + intros _. apply updateManifestStatus_states.
    + intros infos Heq. contradiction.
Qed.

(** X4: the consistency check returns at the first job that is not
    ready: it writes Processing and never looks at the jobs after it. *)
Theorem consistency_check_stops_at_first_unready (env : Env) (m : Manifest)
  (verified : list DeployInfo) (unready : DeployInfo) (later : list DeployInfo)
  (err : option error) :
  Forall (fun d => NewOperations env d = None /\ VerifyResources env d = (true, None))
         verified ->
  NewOperations env unready = None ->
  VerifyResources env unready = (false, err) ->
  checkConsistency env m (verified ++ unready :: later) =
    checkConsistency env m [unready] /\
  statusStates (snd (checkConsistency env m (verified ++ unready :: later))) =
    [ManifestStateProcessing].
Proof.
  intros Hall Hn Hv.
  assert (Hhead : checkConsistency env m (verified ++ unready :: later) =
                  checkConsistency env m [unready]).
  { induction Hall as [|d rest [Hdn Hdv] _ IH]; cbn [app checkConsistency].
    - rewrite Hn, Hv. reflexivity.
    - rewrite Hdn, Hdv. exact IH. }
  split; [exact Hhead|]. rewrite Hhead. cbn [checkConsistency]. rewrite Hn, Hv.
  cbn [negb]. apply updateManifestStatus_states.
Qed.

End StateMachineSpec.

(** ** Reading the readiness conditions back *)

Module ConditionLookupSpec.
Import Util UtilSpec ConditionSpec.

Lemma find_storeCondition_same name c' cs :
  isReadyConditionFor name c' = true ->
  existsb (isReadyConditionFor name) cs = true ->
  List.find (isReadyConditionFor name) (storeCondition name c' cs) = Some c'.
Proof.
  intros Hc'. induction cs as [|c cs IH]; cbn [existsb storeCondition]; [discriminate|].
  destruct (isReadyConditionFor name c) eqn:E; cbn [orb List.find]; intros H.
  - rewrite Hc'. reflexivity.
  - rewrite E. auto.
Qed.

Lemma isReadyConditionFor_other name other c :
  other <> name -> isReadyConditionFor name c = true -> isReadyConditionFor other c = false.
Proof.
  intros Hne H. apply isReadyConditionFor_spec in H as [_ Hre].
  unfold isReadyConditionFor. apply andb_false_iff. right.
  apply String.eqb_neq. congruence.
Qed.

Lemma find_storeCondition_other name other c' cs :
  other <> name -> isReadyConditionFor name c' = true ->
  List.find (isReadyConditionFor other) (storeCondition name c' cs) =
  List.find (isReadyConditionFor other) cs.
Proof.
  intros Hne Hc'. induction cs as [|c cs IH]; cbn [storeCondition]; [reflexivity|].
  destruct (isReadyConditionFor name c) eqn:E; cbn [List.find].
  - rewrite (isReadyConditionFor_other name other c' Hne Hc'),
            (isReadyConditionFor_other name other c Hne E). reflexivity.
  - rewrite IH. reflexivity.
Qed.

Lemma find_app_other other (cs : list ManifestCondition) c :
  isReadyConditionFor other c = false ->
  List.find (isReadyConditionFor other) (cs ++ [c]) = List.find (isReadyConditionFor other) cs.
Proof.
  intros Hc. induction cs as [|x cs IH]; cbn [app List.find].
  - rewrite Hc. reflexivity.
  - destruct (isReadyConditionFor other x); [reflexivity | exact IH].
Qed.

Lemma storeCondition_length name c' cs : length (storeCondition name c' cs) = length cs.
Proof.
  induction cs as [|c cs IH]; cbn [storeCondition]; [reflexivity|].
  destruct (isReadyConditionFor name c); cbn [length]; congruence.
Qed.

Lemma with_conditions_Conditions m cs : Conditions (Status (with_conditions m cs)) = cs.
Proof. reflexivity. Qed.

Lemma find_existsb (f : ManifestCondition -> bool) cs c :
  List.find f cs = Some c -> existsb f cs = true.
Proof.
  intros H. apply find_some in H as [Hin Hf]. apply existsb_exists. eauto.
Qed.

Lemma addReadyConditionForObject_lookup now st msg m item :
  getReadyConditionForComponent (addReadyConditionForObject now st msg m item)
                                (item_ChartName item) =
  (mkCondition ConditionTypeReady st msg (item_ChartName item) (Some now)
               (if negb (String.eqb (item_ClientConfig item) "")
                   || negb (String.eqb (item_Overrides item) "")
                then item
                else cond_InstallInfo
                       (fst (getReadyConditionForComponent m (item_ChartName item)))), true).
Proof.
  unfold addReadyConditionForObject.
  unfold getReadyConditionForComponent at 2 3.
  set (name := item_ChartName item).
  destruct (List.find (isReadyConditionFor name) (Conditions (Status m))) as [c0|] eqn:Hfind.
  - pose proof (find_existsb _ _ _ Hfind) as Hex.
    apply find_some in Hfind as [_ Hm0].
    pose proof (proj1 (isReadyConditionFor_spec name c0) Hm0) as [Hty Hre].
    cbn [fst]. unfold getReadyConditionForComponent. rewrite with_conditions_Conditions.
    rewrite find_storeCondition_same; [rewrite Hty, Hre; reflexivity | | exact Hex].
    apply isReadyConditionFor_spec. split; assumption.
  - cbn [fst cond_InstallInfo cond_Type cond_Reason].
    unfold getReadyConditionForComponent. rewrite with_conditions_Conditions.
    rewrite find_storeCondition_same; [reflexivity | |].
    + apply isReadyConditionFor_spec. split; reflexivity.
    + rewrite existsb_app. cbn [existsb]. apply orb_true_iff. right.
      rewrite orb_false_r. apply isReadyConditionFor_spec. split; reflexivity.
Qed.

Lemma addReadyConditionForObject_frame now st msg m item other :
  other <> item_ChartName item ->
  getReadyConditionForComponent (addReadyConditionForObject now st msg m item) other =
  getReadyConditionForComponent m other.
Proof.
  intros Hne. unfold addReadyConditionForObject.
  unfold getReadyConditionForComponent at 2.
  set (name := item_ChartName item) in *.
  destruct (List.find (isReadyConditionFor name) (Conditions (Status m))) as [c0|] eqn:Hfind.
  - apply find_some in Hfind as [_ Hm0].
    pose proof (proj1 (isReadyConditionFor_spec name c0) Hm0) as [Hty Hre].
    unfold getReadyConditionForComponent. rewrite with_conditions_Conditions.
    rewrite find_storeCondition_other; [reflexivity | exact Hne |].
    apply isReadyConditionFor_spec. split; assumption.
  - unfold getReadyConditionForComponent. rewrite with_conditions_Conditions.
    rewrite find_storeCondition_other;
      [| exact Hne | apply isReadyConditionFor_spec; split; reflexivity].
    rewrite find_app_other; [reflexivity|].
    apply (isReadyConditionFor_other name); [exact Hne|].
    apply isReadyConditionFor_spec. split; reflexivity.
Qed.

Lemma addReadyConditionForObject_length now st msg m item :
  length (Conditions (Status (addReadyConditionForObject now st msg m item))) =
  (length (Conditions (Status m)) +
   (if snd (getReadyConditionForComponent m (item_ChartName item)) then 0 else 1))%nat.
Proof.
  unfold addReadyConditionForObject, getReadyConditionForComponent.
  destruct (List.find _ _); cbn [snd]; rewrite with_conditions_Conditions;
    rewrite storeCondition_length, ?length_app; cbn [length]; lia.
Qed.

(** X5: after [AddReadyConditionForObjects] recorded an item, looking up
    the item's chart name finds a Ready condition with the status and the
    message given, the time of the call, and the item as install info when
    it carries a client configuration or overrides (else the install info
    the condition had before). *)
Theorem condition_lookup_after_add (now : Z) (m : Manifest) (item : InstallItem)
  (conditionStatus : ManifestConditionStatus) (message : string) :
  getReadyConditionForComponent
    (AddReadyConditionForObjects now m [item] conditionStatus message)
    (item_ChartName item) =
  (mkCondition ConditionTypeReady conditionStatus message (item_ChartName item) (Some now)
               (if negb (String.eqb (item_ClientConfig item) "")
                   || negb (String.eqb (item_Overrides item) "")
                then item
                else cond_InstallInfo
                       (fst (getReadyConditionForComponent m (item_ChartName item)))), true).
Proof. apply addReadyConditionForObject_lookup. Qed.

(** X6: recording an item leaves the lookup of every other chart name as
    it was, and the slice of conditions grows by one entry exactly when
    the item's chart had no Ready condition yet; recording the same item
    again never adds an entry. *)
Theorem condition_add_frame (now : Z) (m : Manifest) (item : InstallItem)
  (conditionStatus : ManifestConditionStatus) (message : string) :
  let m' := AddReadyConditionForObjects now m [item] conditionStatus message in
  (forall other, other <> item_ChartName item ->
     getReadyConditionForComponent m' other = getReadyConditionForComponent m other) /\
  length (Conditions (Status m')) =
    (length (Conditions (Status m)) +
     (if snd (getReadyConditionForComponent m (item_ChartName item)) then 0 else 1))%nat /\
  (forall conditionStatus' message',
     length (Conditions (Status
       (AddReadyConditionForObjects now m' [item] conditionStatus' message'))) =
     length (Conditions (Status m'))).
Proof.
  cbv zeta. unfold AddReadyConditionForObjects. cbn [fold_left].
  split; [|split].
  - intros other Hne. apply addReadyConditionForObject_frame, Hne.
  - apply addReadyConditionForObject_length.
  - intros st' msg'. rewrite (addReadyConditionForObject_length now st' msg').
    rewrite addReadyConditionForObject_lookup. cbn [snd]. lia.
Qed.

Lemma AddReadyConditionForResponses_app now jm rs1 rs2 m :
  AddReadyConditionForResponses now jm (rs1 ++ rs2) m =
  AddReadyConditionForResponses now jm rs2 (AddReadyConditionForResponses now jm rs1 m).
Proof. unfold AddReadyConditionForResponses. apply List.fold_left_app. Qed.

Lemma AddReadyConditionForResponses_frame now jm rs other : forall m,
  Forall (fun r => resp_ChartName r <> other) rs ->
  getReadyConditionForComponent (AddReadyConditionForResponses now jm rs m) other =
  getReadyConditionForComponent m other.
Proof.
  unfold AddReadyConditionForResponses.
  induction rs as [|r rs IH]; intros m Hall; cbn [fold_left]; [reflexivity|].
  inversion Hall as [|? ? Hr Hrs]; subst.
  rewrite (IH _ Hrs). destruct (responseStatus r) as [st msg].
  unfold AddReadyConditionForObjects. cbn [fold_left].
  apply addReadyConditionForObject_frame. cbn. congruence.
Qed.

Lemma AddReadyConditionForResponses_lookup now jm r m :
  exists installInfo,
    getReadyConditionForComponent (AddReadyConditionForResponses now jm [r] m)
                                  (resp_ChartName r) =
    (mkCondition ConditionTypeReady (fst (responseStatus r)) (snd (responseStatus r))
                 (resp_ChartName r) (Some now) installInfo, true).
Proof.
  unfold AddReadyConditionForResponses. cbn [fold_left].
  destruct (responseStatus r) as [st msg].
  unfold AddReadyConditionForObjects. cbn [fold_left fst snd].
  change (resp_ChartName r) with (item_ChartName (responseItem jm r)).
  rewrite addReadyConditionForObject_lookup. eexists. reflexivity.
Qed.

(** X7: when several responses are recorded, the condition read back for
    a chart is the one of the last response for that chart: a Ready
    condition with the time of the call whose status and message are those
    of that response (False for an error, Unknown while not ready, True
    otherwise), whatever was recorded before. *)
Theorem last_response_wins (now : Z) (jm : Flags -> string)
  (earlier later : list InstallResponse) (r : InstallResponse) (m : Manifest) :
  Forall (fun r' => resp_ChartName r' <> resp_ChartName r) later ->
  let m' := AddReadyConditionForResponses now jm (earlier ++ r :: later) m in
  let c := fst (getReadyConditionForComponent m' (resp_ChartName r)) in
  snd (getReadyConditionForComponent m' (resp_ChartName r)) = true /\
  (cond_Status c, cond_Message c) = responseStatus r /\
  cond_LastTransitionTime c = Some now /\
  cond_Status c =
    match Err r with
    | Some _ => ConditionStatusFalse
    | None => if Ready r then ConditionStatusTrue else ConditionStatusUnknown
    end.
Proof.
  intros Hlater. cbv zeta.
  rewrite AddReadyConditionForResponses_app.
  change (r :: later) with ([r] ++ later)%list.
  rewrite AddReadyConditionForResponses_app.
  rewrite (AddReadyConditionForResponses_frame now jm later _ _ Hlater).
  destruct (AddReadyConditionForResponses_lookup now jm r
              (AddReadyConditionForResponses now jm earlier m)) as [installInfo ->].
  cbn [fst snd cond_Status cond_Message cond_LastTransitionTime].
  split; [reflexivity|]. split; [destruct (responseStatus r); reflexivity|].
  split; [reflexivity|].
  unfold responseStatus. destruct (Err r); [reflexivity|]. destruct (Ready r); reflexivity.
Qed.

End ConditionLookupSpec.

(** ** The prepare phase: configs, credentials and the heap of jobs *)

Module PreparePhaseSpec.
Import Types Prepare JobsSpec.

(** A config entry that is a map and is not named like the install. *)
Lemma getConfigAndValuesForInstall_skip installName mappedConfig rest :
  any_eq_string (map_index mappedConfig "name") installName = false ->
  getConfigAndValuesForInstall installName (AnyMap mappedConfig :: rest) =
  getConfigAndValuesForInstall installName rest.
Proof. intros H. cbn [getConfigAndValuesForInstall]. rewrite H. reflexivity. Qed.

(** X8: the config entries are searched in order and the first entry
    named like the install decides: the entries after it are never looked
    at, even if they are malformed; when no entry is named like the
    install, client config and overrides are empty and there is no error;
    an entry that is not a map fails the search when it is reached. *)
Theorem first_matching_config_decides (installName : string)
  (others : list (list (string * any))) (entry : list (string * any)) (later : list any)
  (malformed : any) :
  Forall (fun other => any_eq_string (map_index other "name") installName = false) others ->
  (any_eq_string (map_index entry "name") installName = true ->
   getConfigAndValuesForInstall installName (map AnyMap others ++ AnyMap entry :: later) =
   getConfigAndValuesForInstall installName [AnyMap entry]) /\
  getConfigAndValuesForInstall installName (map AnyMap others) = inr ("", "") /\
  ((forall mappedConfig, malformed <> AnyMap mappedConfig) ->
   getConfigAndValuesForInstall installName (map AnyMap others ++ malformed :: later) =
   inl (configReadError "config object")).
Proof.
  intros Hothers.
  induction Hothers as [|other others Hother _ IH]; cbn [map app].
  - split; [|split].
    + intros Hname. cbn [getConfigAndValuesForInstall]. rewrite Hname. reflexivity.
    + reflexivity.
    + intros Hmal. destruct malformed; try reflexivity. exfalso. eapply Hmal. reflexivity.
  - rewrite !(getConfigAndValuesForInstall_skip installName other) by exact Hother. exact IH.
Qed.

(** X9: an image that selects pull secrets of which the cluster holds
    none gets no key chain: the lookup fails with the no-auth-secret error,
    the config layer is not decoded (no registry call is made) and the
    chart of an OCI install is not extracted; both callers return that
    error. *)
Theorem missing_pull_secret_stops_registry_access (env : Env) (imageSpec : ImageSpec)
  (namespace : string) (insecureRegistry : bool) (labelSelector selector : string) :
  CredSecretSelector imageSpec = Some labelSelector ->
  LabelSelectorAsSelector env (Some labelSelector) = inr selector ->
  ListSecrets env selector namespace = inr [] ->
  GetAuthnKeychain env imageSpec namespace = inl ErrNoAuthSecretFound /\
  getChartPath env imageSpec namespace insecureRegistry = inl ErrNoAuthSecretFound /\
  (NotEmpty (img_Type imageSpec) = true ->
   parseConfigs env imageSpec namespace insecureRegistry = (inl ErrNoAuthSecretFound, [])).
Proof.
  intros Hsel Hlabel Hlist.
  assert (Hauth : GetAuthnKeychain env imageSpec namespace = inl ErrNoAuthSecretFound).
  { unfold GetAuthnKeychain, getCredSecrets. rewrite Hsel, Hlabel, Hlist. reflexivity. }
  assert (Hchain : configKeyChain env namespace imageSpec = inl ErrNoAuthSecretFound).
  { unfold configKeyChain. rewrite Hsel. exact Hauth. }
  split; [exact Hauth|]. split.
  - unfold getChartPath. rewrite Hchain. reflexivity.
  - intros Hty. unfold parseConfigs, getDecodedConfig. rewrite Hty, Hchain. reflexivity.
Qed.

(** *** The heap of jobs *)

Lemma fresh_unused (h : Heap) : h !! fresh h = None.
Proof.
  apply not_elem_of_dom. intros Hin.
  apply elem_of_elements in Hin. apply max_list_elem_of_le in Hin.
  exact (Nat.nle_succ_diag_l _ Hin).
Qed.

Lemma with_ChartInfo_twice d c1 c2 :
  with_ChartInfo (with_ChartInfo d c1) c2 = with_ChartInfo d c2.
Proof. reflexivity. Qed.

(** The loop only ever writes the cell of the base job. *)
Lemma parseInstallationsLoop_frame env m configs base insecure installs :
  forall h acc res h',
    parseInstallationsLoop env m configs base insecure installs h acc = (res, h') ->
    forall l, l <> base -> h' !! l = h !! l.
Proof.
  induction installs as [|install rest IH]; intros h acc res h'; cbn [parseInstallationsLoop].
  - intros [= <- <-] l _. reflexivity.
  - destruct (getChartInfoForInstall env install m insecure) as [err|chartInfo];
      [intros [= <- <-] l _; reflexivity|].
    destruct (parseChartConfigAndValues env install configs _) as [err|[cfg vals]];
      [intros [= <- <-] l _; reflexivity|].
    intros Hloop l Hne. rewrite (IH _ _ _ _ Hloop l Hne).
    apply lookup_alter_ne. congruence.
Qed.

(** What the base job holds after a successful loop: the chart info
    written in the last round, named after the last install. *)
Lemma parseInstallationsLoop_last env m configs base insecure installs :
  forall h acc ptrs h' job,
    parseInstallationsLoop env m configs base insecure installs h acc = (inr ptrs, h') ->
    h !! base = Some job ->
    match last installs with
    | None => h' !! base = Some job
    | Some install =>
        exists chartInfo,
          h' !! base = Some (with_ChartInfo job chartInfo) /\
          ReleaseName chartInfo = inst_Name install
    end.
Proof.
  induction installs as [|install rest IH]; intros h acc ptrs h' job;
    cbn [parseInstallationsLoop].
  - intros [= <- <-] Hjob. exact Hjob.
  - destruct (getChartInfoForInstall env install m insecure) as [err|chartInfo];
      [discriminate|].
    destruct (parseChartConfigAndValues env install configs _) as [err|[cfg vals]];
      [discriminate|].
    intros Hloop Hjob.
    set (stored := mkChartInfo _ _ _ _ _ _) in Hloop.
    assert (Hcell : alter (fun d => with_ChartInfo d stored) base h !! base =
                    Some (with_ChartInfo job stored)).
    { unfold Heap, loc in *. rewrite lookup_alter_eq, Hjob. reflexivity. }
    specialize (IH _ _ _ _ _ Hloop Hcell).
    destruct rest as [|next rest'].
    + cbn [last] in *. exists stored. split; [exact IH | reflexivity].
    + change (last (install :: next :: rest')) with (last (next :: rest')).
      destruct (last (next :: rest')) as [final|] eqn:Hfinal.
      * destruct IH as (written & Hc & Hn). exists written. split; [|exact Hn].
        rewrite Hc. reflexivity.
      * apply last_None in Hfinal. discriminate Hfinal.
Qed.

Lemma InsertWatcherLabels_meta m :
  Installs (InsertWatcherLabels m) = Installs m /\
  Namespace (InsertWatcherLabels m) = Namespace m /\
  Name (InsertWatcherLabels m) = Name m /\
  V1alpha1.Config (InsertWatcherLabels m) = V1alpha1.Config m.
Proof.
  unfold InsertWatcherLabels. destruct (Resource m) as [r|]; [|auto].
  destruct (negb (Remote m) || String.eqb (Kind r) ""); auto.
Qed.

(** X10: the prepare phase allocates one job, at an address the heap did
    not use, and writes nowhere else; on success it returns that one
    address once per install, and the job behind it is owned by the
    Manifest and carries the chart info of the last install only. *)
Theorem prepare_phase_allocates_one_job (env : Env) (m : Manifest)
  (defaultClusterInfo : ClusterInfo) (flags : ReconcileFlagConfig)
  (processorCache : RendererCache) (h : Heap) :
  let prepared := GetInstallInfos env m defaultClusterInfo flags processorCache h in
  h !! fresh h = None /\
  (forall l, l <> fresh h -> heap prepared !! l = h !! l) /\
  (forall ptrs,
     result prepared = inr ptrs ->
     ptrs = repeat (fresh h) (length (Installs m)) /\
     exists job,
       heap prepared !! fresh h = Some job /\
       BaseResource job = ObjectKeyFromObject m /\
       CustomStateCheck job = flag_CustomStateCheck flags /\
       CheckReadyStates job = flag_CheckReadyStates flags /\
       match last (Installs m) with
       | None => ChartInfo_ job = None
       | Some install =>
           exists chartInfo,
             ChartInfo_ job = Some chartInfo /\ ReleaseName chartInfo = inst_Name install
       end).
Proof.
  cbv zeta. split; [apply fresh_unused|].
  unfold GetInstallInfos.
  destruct (parseCrds env m (InsecureRegistry flags)) as [err|crds];
    [cbn; split; [reflexivity|discriminate]|].
  destruct (ToUnstructured env m) as [err|];
    [cbn; split; [reflexivity|discriminate]|].
  destruct (getDestinationConfigAndClient env defaultClusterInfo m processorCache _)
    as [err|clusterInfo];
    [cbn; split; [reflexivity|discriminate]|].
  cbv zeta.
  destruct (InsertWatcherLabels_meta m) as (Hinst & Hns & Hname & Hcfg).
  set (labelled := InsertWatcherLabels m) in *.
  set (base := mkInstallInfo None clusterInfo _ _ _ _ _).
  destruct (parseConfigs env _ _ _) as [[err|configs] calls].
  { cbn [heap result]. split; [|discriminate].
    intros l Hne. apply lookup_insert_ne. congruence. }
  destruct (parseInstallations env labelled configs (fresh h) _ _) as [res h'] eqn:Hparse.
  cbn [heap result]. split.
  - intros l Hne. unfold parseInstallations in Hparse.
    rewrite (parseInstallationsLoop_frame _ _ _ _ _ _ _ _ _ _ Hparse l Hne).
    apply lookup_insert_ne. congruence.
  - intros ptrs ->.
    pose proof (parseInstallations_pointers _ _ _ _ _ _ _ _ Hparse) as Hptrs.
    rewrite Hinst in Hptrs. split; [exact Hptrs|].
    unfold parseInstallations in Hparse.
    pose proof (parseInstallationsLoop_last _ _ _ _ _ _ _ _ _ _ base Hparse
                  (lookup_insert_eq _ _ _)) as Hlast.
    rewrite Hinst in Hlast.
    destruct (last (Installs m)) as [install|].
    + destruct Hlast as (chartInfo & Hcell & Hrel).
      exists (with_ChartInfo base chartInfo). split; [exact Hcell|].
      repeat split. exists chartInfo. split; [reflexivity | exact Hrel].
    + exists base. split; [exact Hlast|]. repeat split.
Qed.

(** X11: the watcher labels are inserted only into the resource of a
    remote Manifest whose resource has a kind; then the resource keeps its
    kind and every other label, the two watcher labels are set (owned-by to
    namespace/name of the Manifest), nothing else of the Manifest changes,
    and inserting a second time changes nothing. *)
Theorem watcher_labels_inserted (m : Manifest) :
  let labelled := InsertWatcherLabels m in
  with_resource labelled (Resource m) = m /\
  InsertWatcherLabels labelled = labelled /\
  match Resource m with
  | None => labelled = m
  | Some resource =>
      if negb (Remote m) || String.eqb (Kind resource) "" then labelled = m
      else
        exists stamped,
          Resource labelled = Some stamped /\
          Kind stamped = Kind resource /\
          res_Labels stamped !! OwnedByLabel = Some (Namespace m +:+ "/" +:+ Name m) /\
          res_Labels stamped !! WatchedByLabel = Some OperatorName /\
          forall label, label <> OwnedByLabel -> label <> WatchedByLabel ->
                        res_Labels stamped !! label = res_Labels resource !! label
  end.
Proof.
  cbv zeta. unfold InsertWatcherLabels.
  destruct m as [name ns gen labels fins del remote cfg crds res installs status].
  cbn [Resource Remote Namespace Name].
  destruct res as [[kind rl]|]; [|repeat split].
  cbn [Kind res_Labels].
  destruct (negb remote || String.eqb kind "") eqn:Hguard.
  - cbn [Resource Remote Kind]. rewrite Hguard. repeat split.
  - cbn [Resource Remote Kind Namespace Name res_Labels with_resource]. rewrite Hguard.
    cbn [Resource Remote Kind Namespace Name res_Labels with_resource].
    split; [reflexivity|]. split.
    + do 2 f_equal. f_equal.
      rewrite (insert_insert_ne _ OwnedByLabel WatchedByLabel) by discriminate.
      rewrite !insert_insert_eq. reflexivity.
    + eexists. split; [reflexivity|]. cbn [Kind res_Labels].
      split; [reflexivity|]. split; [|split].
      * rewrite lookup_insert_ne by discriminate. apply lookup_insert_eq.
      * apply lookup_insert_eq.
      * intros label H1 H2. rewrite !lookup_insert_ne by congruence. reflexivity.
Qed.

End PreparePhaseSpec.

(** ** Extracting a chart layer *)

Module ExtractionSpec.
Import Types Paths PathsSpec Descriptor.

Lemma inside_refl root : inside root root.
Proof.
  exists []. split; [intros []|]. split; [reflexivity|]. rewrite List.app_nil_r. reflexivity.
Qed.

Lemma inside_trans a b c : inside a b -> inside b c -> inside a c.
Proof.
  intros (d1 & Hn1 & Hf1 & Hs1) (d2 & Hn2 & Hf2 & Hs2).
  exists (d1 ++ d2)%list. split; [|split].
  - intros Hin. apply List.in_app_or in Hin as [H|H]; auto.
  - congruence.
  - rewrite Hs2, Hs1, List.app_assoc. reflexivity.
Qed.

Lemma CleanFilePathJoin_shape root dest p :
  CleanFilePathJoin root dest = inr p ->
  exists reals, Forall normal reals /\
                p = filepath_Join root (render false (mkBuf (rev reals) 0%nat)).
Proof.
  unfold CleanFilePathJoin.
  destruct (strings_Contains dest colon); [discriminate|].
  set (norm := strings_ReplaceAll dest backslash slash).
  destruct (existsb _ _) eqn:Hd; [discriminate|].
  destruct (path_IsAbs norm) eqn:Ha; [discriminate|].
  intros [= <-].
  assert (Hno : ~ In ".." (strings_Split norm slash)).
  { intros Hin. assert (existsb (fun part => String.eqb part "..")
                                (strings_Split norm slash) = true) as Hex.
    { apply List.existsb_exists. exists "..". split; [exact Hin|reflexivity]. }
    congruence. }
  destruct (Clean_descent norm Hno Ha) as [Hclean Hn].
  eexists. split; [exact Hn|]. unfold filepath_ToSlash. rewrite Hclean. reflexivity.
Qed.

Lemma CleanFilePathJoin_inside root dest p :
  CleanFilePathJoin root dest = inr p -> inside root p.
Proof.
  intros H. apply CleanFilePathJoin_shape in H as (reals & Hn & ->).
  apply Join_inside, Hn.
Qed.

Lemma render_nonempty rooted b : canon rooted b -> render rooted b <> "".
Proof.
  intros (top & Hout & Htop & _). unfold render.
  destruct rooted; [discriminate|].
  destruct (out b) as [|x o] eqn:Ho; [discriminate|].
  assert (Hall : Forall (fun e => e <> "") (rev (x :: o))).
  { apply List.Forall_rev. rewrite Hout. apply List.Forall_app. split.
    - revert Htop. apply List.Forall_impl. intros e (H & _). exact H.
    - apply List.Forall_forall. intros e He. apply List.repeat_spec in He as ->. discriminate. }
  destruct (rev (x :: o)) as [|h t] eqn:Hrev.
  - apply (f_equal (@length _)) in Hrev. rewrite List.length_rev in Hrev. discriminate.
  - inversion Hall; subst. apply Join_nonempty. assumption.
Qed.

Lemma Clean_nonempty p : filepath_Clean p <> "".
Proof. apply render_nonempty, clean_loop_canon. Qed.

Lemma Join_nonempty_root root b : b <> "" -> filepath_Join root b <> "".
Proof.
  intros Hb. unfold filepath_Join.
  destruct (String.eqb_spec root ""); cbn [negb]; [|apply Clean_nonempty].
  destruct (String.eqb_spec b ""); cbn [negb]; [contradiction|apply Clean_nonempty].
Qed.

Lemma CleanFilePathJoin_nonempty root dest p :
  CleanFilePathJoin root dest = inr p -> p <> "".
Proof.
  intros H. apply CleanFilePathJoin_shape in H as (reals & Hn & ->).
  apply Join_nonempty_root, render_descent_nonempty, Hn.
Qed.

Lemma path_Split_file p : strings_Contains (snd (path_Split p)) slash = false.
Proof.
  induction p as [|c p IH]; cbn [path_Split]; [reflexivity|].
  destruct (path_Split p) as [dir file]. cbn [snd] in IH.
  destruct (Ascii.eqb c slash) eqn:Hc; [exact IH|].
  destruct (String.eqb dir ""); cbn [snd]; [|exact IH].
  cbn [strings_Contains]. rewrite Hc, IH. reflexivity.
Qed.

(** Joining an element that [Clean] skips changes nothing. *)
Lemma Join_skipped dir file :
  dir <> "" -> strings_Contains file slash = false -> real file = false ->
  filepath_Join dir file = filepath_Join dir ".".
Proof.
  intros Hdir Hslash Hreal. unfold filepath_Join.
  destruct (String.eqb_spec dir ""); [contradiction|]. cbn [negb].
  unfold filepath_Clean, clean_loop.
  rewrite !(IsAbs_app dir) by exact Hdir.
  rewrite !Split_app_sep, !List.fold_left_app.
  rewrite (Split_without_sep file slash Hslash), (Split_without_sep "." slash eq_refl).
  cbn [fold_left]. rewrite (clean_step_skip _ _ file Hreal).
  rewrite (clean_step_skip _ _ "." eq_refl). reflexivity.
Qed.

(** The file [path.Join] names in a directory lies inside the directory,
    unless the file is the step up. *)
Lemma Join_file_inside dir file :
  dir <> "" -> strings_Contains file slash = false -> file <> ".." ->
  inside dir (path_Join dir file).
Proof.
  intros Hdir Hslash Hup. unfold path_Join.
  destruct (real file) eqn:Hreal.
  - assert (Hn : Forall normal [file]).
    { constructor; [|constructor]. unfold real in Hreal.
      apply andb_true_iff in Hreal as [H1 H2]. unfold normal.
      split; [intros ->; discriminate H1|]. split; [intros ->; discriminate H2|]. auto. }
    exact (Join_inside dir [file] Hn).
  - rewrite (Join_skipped dir file Hdir Hslash Hreal).
    exact (Join_inside dir [] (List.Forall_nil _)).
Qed.

Lemma handleExtractedHeaderFile_paths fs header content file destinationPath ref :
  Forall (fun op => op_path op = destinationPath \/
                    (Typeflag header = TypeReg /\ op_path op = path_Join destinationPath file))
         (snd (handleExtractedHeaderFile fs header content file destinationPath ref)).
Proof.
  unfold handleExtractedHeaderFile.
  destruct (Ascii.eqb (Typeflag header) TypeDir).
  { destruct (MkdirAll fs destinationPath _); cbn [snd];
      (apply List.Forall_cons; [left; reflexivity | apply List.Forall_nil]). }
  destruct (Ascii.eqb_spec (Typeflag header) TypeReg) as [Hreg|_]; [|apply List.Forall_nil].
  destruct (OpenFile fs _ _); [|destruct (Copy fs _ _)]; cbn [snd];
    repeat first [ apply List.Forall_nil
                 | apply List.Forall_cons; [right; split; [exact Hreg | reflexivity]|] ].
Qed.

(** The entries whose file is written next to the step up of its
    directory: a regular file whose base name is [..]. *)
Lemma extractEntries_inside fs installPath entries ref :
  Forall (fun entry =>
            match entry with
            | Next header _ =>
                Typeflag header = TypeReg -> snd (path_Split (hdr_Name header)) <> ".."
            | NextError _ => True
            end) entries ->
  Forall (fun op => inside installPath (op_path op))
         (snd (extractEntries fs installPath entries ref)).
Proof.
  induction 1 as [|entry rest Hentry _ IH]; cbn [extractEntries]; [constructor|].
  destruct entry as [header content|err].
  2:{ destruct (errors_Is err EOF); constructor. }
  pose proof (path_Split_file (hdr_Name header)) as Hfile.
  destruct (path_Split (hdr_Name header)) as [destDir destFile]. cbn [snd] in *.
  destruct (CleanFilePathJoin installPath destDir) as [err|destinationPath] eqn:Hclean;
    [constructor|].
  pose proof (CleanFilePathJoin_inside _ _ _ Hclean) as Hin.
  pose proof (CleanFilePathJoin_nonempty _ _ _ Hclean) as Hne.
  assert (Hops : Forall (fun op => inside installPath (op_path op))
                        (snd (handleExtractedHeaderFile fs header content destFile
                                                        destinationPath ref))).
  { eapply List.Forall_impl; [|apply handleExtractedHeaderFile_paths].
    intros op [->|[Hreg ->]]; [exact Hin|].
    eapply inside_trans; [exact Hin|]. apply Join_file_inside; auto. }
  destruct (MkdirAll fs destinationPath ModePerm);
    [cbn [snd]; constructor; [exact Hin|constructor]|].
  destruct (handleExtractedHeaderFile fs header content destFile destinationPath ref)
    as [[err|] ops]; cbn [snd] in Hops.
  - cbn [snd]. constructor; assumption.
  - destruct (extractEntries fs installPath rest ref) as [err more]. cbn [snd] in *.
    constructor; [exact Hin|]. apply List.Forall_app. split; assumption.
Qed.

Lemma writeTarGzContent_inside fs installPath entries ref :
  Forall (fun entry =>
            match entry with
            | Next header _ =>
                Typeflag header = TypeReg -> snd (path_Split (hdr_Name header)) <> ".."
            | NextError _ => True
            end) entries ->
  Forall (fun op => inside installPath (op_path op))
         (snd (writeTarGzContent fs installPath entries ref)).
Proof.
  intros Hentries. unfold writeTarGzContent.
  destruct (MkdirAll fs installPath ModePerm);
    [cbn [snd]; constructor; [apply inside_refl|constructor]|].
  pose proof (extractEntries_inside fs installPath entries ref Hentries) as H.
  destruct (extractEntries fs installPath entries ref) as [err ops].
  cbn [snd] in *. constructor; [apply inside_refl | exact H].
Qed.

(** X12: every directory and every file the extraction of a chart layer
    creates, writes or closes lies inside the install path, provided no
    regular file of the archive has the base name [..]. *)
Theorem extraction_stays_inside (fs : FileSystem) (installPath : string)
  (entries : list TarNext) (layerReference : string) :
  Forall (fun entry =>
            match entry with
            | Next header _ =>
                Typeflag header = TypeReg -> snd (path_Split (hdr_Name header)) <> ".."
            | NextError _ => True
            end) entries ->
  Forall (fun op => inside installPath (op_path op))
         (snd (writeTarGzContent fs installPath entries layerReference)).
Proof. apply writeTarGzContent_inside. Qed.

(** A regular file named [..] is why the proviso is there: its path is
    the parent of the install path. *)
Example step_up_file_leaves_install_path :
  writeTarGzContent (mkFs (fun _ _ => None) (fun _ _ => None) (fun _ _ => None)
                          (fun _ => None) 493)
                    "/cache/redis" [Next (mkHeader ".." TypeReg 420) "x"] "redis" =
  (None, [Mkdir "/cache/redis" ModePerm; Mkdir "/cache/redis" ModePerm;
          Create "/cache" 420; Write "/cache" "x"; Closed "/cache"]).
Proof. reflexivity. Qed.

Lemma extractEntries_app fs installPath ref (good : list (Header * string)) rest :
  fst (extractEntries fs installPath (map (fun e => Next e.1 e.2) good) ref) = None ->
  extractEntries fs installPath (map (fun e => Next e.1 e.2) good ++ rest) ref =
  (fst (extractEntries fs installPath rest ref),
   (snd (extractEntries fs installPath (map (fun e => Next e.1 e.2) good) ref) ++
    snd (extractEntries fs installPath rest ref))%list).
Proof.
  induction good as [|[header content] good IH]; cbn [map app fst snd].
  - intros _. cbn [extractEntries app snd]. destruct (extractEntries _ _ rest _); reflexivity.
  - cbn [extractEntries].
    destruct (path_Split (hdr_Name header)) as [destDir destFile].
    destruct (CleanFilePathJoin installPath destDir) as [err|destinationPath];
      [discriminate|].
    destruct (MkdirAll fs destinationPath ModePerm); [discriminate|].
    destruct (handleExtractedHeaderFile _ _ _ _ _ _) as [[err|] ops]; [discriminate|].
    destruct (extractEntries fs installPath (map _ good) ref) as [e more] eqn:Hgood.
    cbn [fst snd] in *. intros ->. rewrite (IH eq_refl).
    cbn [fst snd app]. rewrite List.app_assoc. reflexivity.
Qed.

(** X13: the extraction stops at the first entry whose directory the path
    cleaner refuses: the cleaner's error is returned as it is, the entries
    before it were extracted, and nothing is created for the refused entry
    or for any entry after it. *)
Theorem extraction_stops_at_refused_entry (fs : FileSystem) (installPath : string)
  (good : list (Header * string)) (refused : Header) (content : string)
  (later : list TarNext) (layerReference : string) (err : error) :
  MkdirAll fs installPath ModePerm = None ->
  fst (extractEntries fs installPath (map (fun e => Next e.1 e.2) good) layerReference) = None ->
  CleanFilePathJoin installPath (fst (path_Split (hdr_Name refused))) = inl err ->
  writeTarGzContent fs installPath
    (map (fun e => Next e.1 e.2) good ++ Next refused content :: later) layerReference =
  (Some err,
   Mkdir installPath ModePerm ::
   snd (extractEntries fs installPath (map (fun e => Next e.1 e.2) good) layerReference)).
Proof.
  intros Hmk Hgood Hrefused. unfold writeTarGzContent. rewrite Hmk.
  rewrite (extractEntries_app _ _ _ _ _ Hgood).
  cbn [extractEntries].
  destruct (path_Split (hdr_Name refused)) as [destDir destFile]. cbn [fst] in Hrefused.
  rewrite Hrefused. cbn [fst snd]. rewrite List.app_nil_r. reflexivity.
Qed.

(** X14: a chart that is already extracted is not pulled again: when the
    install directory opens, the path is returned with no registry access
    and no write; an open failure other than not-exist is returned wrapped,
    again with no registry access; otherwise exactly the image reference
    is pulled, once, and whatever is written lies inside the install
    directory (no regular file of the archive being named [..]). *)
Theorem chart_layer_pulled_once (store : Store) (fs : FileSystem) (imageSpec : ImageSpec)
  (insecureRegistry : bool) (keyChain : Prepare.Keychain) :
  let installPath := GetFsChartPath store imageSpec in
  let acquired := GetPathFromExtractedTarGz store fs imageSpec insecureRegistry keyChain in
  (OpenDir store installPath = None ->
   acquired = mkAcquired installPath None [] []) /\
  (forall openErr,
     OpenDir store installPath = Some openErr -> IsNotExist store openErr = false ->
     pulled acquired = [] /\ fsOps acquired = [] /\ value acquired = "" /\
     exists msg, err acquired = Some (WrapError msg openErr)) /\
  (forall openErr,
     OpenDir store installPath = Some openErr -> IsNotExist store openErr = true ->
     pulled acquired = [imageRef imageSpec] /\
     (err acquired = None -> value acquired = installPath) /\
     forall blob entries,
       Compressed store (imageRef imageSpec) = inr blob ->
       NewReader store blob = inr entries ->
       Forall (fun entry =>
                 match entry with
                 | Next header _ =>
                     Typeflag header = TypeReg ->
                     snd (path_Split (hdr_Name header)) <> ".."
                 | NextError _ => True
                 end) entries ->
       Forall (fun op => inside installPath (op_path op)) (fsOps acquired)).
Proof.
  cbv zeta. unfold GetPathFromExtractedTarGz. split; [|split].
  - intros ->. reflexivity.
  - intros openErr -> ->. cbn. repeat split. eexists. reflexivity.
  - intros openErr -> ->. cbn [negb].
    destruct (pullLayer store insecureRegistry _ keyChain);
      [cbn [pulled err value fsOps];
       split; [reflexivity|]; split; [discriminate|]; intros; apply List.Forall_nil|].
    destruct (Compressed store _) as [e|blob] eqn:Hblob;
      [cbn [pulled err value fsOps];
       split; [reflexivity|]; split; [discriminate|]; intros; apply List.Forall_nil|].
    destruct (NewReader store blob) as [e|entries] eqn:Hentries;
      [cbn [pulled err value fsOps];
       split; [reflexivity|]; split; [discriminate|]; intros; apply List.Forall_nil|].
    pose proof (writeTarGzContent_inside fs (GetFsChartPath store imageSpec) entries
                  (imageRef imageSpec)) as Hinside.
    destruct (writeTarGzContent fs _ entries _) as [e ops]. cbn [snd] in Hinside.
    cbn [pulled err value fsOps].
    split; [reflexivity|]. split; [reflexivity|].
    intros b es [= <-] Hes. rewrite Hentries in Hes. injection Hes as <-. exact Hinside.
Qed.

End ExtractionSpec.

(** ** The post-render transforms *)

Module TransformSpec.
Import DeclarativeV2.

Lemma withLabel_commute k1 v1 k2 v2 resource :
  k1 <> k2 ->
  withLabel k1 v1 (withLabel k2 v2 resource) = withLabel k2 v2 (withLabel k1 v1 resource).
Proof.
  intros Hne. unfold withLabel. cbn [obj_Name obj_Labels obj_Annotations].
  rewrite (insert_insert_ne _ k1 k2) by exact Hne. reflexivity.
Qed.

Lemma withLabel_twice k v v' resource :
  withLabel k v (withLabel k v' resource) = withLabel k v resource.
Proof.
  unfold withLabel. cbn [obj_Name obj_Labels obj_Annotations].
  rewrite insert_insert_eq. reflexivity.
Qed.

Lemma withAnnotation_twice k v v' resource :
  withAnnotation k v (withAnnotation k v' resource) = withAnnotation k v resource.
Proof.
  unfold withAnnotation. cbn [obj_Name obj_Labels obj_Annotations].
  rewrite insert_insert_eq. reflexivity.
Qed.

Lemma withLabel_withAnnotation k v a w resource :
  withLabel k v (withAnnotation a w resource) = withAnnotation a w (withLabel k v resource).
Proof. reflexivity. Qed.

(** The three transforms of the package. *)
Lemma transforms_succeed transform componentName resources :
  In transform [disclaimerTransform; kymaComponentTransform; managedByDeclarativeV2] ->
  fst (transform componentName resources) = None.
Proof. intros [<-|[<-|[<-|[]]]]; reflexivity. Qed.

Lemma transforms_commute t1 t2 componentName resources :
  In t1 [disclaimerTransform; kymaComponentTransform; managedByDeclarativeV2] ->
  In t2 [disclaimerTransform; kymaComponentTransform; managedByDeclarativeV2] ->
  snd (t2 componentName (snd (t1 componentName resources))) =
  snd (t1 componentName (snd (t2 componentName resources))).
Proof.
  intros [<-|[<-|[<-|[]]]] [<-|[<-|[<-|[]]]]; try reflexivity;
    cbn [snd disclaimerTransform kymaComponentTransform managedByDeclarativeV2 Items Blobs];
    rewrite !map_map; f_equal; apply map_ext; intros resource;
    rewrite ?withLabel_withAnnotation; try reflexivity.
  - rewrite (withLabel_commute "reconciler.kyma-project.io/managed-by") by discriminate.
    rewrite (withLabel_commute "reconciler.kyma-project.io/managed-by") by discriminate.
    reflexivity.
  - rewrite (withLabel_commute "reconciler.kyma-project.io/managed-by") by discriminate.
    rewrite (withLabel_commute "reconciler.kyma-project.io/managed-by") by discriminate.
    reflexivity.
Qed.

Lemma applyTransforms_cons componentName transform rest resources :
  fst (transform componentName resources) = None ->
  applyTransforms componentName (transform :: rest) resources =
  applyTransforms componentName rest (snd (transform componentName resources)).
Proof.
  intros H. cbn [applyTransforms].
  destruct (transform componentName resources) as [[err|] objects]; [discriminate|reflexivity].
Qed.

Lemma applyTransforms_permutation componentName ts ts' :
  Permutation ts ts' ->
  Forall (fun t => In t [disclaimerTransform; kymaComponentTransform; managedByDeclarativeV2])
         ts ->
  forall resources,
    applyTransforms componentName ts resources = applyTransforms componentName ts' resources.
Proof.
  induction 1 as [|t ts ts' _ IH|t1 t2 ts|ts1 ts2 ts3 H12 IH12 H23 IH23]; intros Hall resources.
  - reflexivity.
  - inversion Hall as [|? ? Ht Hts]; subst.
    rewrite !applyTransforms_cons by (apply transforms_succeed, Ht). apply IH, Hts.
  - inversion Hall as [|? ? Ht2 Hrest]; subst. inversion Hrest as [|? ? Ht1 Hts]; subst.
    rewrite !applyTransforms_cons by (apply transforms_succeed; assumption).
    rewrite (transforms_commute t1 t2) by assumption. reflexivity.
  - rewrite IH12 by exact Hall. apply IH23.
    eapply Permutation_Forall; [exact H12 | exact Hall].
Qed.

(** X15: the three transforms never fail and can run in any order: each
    order leaves the names, the number of the objects and the blobs as they
    were, sets the disclaimer annotation and the three labels (component,
    part-of, managed-by) on every object, and keeps every other label and
    annotation. *)
Theorem transforms_in_any_order (componentName : string) (transforms : list ObjectTransform)
  (resources : ManifestResources) :
  Permutation transforms [disclaimerTransform; kymaComponentTransform; managedByDeclarativeV2] ->
  exists transformed,
    applyTransforms componentName transforms resources = inr transformed /\
    Blobs transformed = Blobs resources /\
    map obj_Name (Items transformed) = map obj_Name (Items resources) /\
    Forall2 (fun before after =>
               obj_Annotations after =
                 <[DisclaimerAnnotation := disclaimerAnnotationValue]> (obj_Annotations before) /\
               obj_Labels after !! "app.kubernetes.io/component" = Some componentName /\
               obj_Labels after !! "app.kubernetes.io/part-of" = Some "Kyma" /\
               obj_Labels after !! "reconciler.kyma-project.io/managed-by"
                 = Some "declarative-v2" /\
               forall label,
                 label <> "app.kubernetes.io/component" ->
                 label <> "app.kubernetes.io/part-of" ->
                 label <> "reconciler.kyma-project.io/managed-by" ->
                 obj_Labels after !! label = obj_Labels before !! label)
            (Items resources) (Items transformed).
Proof.
  intros Hperm.
  rewrite (applyTransforms_permutation componentName _ _ Hperm).
  2:{ eapply Permutation_Forall; [symmetry; exact Hperm|].
      apply List.Forall_cons; [left; reflexivity|].
      apply List.Forall_cons; [right; left; reflexivity|].
      apply List.Forall_cons; [right; right; left; reflexivity|]. apply List.Forall_nil. }
  eexists. split; [reflexivity|]. cbn [Blobs Items snd disclaimerTransform
    kymaComponentTransform managedByDeclarativeV2].
  split; [reflexivity|]. split.
  - rewrite !map_map. reflexivity.
  - rewrite !map_map. induction (Items resources) as [|resource items IH]; cbn [map];
      constructor; [|exact IH].
    cbn [withLabel withAnnotation obj_Name obj_Labels obj_Annotations].
    split; [reflexivity|]. split; [|split; [|split]].
    + rewrite !lookup_insert_ne by discriminate. apply lookup_insert_eq.
    + rewrite lookup_insert_ne by discriminate. apply lookup_insert_eq.
    + apply lookup_insert_eq.
    + intros label H1 H2 H3. rewrite !lookup_insert_ne by congruence. reflexivity.
Qed.

(** X16: running the three transforms a second time changes nothing. *)
Theorem transforms_idempotent (componentName : string) (resources transformed : ManifestResources) :
  let transforms := [disclaimerTransform; kymaComponentTransform; managedByDeclarativeV2] in
  applyTransforms componentName transforms resources = inr transformed ->
  applyTransforms componentName transforms transformed = inr transformed.
Proof.
  cbv zeta. cbn [applyTransforms disclaimerTransform kymaComponentTransform
                 managedByDeclarativeV2 Items Blobs].
  intros [= <-]. cbn [Items Blobs]. do 2 f_equal. rewrite !map_map.
  apply map_ext. intros resource.
  unfold withLabel, withAnnotation. cbn [obj_Name obj_Labels obj_Annotations].
  f_equal; apply map_eq; intros label.
  - destruct (decide (label = "reconciler.kyma-project.io/managed-by")) as [->|HM];
      [|destruct (decide (label = "app.kubernetes.io/part-of")) as [->|HP];
        [|destruct (decide (label = "app.kubernetes.io/component")) as [->|HC]]];
      repeat first [ rewrite lookup_insert_eq
                   | rewrite lookup_insert_ne by (congruence || discriminate) ];
      reflexivity.
  - rewrite insert_insert_eq. reflexivity.
Qed.

Lemma applyTransforms_app componentName before after resources objects :
  applyTransforms componentName before resources = inr objects ->
  applyTransforms componentName (before ++ after) resources =
  applyTransforms componentName after objects.
Proof.
  revert resources. induction before as [|t before IH]; intros resources; cbn [app applyTransforms].
  - intros [= <-]. reflexivity.
  - destruct (t componentName resources) as [[err|] objs]; [discriminate|]. apply IH.
Qed.

(** X17: [Transform] returns the error of the parser without running a
    transform, and the error of the first transform that fails without
    running the transforms after it. *)
Theorem Transform_stops_at_first_failure (parse : string -> error + ManifestResources)
  (manifestStringified componentName : string) (before after : list ObjectTransform)
  (failing : ObjectTransform) :
  (forall err, parse manifestStringified = inl err ->
     Transform parse manifestStringified componentName (before ++ failing :: after) = inl err) /\
  (forall objects reached err,
     parse manifestStringified = inr objects ->
     applyTransforms componentName before objects = inr reached ->
     fst (failing componentName reached) = Some err ->
     Transform parse manifestStringified componentName (before ++ failing :: after) = inl err /\
     Transform parse manifestStringified componentName (before ++ [failing]) = inl err).
Proof.
  unfold Transform. split.
  - intros err ->. reflexivity.
  - intros objects reached err -> Hbefore Hfail.
    rewrite !(applyTransforms_app _ _ _ _ _ Hbefore). cbn [applyTransforms].
    destruct (failing componentName reached) as [[e|] objs]; cbn [fst] in Hfail;
      [|discriminate].
    injection Hfail as ->. split; reflexivity.
Qed.

End TransformSpec.

(** ** Namespaces and readiness of a resource list *)

Module HelmClientSpec.
Import HelmClient.

Lemma checkReadyVisit_no_error IsReady resourceList : forall resourcesReady,
  Forall (fun info => snd (IsReady info) = None) resourceList ->
  checkReadyVisit IsReady resourceList resourcesReady =
  (resourcesReady && forallb (fun info => fst (IsReady info)) resourceList, None).
Proof.
  induction resourceList as [|info rest IH]; intros resourcesReady Hall;
    cbn [checkReadyVisit forallb].
  - rewrite andb_true_r. reflexivity.
  - inversion Hall as [|? ? Hinfo Hrest]; subst.
    destruct (IsReady info) as [ready err]. cbn [fst snd] in *. subst err.
    cbn [failed]. rewrite orb_false_r.
    destruct ready; cbn [negb andb]; rewrite (IH _ Hrest).
    + reflexivity.
    + rewrite andb_false_r. reflexivity.
Qed.

Lemma checkReadyVisit_error IsReady before failing after : forall resourcesReady e,
  Forall (fun info => snd (IsReady info) = None) before ->
  snd (IsReady failing) = Some e ->
  checkReadyVisit IsReady (before ++ failing :: after) resourcesReady = IsReady failing.
Proof.
  induction before as [|info rest IH]; intros resourcesReady e Hall Hfail;
    cbn [app checkReadyVisit].
  - destruct (IsReady failing) as [ready err]. cbn [snd] in Hfail. subst err.
    cbn [failed]. rewrite orb_true_r. reflexivity.
  - inversion Hall as [|? ? Hinfo Hrest]; subst.
    destruct (IsReady info) as [ready err]. cbn [snd] in Hinfo. subst err.
    cbn [failed]. rewrite orb_false_r.
    destruct ready; cbn [negb]; eapply IH; eassumption.
Qed.

(** X18: when no readiness check fails, [checkReady] returns no error and
    reports ready exactly when every resource is ready (a resource that is
    not ready does not stop the visit); when a check fails, the visit stops
    there and the function returns what that check returned, error and
    readiness both, whatever the resources before it were. *)
Theorem checkReady_result (IsReady : Info -> bool * option error)
  (resourceList after : list Info) (failing : Info) :
  Forall (fun info => snd (IsReady info) = None) resourceList ->
  checkReady IsReady resourceList =
    (forallb (fun info => fst (IsReady info)) resourceList, None) /\
  (fst (checkReady IsReady resourceList) = true <->
   Forall (fun info => fst (IsReady info) = true) resourceList) /\
  (forall e, snd (IsReady failing) = Some e ->
     checkReady IsReady (resourceList ++ failing :: after) = IsReady failing).
Proof.
  intros Hall. unfold checkReady.
  rewrite (checkReadyVisit_no_error _ _ _ Hall). cbn [andb fst].
  split; [reflexivity|]. split.
  - rewrite forallb_forall, List.Forall_forall. reflexivity.
  - intros e Hfail. eapply checkReadyVisit_error; eassumption.
Qed.

(** The namespace an info without one is given. *)
Lemma setNamespaceIfNotPresent_ok targetNamespace info info' :
  setNamespaceIfNotPresent targetNamespace info = (None, info') ->
  info_Name info' = info_Name info /\
  NamespaceScoped info' = NamespaceScoped info /\
  (NamespaceScoped info = true -> info_Namespace info' <> "") /\
  (NamespaceScoped info = false \/ info_Namespace info <> "" -> info' = info) /\
  (NamespaceScoped info = true -> info_Namespace info = "" ->
   info_Namespace info' =
     (if String.eqb targetNamespace "" then NamespaceDefault else targetNamespace) /\
   object_Namespace info' = info_Namespace info').
Proof.
  unfold setNamespaceIfNotPresent.
  destruct (NamespaceScoped info) eqn:Hscoped; cbn [andb].
  2:{ intros [= <-]. rewrite Hscoped. repeat split; try discriminate; auto. }
  destruct (String.eqb_spec (info_Namespace info) "") as [Hempty|Hset].
  2:{ intros [= <-]. rewrite Hscoped. repeat split; auto; try contradiction. }
  cbn [Accessible]. destruct (Accessible info); cbn [negb]; [|discriminate].
  intros [= <-]. cbn [info_Name info_Namespace NamespaceScoped object_Namespace].
  split; [reflexivity|]. split; [reflexivity|]. split; [|split].
  - intros _. destruct (String.eqb_spec targetNamespace ""); [discriminate|assumption].
  - intros [H|H]; [discriminate|contradiction].
  - intros _ _. split; reflexivity.
Qed.

(** X19: when [overrideNamespace] succeeds, the list keeps its length and
    names, every namespace-scoped resource has a namespace, a resource
    that had one or is cluster-scoped is untouched, and a namespace-scoped
    resource without one gets the target namespace, or [default] when the
    target is empty, on the request and on the object. *)
Theorem overrideNamespace_success (resourceList overridden : list Info)
  (targetNamespace : string) :
  overrideNamespace resourceList targetNamespace = (None, overridden) ->
  Forall2 (fun info info' =>
             info_Name info' = info_Name info /\
             NamespaceScoped info' = NamespaceScoped info /\
             (NamespaceScoped info = true -> info_Namespace info' <> "") /\
             (NamespaceScoped info = false \/ info_Namespace info <> "" -> info' = info) /\
             (NamespaceScoped info = true -> info_Namespace info = "" ->
              info_Namespace info' =
                (if String.eqb targetNamespace "" then NamespaceDefault else targetNamespace) /\
              object_Namespace info' = info_Namespace info'))
          resourceList overridden.
Proof.
  revert overridden. induction resourceList as [|info rest IH]; intros overridden;
    cbn [overrideNamespace].
  - intros [= <-]. constructor.
  - destruct (setNamespaceIfNotPresent targetNamespace info) as [[err|] info'] eqn:Hset;
      [discriminate|].
    destruct (overrideNamespace rest targetNamespace) as [err rest'].
    intros [= -> <-]. constructor; [|apply IH; reflexivity].
    apply setNamespaceIfNotPresent_ok, Hset.
Qed.

(** X20: [overrideNamespace] stops at the first resource whose object
    cannot take a namespace: the error is returned, the resources after it
    are left as they were, and the request of the failing resource already
    carries the namespace. *)
Theorem overrideNamespace_stops_at_first_failure (before after : list Info) (failing : Info)
  (targetNamespace : string) :
  fst (overrideNamespace before targetNamespace) = None ->
  NamespaceScoped failing = true -> info_Namespace failing = "" ->
  Accessible failing = false ->
  exists err stamped,
    overrideNamespace (before ++ failing :: after) targetNamespace =
      (Some err, (snd (overrideNamespace before targetNamespace) ++ stamped :: after)%list) /\
    info_Namespace stamped =
      (if String.eqb targetNamespace "" then NamespaceDefault else targetNamespace) /\
    object_Namespace stamped = object_Namespace failing.
Proof.
  intros Hbefore Hscoped Hempty Hacc.
  induction before as [|info rest IH]; cbn [app overrideNamespace fst snd] in *.
  - unfold setNamespaceIfNotPresent. rewrite Hscoped, Hempty. cbn [String.eqb andb Accessible].
    rewrite Hacc. cbn [negb]. eexists _, _. split; [reflexivity|]. split; reflexivity.
  - destruct (setNamespaceIfNotPresent targetNamespace info) as [[err|] info'];
      [discriminate|].
    destruct (overrideNamespace rest targetNamespace) as [err rest'] eqn:Hrest.
    cbn [fst snd] in *. destruct (IH Hbefore) as (e & stamped & -> & Hns & Hobj).
    exists e, stamped. split; [reflexivity|]. split; assumption.
Qed.

End HelmClientSpec.

(** ** Starting the workers *)

Module WorkerPoolSpec.
Import Workers WorkerPool WorkersSpec.

(** X21: a pool constructed with [w] workers and resized any number of
    times starts, after a further resize to [newSize], the workers
    1, ..., [w] when [newSize] is positive and no worker at all otherwise:
    a resize can never start more workers than the pool was constructed
    with. *)
Theorem workers_started_after_resize (w : Z) (sizes : list Z) (newSize : Z) :
  let mw := SetWorkerPoolSize (fold_left SetWorkerPoolSize sizes (NewManifestWorkers w)) newSize in
  StartWorkers mw =
    (if 0 <? newSize then map Z.of_nat (seq 1 (Z.to_nat w)) else []) /\
  Z.of_nat (length (StartWorkers mw)) <= Z.max 0 w /\
  Forall (fun worker => 1 <= worker <= w) (StartWorkers mw).
Proof.
  cbv zeta.
  assert (Hstart : StartWorkers
            (SetWorkerPoolSize (fold_left SetWorkerPoolSize sizes (NewManifestWorkers w)) newSize)
          = (if 0 <? newSize then map Z.of_nat (seq 1 (Z.to_nat w)) else [])).
  { unfold StartWorkers, GetWorkerPoolSize, SetWorkerPoolSize.
    rewrite resized_initialSize, Z.gtb_ltb.
    destruct (Z.ltb_spec 0 newSize) as [Hpos|Hneg]; cbn [size]; [reflexivity|].
    destruct newSize; try lia; reflexivity. }
  rewrite Hstart. split; [reflexivity|].
  destruct (0 <? newSize).
  - split.
    + rewrite length_map, length_seq. lia.
    + apply List.Forall_forall. intros worker Hin.
      apply List.in_map_iff in Hin as (n & <- & Hn). apply List.in_seq in Hn. lia.
  - split; [cbn; lia | constructor].
Qed.

End WorkerPoolSpec.

(** ** Install, uninstall and consistency check of a job *)

Module LifecycleSpec.
Import Operations Lifecycle.

Lemma customStatesCheck_steps t steps :
  snd (customStatesCheck t steps) = steps \/
  snd (customStatesCheck t steps) = (steps ++ [DidCheckFn])%list.
Proof. unfold customStatesCheck. destruct (CheckFn t); [right|left]; reflexivity. Qed.

Lemma customStatesCheck_ready t steps :
  fst (fst (customStatesCheck t steps)) = true ->
  CheckFn t = None \/ exists err, CheckFn t = Some (true, err).
Proof.
  unfold customStatesCheck. destruct (CheckFn t) as [[ready err]|]; [|left; reflexivity].
  cbn. intros ->. right. eexists. reflexivity.
Qed.

(** X22: [install] makes its calls in a fixed order and stops at the
    first one that fails, returning not ready with that call's error: the
    CRD check (creating), the acquisition of the manifest, the renderer's
    Install of that manifest (also stopped when the result is not
    consistent), the CR check (creating), and the custom state check, whose
    answer is returned as it is; without a custom state check a run that
    got that far is ready without error.  So it reports ready only after
    the whole sequence went through. *)
Theorem install_ready_only_after_all_steps (t : Target) (renderSrc : RenderSrc)
  (fs : FileSystem) (deployInfo : InstallInfo) :
  let acquired := getManifestForChartPath renderSrc fs deployInfo in
  let manifest := fst (fst acquired) in
  let sequence :=
    [DidCheckCRDs true; DidAcquire (snd acquired); DidApply manifest; DidCheckCRs true;
     DidCheckFn] in
  let installed := install t renderSrc fs deployInfo in
  (forall err, CheckCRDs t true = Some err ->
     installed = ((false, Some err), firstn 1 sequence)) /\
  (CheckCRDs t true = None ->
   (forall err, snd (fst acquired) = Some err ->
      installed = ((false, Some err), firstn 2 sequence)) /\
   (snd (fst acquired) = None ->
    (forall consistent err,
       Apply t manifest = (consistent, err) -> failed err || negb consistent = true ->
       installed = ((false, err), firstn 3 sequence)) /\
    (Apply t manifest = (true, None) ->
     (forall err, CheckCRs t true = Some err ->
        installed = ((false, Some err), firstn 4 sequence)) /\
     (CheckCRs t true = None ->
      installed = match CheckFn t with
                  | Some checked => (checked, sequence)
                  | None => ((true, None), firstn 4 sequence)
                  end)))) /\
  (exists n, snd installed = firstn n sequence) /\
  (fst (fst installed) = true ->
   CheckCRDs t true = None /\
   snd (fst acquired) = None /\
   Apply t manifest = (true, None) /\
   CheckCRs t true = None /\
   (CheckFn t = None \/ exists err, CheckFn t = Some (true, err))).
Proof.
  cbv zeta. unfold install.
  destruct (CheckCRDs t true) as [e1|].
  { split; [intros err [= <-]; reflexivity|]. split; [discriminate|].
    split; [exists 1%nat; reflexivity|discriminate]. }
  split; [discriminate|].
  destruct (getManifestForChartPath renderSrc fs deployInfo) as [[manifest [e2|]] effects];
    cbn [fst snd].
  { split; [intros _; split; [intros err [= <-]; reflexivity|discriminate]|].
    split; [exists 2%nat; reflexivity|discriminate]. }
  destruct (Apply t manifest) as [consistent aerr].
  destruct (failed aerr || negb consistent) eqn:Hstop.
  { split.
    - intros _. split; [discriminate|]. intros _. split.
      + intros c e [= <- <-] _. reflexivity.
      + intros [= -> ->]. discriminate Hstop.
    - split; [exists 3%nat; reflexivity|discriminate]. }
  assert (Happlied : (consistent, aerr) = (true, None)).
  { destruct aerr; [discriminate Hstop|]. destruct consistent; [reflexivity|discriminate Hstop]. }
  destruct (CheckCRs t true) as [e4|].
  { split.
    - intros _. split; [discriminate|]. intros _. split.
      + intros c e [= <- <-] Hfail. rewrite Hstop in Hfail. discriminate Hfail.
      + intros _. split; [intros err [= <-]; reflexivity|discriminate].
    - split; [exists 4%nat; reflexivity|discriminate]. }
  split; [|split].
  - intros _. split; [discriminate|]. intros _. split.
    + intros c e [= <- <-] Hfail. rewrite Hstop in Hfail. discriminate Hfail.
    + intros _. split; [discriminate|]. intros _.
      unfold customStatesCheck. destruct (CheckFn t); reflexivity.
  - unfold customStatesCheck. destruct (CheckFn t);
      [exists 5%nat | exists 4%nat]; reflexivity.
  - intros Hready. apply customStatesCheck_ready in Hready. auto.
Qed.

(** X23: [uninstall] does nothing beyond the removal of the custom
    resources while they are not gone: with custom resources still being
    deleted it returns not ready and no error.  It goes on when they are
    deleted or their kind is unknown to the cluster; what it then sends to
    the renderer is the same call (the renderer's Install) with the same
    manifest that [install] sends, and the CRDs are removed only after that
    call succeeded consistently. *)
Theorem uninstall_waits_for_custom_resources (t : Target) (renderSrc : RenderSrc)
  (fs : FileSystem) (deployInfo : InstallInfo) :
  let acquired := getManifestForChartPath renderSrc fs deployInfo in
  let manifest := fst (fst acquired) in
  let removed := uninstall t renderSrc fs deployInfo in
  (RemoveCRs t = (false, None) -> removed = ((false, None), [DidRemoveCRs])) /\
  (forall err, RemoveCRs t = (false, Some err) -> IsNoMatchError t err = false ->
     removed = ((false, Some err), [DidRemoveCRs])) /\
  (exists n, snd removed =
             firstn n [DidRemoveCRs; DidAcquire (snd acquired); DidApply manifest;
                       DidRemoveCRDs; DidCheckFn]) /\
  (In DidRemoveCRDs (snd removed) ->
   Apply t manifest = (true, None) /\
   (RemoveCRs t = (true, None) \/ noMatch t (snd (RemoveCRs t)) = true)) /\
  (forall applied,
     In (DidApply applied) (snd removed) ->
     CheckCRDs t true = None ->
     In (DidApply applied) (snd (install t renderSrc fs deployInfo))).
Proof.
  cbv zeta. unfold uninstall, install.
  split; [intros ->; reflexivity|].
  split; [intros err -> Hnm; cbn [noMatch failed negb andb orb]; rewrite Hnm; reflexivity|].
  destruct (RemoveCRs t) as [deleted rerr].
  assert (Hgate : negb (noMatch t rerr) && (failed rerr || negb deleted) = false ->
                  (deleted, rerr) = (true, None) \/ noMatch t (snd (deleted, rerr)) = true).
  { cbn [snd]. destruct (noMatch t rerr); [auto|]. cbn [negb andb].
    destruct rerr; [discriminate|]. destruct deleted; [auto|discriminate]. }
  destruct (negb (noMatch t rerr) && (failed rerr || negb deleted)).
  { cbn [snd]. split; [exists 1%nat; reflexivity|].
    split; [intros [H|[]]; discriminate H | intros applied [H|[]]; discriminate H]. }
  specialize (Hgate eq_refl).
  destruct (getManifestForChartPath renderSrc fs deployInfo) as [[manifest [err|]] effects];
    cbn [fst snd].
  { split; [exists 2%nat; reflexivity|].
    split; [intros [H|[H|[]]]; discriminate H | intros applied [H|[H|[]]]; discriminate H]. }
  destruct (Apply t manifest) as [consistent err] eqn:Happly.
  destruct err as [err|]; cbn [failed orb].
  { split; [exists 3%nat; reflexivity|].
    split; [intros [H|[H|[H|[]]]]; discriminate H|].
    intros applied Hin ->. cbn [snd]. destruct Hin as [H|[H|[H|[]]]]; try discriminate H.
    right; right; left. exact H. }
  destruct consistent; cbn [negb].
  2:{ split; [exists 3%nat; reflexivity|].
      split; [intros [H|[H|[H|[]]]]; discriminate H|].
      intros applied Hin ->. cbn [snd]. destruct Hin as [H|[H|[H|[]]]]; try discriminate H.
      right; right; left. exact H. }
  assert (Hinstall : forall applied, applied = manifest -> CheckCRDs t true = None ->
            In (DidApply applied)
               (snd (match CheckCRDs t true with
                     | Some err => ((false, Some err), [DidCheckCRDs true])
                     | None =>
                         match CheckCRs t true with
                         | Some err =>
                             ((false, Some err),
                              [DidCheckCRDs true; DidAcquire effects; DidApply manifest;
                               DidCheckCRs true])
                         | None =>
                             customStatesCheck t
                               [DidCheckCRDs true; DidAcquire effects; DidApply manifest;
                                DidCheckCRs true]
                         end
                     end))).
  { intros applied -> ->. destruct (CheckCRs t true); [cbn; auto|].
    destruct (customStatesCheck_steps t
                [DidCheckCRDs true; DidAcquire effects; DidApply manifest; DidCheckCRs true])
      as [-> | ->]; cbn; auto. }
  destruct (RemoveCRDs t) as [err|].
  { split; [exists 4%nat; reflexivity|]. split; [intros _; auto|].
    intros applied Hin. apply Hinstall.
    destruct Hin as [H|[H|[H|[H|[]]]]]; try discriminate H. congruence. }
  split; [|split; [intros _; auto|]].
  - unfold customStatesCheck. destruct (CheckFn t); [exists 5%nat | exists 4%nat]; reflexivity.
  - intros applied Hin. apply Hinstall.
    destruct (customStatesCheck_steps t
                [DidRemoveCRs; DidAcquire effects; DidApply manifest; DidRemoveCRDs])
      as [Hs | Hs]; rewrite Hs in Hin; cbn in Hin;
      repeat (destruct Hin as [Hin|Hin]; [try discriminate Hin; congruence|]);
      destruct Hin.
Qed.

(** X24: the consistency check only looks: it checks CRDs and custom
    resources without creating them, never applies a manifest and never
    removes anything; CRDs or custom resources that are not found make it
    report not ready without an error, any other failure of these checks is
    returned; and it reports ready only when the renderer found the
    manifest consistent. *)
Theorem consistencyCheck_only_looks (t : Target) (renderSrc : RenderSrc) (fs : FileSystem)
  (deployInfo : InstallInfo) :
  let checked := consistencyCheck t renderSrc fs deployInfo in
  Forall (fun step =>
            match step with
            | DidCheckCRDs create | DidCheckCRs create => create = false
            | DidAcquire _ | DidVerify _ | DidCheckFn => True
            | DidApply _ | DidRemoveCRs | DidRemoveCRDs => False
            end) (snd checked) /\
  (forall err, CheckCRDs t false = Some err ->
     fst checked = (false, if IsNotFound err then None else Some err)) /\
  (forall err, CheckCRDs t false = None -> CheckCRs t false = Some err ->
     fst checked = (false, if IsNotFound err then None else Some err)) /\
  (fst (fst checked) = true ->
   exists manifest, fst (getManifestForChartPath renderSrc fs deployInfo) = (manifest, None) /\
                    IsConsistent t manifest = (true, None)).
Proof.
  cbv zeta. unfold consistencyCheck.
  destruct (CheckCRDs t false) as [e1|].
  { cbn [fst snd]. split; [repeat constructor|]. split; [intros err [= <-]; reflexivity|].
    split; [discriminate|discriminate]. }
  destruct (CheckCRs t false) as [e2|].
  { cbn [fst snd]. split; [repeat constructor|]. split; [discriminate|].
    split; [intros err _ [= <-]; reflexivity|discriminate]. }
  destruct (getManifestForChartPath renderSrc fs deployInfo) as [[manifest [err|]] effects].
  { cbn [fst snd]. split; [repeat constructor|]. repeat split; discriminate. }
  destruct (IsConsistent t manifest) as [consistent err] eqn:Hcons.
  destruct err as [err|]; cbn [failed orb].
  { cbn [fst snd]. split; [repeat constructor|]. repeat split; discriminate. }
  destruct consistent; cbn [negb].
  2:{ cbn [fst snd]. split; [repeat constructor|]. repeat split; discriminate. }
  split.
  - destruct (customStatesCheck_steps t
                [DidCheckCRDs false; DidCheckCRs false; DidAcquire effects; DidVerify manifest])
      as [-> | ->]; repeat constructor.
  - split; [discriminate|]. split; [discriminate|].
    intros _. exists manifest. split; [reflexivity | exact Hcons].
Qed.

(** X25: the processor of an owner is constructed once.  With a cache and
    a cache-key label on the base resource, the processor constructed after
    a miss is stored, and the next call for a resource of the same owner
    (same namespace, same label) gets that processor without constructing
    anything, even from a factory that would fail.  Without the label, or
    without a cache, nothing is ever stored. *)
Theorem processor_constructed_once (factory later : Factory) (baseResource other : Manifest)
  (flags flags' : Types.ChartFlags) (cache : ProcessorCache) (owner : string)
  (processor : Processor) :
  Labels baseResource !! Prepare.CacheKey = Some owner -> owner <> "" ->
  Labels other !! Prepare.CacheKey = Some owner -> Namespace other = Namespace baseResource ->
  cacheGet cache (mkKey (Namespace baseResource) owner) = None ->
  getMemCacheClient factory = None ->
  getManifestProcessor factory = inr (Some processor) ->
  let stored := cacheSet cache (mkKey (Namespace baseResource) owner) (Some processor) in
  newOperations factory (Some baseResource) flags (Some cache) =
    Some (inr (mkOperations (Some processor) flags), Some stored, 1%nat) /\
  newOperations later (Some other) flags' (Some stored) =
    Some (inr (mkOperations (Some processor) flags'), Some stored, 0%nat).
Proof.
  intros Hlabel Howner Hother Hns Hmiss Hclient Hproc. cbv zeta.
  assert (Hkey : discoverCacheKey (Some baseResource) = mkKey (Namespace baseResource) owner).
  { unfold discoverCacheKey, Prepare.GetResourceLabel. rewrite Hlabel. reflexivity. }
  assert (Hkey' : discoverCacheKey (Some other) = mkKey (Namespace baseResource) owner).
  { unfold discoverCacheKey, Prepare.GetResourceLabel. rewrite Hother, Hns. reflexivity. }
  assert (Hne : negb (String.eqb owner "") = true).
  { destruct (String.eqb_spec owner ""); [contradiction|reflexivity]. }
  split.
  - unfold newOperations. rewrite Hkey. cbn [key_Name]. rewrite Hne, Hmiss, Hclient, Hproc.
    reflexivity.
  - unfold newOperations. rewrite Hkey'. cbn [key_Name]. rewrite Hne.
    unfold cacheGet, cacheSet, ProcessorCache. cbn [key_Namespace key_Name].
    rewrite lookup_insert_eq. reflexivity.
Qed.

(** X26: for a base resource that is there, but without a cache or
    without a cache-key label on the resource (or with an empty one),
    [newOperations] returns, the cache is left as it was, every successful
    call constructs a processor and uses it, and a failing call constructs
    none. *)
Theorem processor_not_cached_without_key (factory : Factory) (baseResource : Manifest)
  (flags : Types.ChartFlags) (cache : option ProcessorCache) :
  cache = None \/ key_Name (discoverCacheKey (Some baseResource)) = "" ->
  exists made,
    newOperations factory (Some baseResource) flags cache = Some made /\
    snd (fst made) = cache /\
    (forall ops, fst (fst made) = inr ops ->
       snd made = 1%nat /\ getManifestProcessor factory = inr (renderSrc ops)) /\
    (forall err, fst (fst made) = inl err -> snd made = 0%nat).
Proof.
  intros Hnokey. unfold newOperations.
  assert (Hmiss : match cache with
                  | Some c =>
                      if negb (String.eqb (key_Name (discoverCacheKey (Some baseResource))) "")
                      then cacheGet c (discoverCacheKey (Some baseResource)) else None
                  | None => None
                  end = None).
  { destruct Hnokey as [-> | ->]; [reflexivity|]. destruct cache; reflexivity. }
  cbv zeta. rewrite Hmiss.
  destruct (getMemCacheClient factory) as [err|].
  { eexists. split; [reflexivity|]. cbn [fst snd].
    split; [reflexivity|]. split; [discriminate|reflexivity]. }
  destruct (getManifestProcessor factory) as [err|processor].
  { eexists. split; [reflexivity|]. cbn [fst snd].
    split; [reflexivity|]. split; [discriminate|reflexivity]. }
  eexists. split; [reflexivity|]. cbn [fst snd]. split; [|split].
  - destruct Hnokey as [-> | ->]; [reflexivity|]. destruct cache; reflexivity.
  - intros ops [= <-]. split; reflexivity.
  - discriminate.
Qed.

End LifecycleSpec.

(** ** The config layer, from the registry to the prepare phase *)

Module ConfigLayerSpec.
Import Types Prepare Descriptor.

(** X27: the config layer is read from its file when the file is there,
    and then nothing is pulled; a read failure other than not-exist is
    returned wrapped, again without a pull; only for a missing file the
    layer is pulled, exactly once and by the image reference, and a value
    is returned without error only if the blob was decoded, marshalled and
    written to the file. *)
Theorem config_layer_read_before_pull (store : Store) (imageSpec : ImageSpec)
  (insecureRegistry : bool) (keyChain : Keychain) (fileDestPath : string) :
  let decoded :=
    DecodeUncompressedLayer store imageSpec insecureRegistry keyChain fileDestPath in
  match GetYamlFileContent store fileDestPath with
  | inr decodedFile => decoded = ((decodedFile, None), [])
  | inl readErr =>
      if IsNotExist store readErr
      then snd decoded = [imageRef imageSpec] /\
           (forall v, fst decoded = (v, None) ->
              pullLayer store insecureRegistry (imageRef imageSpec) keyChain = None /\
              exists blob bytes,
                Uncompressed store (imageRef imageSpec) = inr blob /\
                Decode store blob = inr v /\
                Marshal store v = inr bytes /\
                WriteToFile store fileDestPath bytes = None)
      else snd decoded = [] /\
           exists msg, fst decoded = (AnyNil, Some (WrapError msg readErr))
  end.
Proof.
  cbv zeta. unfold DecodeUncompressedLayer.
  destruct (GetYamlFileContent store fileDestPath) as [readErr|decodedFile]; [|reflexivity].
  destruct (IsNotExist store readErr); cbn [negb].
  2:{ split; [reflexivity|]. eexists. reflexivity. }
  destruct (pullLayer store insecureRegistry _ keyChain);
    [split; [reflexivity|discriminate]|].
  destruct (Uncompressed store _) as [e|blob]; [split; [reflexivity|discriminate]|].
  cbn [fst snd]. split; [reflexivity|].
  unfold writeYamlContent.
  destruct (Decode store blob) as [e|decodedConfig] eqn:Hdecode; [discriminate|].
  destruct (Marshal store decodedConfig) as [e|bytes] eqn:Hmarshal; [discriminate|].
  intros v [= <- Hwrite]. split; [reflexivity|].
  exists blob, bytes. auto.
Qed.

Lemma onStore_keychain store env namespace config :
  configKeyChain (onStore store env) namespace config = configKeyChain env namespace config.
Proof. reflexivity. Qed.

(** X28: an empty config layer is no error for the prepare phase.  When
    the config file is missing, the layer is pulled and the YAML decoder
    fails with EOF or unexpected EOF, the error reaches [parseConfigs]
    wrapped by [writeYamlContent] and is still recognised: the configs are
    empty, there is no error, and the layer was asked for once. *)
Theorem empty_config_layer_gives_no_configs (store : Store) (env : Env) (config : ImageSpec)
  (namespace : string) (insecureRegistry : bool) (keyChain : Keychain)
  (readErr decodeErr : error) (blob : string) :
  NotEmpty (img_Type config) = true ->
  configKeyChain env namespace config = inr keyChain ->
  GetYamlFileContent store (GetConfigFilePath env config) = inl readErr ->
  IsNotExist store readErr = true ->
  pullLayer store insecureRegistry (imageRef config) keyChain = None ->
  Uncompressed store (imageRef config) = inr blob ->
  Decode store blob = inl decodeErr ->
  errors_Is decodeErr EOF = true \/ errors_Is decodeErr ErrUnexpectedEOF = true ->
  parseConfigs (onStore store env) config namespace insecureRegistry =
    (inr [], [DecodeLayer config (GetConfigFilePath env config)]).
Proof.
  intros Hty Hchain Hread Hmissing Hpull Hblob Hdecode Heof.
  unfold parseConfigs, getDecodedConfig. rewrite Hty, onStore_keychain, Hchain.
  cbn [onStore Prepare.DecodeUncompressedLayer Prepare.GetConfigFilePath].
  unfold DecodeUncompressedLayer. rewrite Hread, Hmissing. cbn [negb].
  rewrite Hpull, Hblob. cbn [fst]. unfold writeYamlContent. rewrite Hdecode.
  cbn [asResult errors_Is sentinel_eqb orb].
  destruct Heof as [-> | ->]; cbn [negb andb]; [reflexivity|].
  rewrite andb_false_r. reflexivity.
Qed.

End ConfigLayerSpec.

(** ** A round of installs, from the reconciler to the status *)

Module RoundSpec.
Import Util UtilSpec Controllers CollectorSpec.

Lemma HandleCharts_create wenv deployInfo :
  NewOperations wenv deployInfo = None ->
  Ready (HandleCharts wenv deployInfo CreateMode) = fst (Install wenv deployInfo) /\
  Err (HandleCharts wenv deployInfo CreateMode) = snd (Install wenv deployInfo).
Proof.
  intros Hops. unfold HandleCharts. rewrite Hops.
  destruct (Install wenv deployInfo). split; reflexivity.
Qed.

(** X29: a Manifest in state Processing whose jobs are all installed by
    the workers ends the round in state Ready.  The reconciler dispatches
    one job per install, each worker answers with what [Install] returned,
    the collector reads one response per install and, the Manifest not
    being deleted, writes one status: Ready when every install was ready
    without error, Error when an install failed, Processing otherwise.  The
    reconciler itself returns no error and asks for the requeue of the
    failure interval. *)
Theorem processing_round_end_state (env cenv wenv : Env) (req : ObjectKey)
  (m latest : Manifest) (deployInfos : list DeployInfo) :
  apiGet env req = inr m ->
  IsZero (DeletionTimestamp m) = true ->
  ContainsFinalizer m ManifestFinalizer = true ->
  State (Status m) = ManifestStateProcessing ->
  GetInstallInfos env m = inr deployInfos ->
  length deployInfos = length (Installs m) ->
  Forall (fun deployInfo => NewOperations wenv deployInfo = None) deployInfos ->
  apiGet cenv (ObjectKeyFromObject m) = inr latest ->
  IsZero (DeletionTimestamp latest) = true ->
  let events := map (fun deployInfo => Recv (HandleCharts wenv deployInfo CreateMode))
                    deployInfos in
  let failed_ := existsb (fun deployInfo => failed (snd (Install wenv deployInfo))) deployInfos in
  let waiting := existsb (fun deployInfo =>
                            negb (failed (snd (Install wenv deployInfo))) &&
                            negb (fst (Install wenv deployInfo))) deployInfos in
  exists w,
    Reconcile env cenv events req = (AfterFailure, None, w) /\
    statusStates w =
      [if failed_ then ManifestStateError
       else if waiting then ManifestStateProcessing else ManifestStateReady] /\
    (Forall (fun deployInfo => Install wenv deployInfo = (true, None)) deployInfos ->
     statusStates w = [ManifestStateReady]).
Proof.
  intros Hget Hdel Hfin Hstate Hinfos Hlen Hops Hlatest Hlive. cbv zeta.
  set (rs := map (fun deployInfo => HandleCharts wenv deployInfo CreateMode) deployInfos).
  assert (Hevents : map (fun deployInfo => Recv (HandleCharts wenv deployInfo CreateMode))
                        deployInfos = (map Recv rs ++ [])%list).
  { unfold rs. rewrite map_map, List.app_nil_r. reflexivity. }
  assert (Herr : existsb hasError rs =
                 existsb (fun deployInfo => failed (snd (Install wenv deployInfo))) deployInfos).
  { unfold rs. clear Hevents Hlen Hinfos. induction Hops as [|d rest Hd _ IH]; [reflexivity|].
    cbn [map existsb]. rewrite IH. f_equal. unfold hasError.
    destruct (HandleCharts_create wenv d Hd) as [_ ->].
    destruct (snd (Install wenv d)); reflexivity. }
  assert (Hwait : existsb stillProcessing rs =
                  existsb (fun deployInfo =>
                             negb (failed (snd (Install wenv deployInfo))) &&
                             negb (fst (Install wenv deployInfo))) deployInfos).
  { unfold rs. clear Hevents Hlen Hinfos Herr. induction Hops as [|d rest Hd _ IH];
      [reflexivity|].
    cbn [map existsb]. rewrite IH. f_equal. unfold stillProcessing.
    destruct (HandleCharts_create wenv d Hd) as [-> ->].
    destruct (snd (Install wenv d)); reflexivity. }
  assert (Hrounds : Z.to_nat (Z.of_nat (length (Installs m))) = length rs).
  { unfold rs. rewrite Nat2Z.id, length_map. symmetry. exact Hlen. }
  unfold Reconcile. rewrite Hget. cbv zeta. rewrite Hdel, Hfin, Hstate.
  cbn [negb andb]. change (String.eqb ManifestStateProcessing "") with false.
  change (String.eqb ManifestStateProcessing ManifestStateProcessing) with true. cbv iota.
  unfold sendJobToInstallChannel. cbv zeta. rewrite Hinfos.
  unfold ResponseHandlerFunc. rewrite Hrounds, Hevents, collectLoop_reads_all, Hlatest.
  cbv zeta. cbn [errorState processing responses orb app].
  rewrite AddReadyConditionForResponses_deletion, Hlive, Herr, Hwait.
  cbn [negb andb]. rewrite andb_false_r. cbn [andb snd].
  eexists. split; [reflexivity|]. split.
  - rewrite setProcessedState_states. unfold endStateOf.
    rewrite AddReadyConditionForResponses_deletion, Hlive. reflexivity.
  - intros Hall. rewrite setProcessedState_states. unfold endStateOf.
    rewrite AddReadyConditionForResponses_deletion, Hlive.
    replace (existsb (fun deployInfo => failed (snd (Install wenv deployInfo))) deployInfos)
      with false.
    + replace (existsb (fun deployInfo =>
                          negb (failed (snd (Install wenv deployInfo))) &&
                          negb (fst (Install wenv deployInfo))) deployInfos) with false;
        [reflexivity|].
      symmetry. clear -Hall. induction Hall as [|d rest Hd _ IH]; [reflexivity|].
      cbn [existsb]. rewrite Hd, IH. reflexivity.
    + symmetry. clear -Hall. induction Hall as [|d rest Hd _ IH]; [reflexivity|].
      cbn [existsb]. rewrite Hd, IH. reflexivity.
Qed.

End RoundSpec.

(** ** The theorems at work on the scenarios *)

Module ScenarioChecks.
Import Types Paths Util Controllers Scenarios.

(** A Manifest that was just created gets its finalizer, and nothing
    else is written. *)
Lemma finalizer_added_first_witness :
  Reconcile (apiServer PrepareSamples.twoInstalls [] allReady)
            (apiServer PrepareSamples.twoInstalls [] allReady) [] (mkKey "default" "sample") =
  (NoRequeue, None, [Update (AddFinalizer PrepareSamples.twoInstalls ManifestFinalizer)]).
Proof.
  refine (proj1 (StateMachineSpec.finalizer_added_first
                   (apiServer PrepareSamples.twoInstalls [] allReady)
                   (apiServer PrepareSamples.twoInstalls [] allReady) []
                   (mkKey "default" "sample") PrepareSamples.twoInstalls _ _ _));
    [reflexivity | reflexivity | left; reflexivity].
Defined.

(** nginx verifies, redis is still starting: the check writes Processing
    and does not look at the job after redis. *)
Lemma consistency_check_stops_at_first_unready_witness :
  let env := apiServer HelmSamples.helmInstall [nginx; redis; nginx] redisStarting in
  checkConsistency env HelmSamples.helmInstall [nginx; redis; nginx] =
    checkConsistency env HelmSamples.helmInstall [redis] /\
  statusStates (snd (checkConsistency env HelmSamples.helmInstall [nginx; redis; nginx])) =
    [ManifestStateProcessing].
Proof.
  intros env.
  refine (StateMachineSpec.consistency_check_stops_at_first_unready
            env HelmSamples.helmInstall [nginx] redis [nginx] None _ _ _);
    [repeat constructor | reflexivity | reflexivity].
Defined.

(** redis was installed and then failed: the condition read back for
    redis is the one of the failure. *)
Lemma last_response_wins_witness :
  cond_Status
    (fst (getReadyConditionForComponent
            (AddReadyConditionForResponses 1700000100 (fun _ => "null")
               [redisInstalled; redisFailed; nginxInstalled] HelmSamples.helmInstall)
            "redis")) = ConditionStatusFalse.
Proof.
  refine (proj2 (proj2 (proj2 (ConditionLookupSpec.last_response_wins
            1700000100 (fun _ => "null") [redisInstalled] [nginxInstalled] redisFailed
            HelmSamples.helmInstall _)))).
  constructor; [discriminate | constructor].
Defined.

(** The entry of redis is found behind the one of nginx, and the entry
    after it, which is not even a map, is not looked at. *)
Lemma first_matching_config_decides_witness :
  Prepare.getConfigAndValuesForInstall "redis"
    [AnyMap nginxConfig; AnyMap redisConfig; AnyInt 3] =
  Prepare.getConfigAndValuesForInstall "redis" [AnyMap redisConfig].
Proof.
  refine (proj1 (PreparePhaseSpec.first_matching_config_decides
                   "redis" [nginxConfig] redisConfig [AnyInt 3] AnyNil _) _);
    [constructor; [reflexivity | constructor] | reflexivity].
Defined.

(** The cluster holds no pull secret for the private image. *)
Lemma missing_pull_secret_stops_registry_access_witness :
  Prepare.parseConfigs PrepareSamples.codec privateImage "default" false =
  (inl ErrNoAuthSecretFound, []).
Proof.
  refine (proj2 (proj2 (PreparePhaseSpec.missing_pull_secret_stops_registry_access
                          PrepareSamples.codec privateImage "default" false
                          "app=registry" "" _ _ _)) _);
    reflexivity.
Defined.

(** Everything the chart archive creates lies inside its install path. *)
Lemma extraction_stays_inside_witness :
  Forall (fun op => inside "/cache/redis" (Descriptor.op_path op))
         (snd (Descriptor.writeTarGzContent disk "/cache/redis" chartArchive "redis")).
Proof.
  refine (ExtractionSpec.extraction_stays_inside disk "/cache/redis" chartArchive "redis" _).
  repeat constructor; intros _; vm_compute; discriminate.
Defined.

(** The archive is extracted up to the entry that steps out of the
    install path. *)
Lemma extraction_stops_at_refused_entry_witness :
  Descriptor.writeTarGzContent disk "/cache/redis"
    [Descriptor.Next (Descriptor.mkHeader "Chart.yaml" Descriptor.TypeReg 420) "name: redis";
     Descriptor.Next escaping "root:x:0:0";
     Descriptor.Next (Descriptor.mkHeader "values.yaml" Descriptor.TypeReg 420) "a: 1"]
    "redis" =
  (Some (ErrorString "path contains '..', which is illegal"),
   [Descriptor.Mkdir "/cache/redis" Descriptor.ModePerm;
    Descriptor.Mkdir "/cache/redis" Descriptor.ModePerm;
    Descriptor.Create "/cache/redis/Chart.yaml" 420;
    Descriptor.Write "/cache/redis/Chart.yaml" "name: redis";
    Descriptor.Closed "/cache/redis/Chart.yaml"]).
Proof.
  refine (ExtractionSpec.extraction_stops_at_refused_entry disk "/cache/redis"
            [(Descriptor.mkHeader "Chart.yaml" Descriptor.TypeReg 420, "name: redis")]
            escaping "root:x:0:0"
            [Descriptor.Next (Descriptor.mkHeader "values.yaml" Descriptor.TypeReg 420) "a: 1"]
            "redis" (ErrorString "path contains '..', which is illegal") _ _ _);
    reflexivity.
Defined.

(** The transforms in another order. *)
Lemma transforms_in_any_order_witness :
  exists transformed,
    DeclarativeV2.applyTransforms "redis"
      [DeclarativeV2.managedByDeclarativeV2; DeclarativeV2.disclaimerTransform;
       DeclarativeV2.kymaComponentTransform] rendered = inr transformed /\
    map DeclarativeV2.obj_Name (DeclarativeV2.Items transformed) = ["deployment"; "service"].
Proof.
  destruct (TransformSpec.transforms_in_any_order "redis"
              [DeclarativeV2.managedByDeclarativeV2; DeclarativeV2.disclaimerTransform;
               DeclarativeV2.kymaComponentTransform] rendered)
    as (transformed & Happlied & _ & Hnames & _).
  - apply perm_trans with [DeclarativeV2.disclaimerTransform;
                           DeclarativeV2.managedByDeclarativeV2;
                           DeclarativeV2.kymaComponentTransform];
      [apply perm_swap | apply perm_skip, perm_swap].
  - exists transformed. split; [exact Happlied | exact Hnames].
Defined.

(** The transformed resources are transformed into themselves. *)
Lemma transforms_idempotent_witness :
  DeclarativeV2.applyTransforms "redis"
    [DeclarativeV2.disclaimerTransform; DeclarativeV2.kymaComponentTransform;
     DeclarativeV2.managedByDeclarativeV2] stamped = inr stamped.
Proof.
  refine (TransformSpec.transforms_idempotent "redis" rendered stamped _). reflexivity.
Defined.

(** The deployment is rolling out: not ready, no error; the failing
    check of the secret ends the visit with its own answer. *)
Lemma checkReady_result_witness :
  HelmClient.checkReady rollingOut [clusterRole; deployment] = (false, None) /\
  HelmClient.checkReady rollingOut [clusterRole; deployment; secret; clusterRole] =
    (true, Some (ErrorString "forbidden")).
Proof.
  assert (Hall : Forall (fun info => snd (rollingOut info) = None) [clusterRole; deployment])
    by (repeat constructor).
  split.
  - exact (proj1 (HelmClientSpec.checkReady_result rollingOut [clusterRole; deployment]
                    [clusterRole] secret Hall)).
  - exact (proj2 (proj2 (HelmClientSpec.checkReady_result rollingOut
                           [clusterRole; deployment] [clusterRole] secret Hall))
                 (ErrorString "forbidden") eq_refl).
Defined.

(** The names of a resource list survive the namespace override. *)
Lemma overrideNamespace_success_witness :
  Forall2 (fun info info' => HelmClient.info_Name info' = HelmClient.info_Name info)
          [deployment; clusterRole; secret]
          (snd (HelmClient.overrideNamespace [deployment; clusterRole; secret] "")).
Proof.
  eapply Forall2_impl.
  - refine (HelmClientSpec.overrideNamespace_success [deployment; clusterRole; secret]
              (snd (HelmClient.overrideNamespace [deployment; clusterRole; secret] "")) "" _).
    reflexivity.
  - intros info info' H. exact (proj1 H).
Defined.

(** The object of the sealed resource takes no namespace. *)
Lemma overrideNamespace_stops_at_first_failure_witness :
  exists err stamped,
    HelmClient.overrideNamespace [clusterRole; sealed; deployment] "cache" =
      (Some err, [clusterRole; stamped; deployment]) /\
    HelmClient.info_Namespace stamped = "cache" /\
    HelmClient.object_Namespace stamped = "".
Proof.
  refine (HelmClientSpec.overrideNamespace_stops_at_first_failure
            [clusterRole] [deployment] sealed "cache" _ _ _ _);
    reflexivity.
Defined.

(** Two Manifests of the owner kyma-1: the second one gets the processor
    constructed for the first, although its factory is broken. *)
Lemma processor_constructed_once_witness :
  Lifecycle.newOperations working (Some (owned "redis")) noChartFlags (Some ∅) =
    Some (inr (Lifecycle.mkOperations (Some 7%nat) noChartFlags),
          Some (Lifecycle.cacheSet ∅ (mkKey "kyma-system" "kyma-1") (Some 7%nat)), 1%nat) /\
  Lifecycle.newOperations broken (Some (owned "nginx")) noChartFlags
    (Some (Lifecycle.cacheSet ∅ (mkKey "kyma-system" "kyma-1") (Some 7%nat))) =
    Some (inr (Lifecycle.mkOperations (Some 7%nat) noChartFlags),
          Some (Lifecycle.cacheSet ∅ (mkKey "kyma-system" "kyma-1") (Some 7%nat)), 0%nat).
Proof.
  refine (LifecycleSpec.processor_constructed_once working broken (owned "redis")
            (owned "nginx") noChartFlags noChartFlags ∅ "kyma-1" 7%nat _ _ _ _ _ _ _);
    first [ discriminate | vm_compute; reflexivity ].
Defined.

(** A base resource without the cache-key label has no owner: the
    processor is constructed and the cache stays empty. *)
Lemma processor_not_cached_without_key_witness :
  exists made,
    Lifecycle.newOperations working (Some PrepareSamples.twoInstalls) noChartFlags (Some ∅) =
      Some made /\
    snd (fst made) = Some ∅ /\ snd made = 1%nat.
Proof.
  destruct (LifecycleSpec.processor_not_cached_without_key working PrepareSamples.twoInstalls
              noChartFlags (Some ∅) (or_intror eq_refl))
    as (made & Hmade & Hcache & Hops & _).
  exists made. split; [exact Hmade|]. split; [exact Hcache|].
  assert (Hres : fst (fst made) = inr (Lifecycle.mkOperations (Some 7%nat) noChartFlags)).
  { vm_compute in Hmade. injection Hmade as <-. reflexivity. }
  exact (proj1 (Hops _ Hres)).
Defined.

(** The config layer of the registry is empty. *)
Lemma empty_config_layer_gives_no_configs_witness :
  Prepare.parseConfigs (Descriptor.onStore emptyLayerStore PrepareSamples.codec)
                       configImage "default" false =
  (inr [], [Prepare.DecodeLayer configImage ""]).
Proof.
  refine (ConfigLayerSpec.empty_config_layer_gives_no_configs emptyLayerStore
            PrepareSamples.codec configImage "default" false Prepare.DefaultKeychain
            (PathError "open" "" (ErrorString "no such file")) EOF "" _ _ _ _ _ _ _ _);
    first [ reflexivity | left; reflexivity ].
Defined.

(** One install, installed by its worker: the round ends in Ready. *)
Lemma processing_round_end_state_witness :
  let env := apiServer HelmSamples.helmInstall [nginx] allReady in
  exists w,
    Reconcile env env [Recv (HandleCharts env nginx CreateMode)] (mkKey "default" "sample") =
      (AfterFailure, None, w) /\
    statusStates w = [ManifestStateReady].
Proof.
  intros env.
  destruct (RoundSpec.processing_round_end_state env env env (mkKey "default" "sample")
              HelmSamples.helmInstall HelmSamples.helmInstall [nginx])
    as (w & Hrun & _ & Hready);
    try reflexivity.
  - repeat constructor.
  - exists w. split; [exact Hrun|]. apply Hready. repeat constructor.
Defined.

End ScenarioChecks.
